(** * Google Drive folder downloader: a shallow embedding of [downloader.py]

    The development follows the Python source function by function.
    Python strings are modelled as [string], every character standing for
    the code point of the same number (code points below 256); file
    contents are [list Byte.byte].  The Drive service and the operating
    system are external collaborators: their answers are given by records
    of response functions, the local file system and the console are
    explicit state, and every external call is logged in a trace.

    Assumptions of the model.  Paths are POSIX paths ([os.path] is
    [posixpath]).  The Drive service and the operating system answer a
    call by its arguments alone: the same request gets the same answer
    throughout a run and from one run to the next.  A printed line is
    recorded as the statement that printed it with the values formatted
    into it; [os.path.abspath(local_path)] is recorded by its argument.
    In this first part a downloader is given with its [service] field
    already set or still [None]; [authenticate] and [main] come in the
    second part. *)

From Stdlib Require Import ZArith Lia Ascii String List.
From Stdlib Require Import Strings.Byte.
From stdpp Require Import base option list gmap strings fin_maps.

Local Open Scope string_scope.
Local Open Scope Z_scope.

(** ** Python string methods *)

Module PyStr.

(** [s.startswith(pre)] *)
Definition startswith (s pre : string) : bool := String.prefix pre s.

(** [s.endswith(suf)]: some tail of [s] is [suf]. *)
Fixpoint endswith (s suf : string) : bool :=
  if String.eqb s suf then true
  else match s with
       | EmptyString => false
       | String _ s' => endswith s' suf
       end.

(** [len(s)] *)
Definition len (s : string) : Z := Z.of_nat (String.length s).

(** [c.isalnum()] for one character: [isalpha or isdecimal or isdigit
    or isnumeric], by the Unicode tables for code points below 256. *)
Definition isalnum_char (c : ascii) : bool :=
  let n := Z.of_nat (nat_of_ascii c) in
  ((48 <=? n) && (n <=? 57))          (* 0-9 *)
  || ((65 <=? n) && (n <=? 90))       (* A-Z *)
  || ((97 <=? n) && (n <=? 122))      (* a-z *)
  || (n =? 170) || (n =? 181) || (n =? 186)      (* Lo, Ll, Lo *)
  || (n =? 178) || (n =? 179) || (n =? 185)      (* superscript digits *)
  || ((188 <=? n) && (n <=? 190))                (* vulgar fractions *)
  || ((192 <=? n) && (n <=? 214))
  || ((216 <=? n) && (n <=? 246))
  || ((248 <=? n) && (n <=? 255)).

Fixpoint all_chars (p : ascii -> bool) (s : string) : bool :=
  match s with
  | EmptyString => true
  | String c s' => p c && all_chars p s'
  end.

(** [s.isalnum()]: at least one character, all of them alphanumeric. *)
Definition isalnum (s : string) : bool :=
  match s with
  | EmptyString => false
  | _ => all_chars isalnum_char s
  end.

(** Truth value of a string: [bool(s)]. *)
Definition truthy (s : string) : bool :=
  match s with EmptyString => false | _ => true end.

End PyStr.

(** ** [os.path] (POSIX flavour) *)

Module OsPath.

Definition sep : ascii := "/"%char.

Definition is_sep (c : ascii) : bool := Ascii.eqb c sep.

Fixpoint has_sep (s : string) : bool :=
  match s with
  | EmptyString => false
  | String c s' => is_sep c || has_sep s'
  end.

(** [s == sep * len(s)] *)
Definition all_sep (s : string) : bool := PyStr.all_chars is_sep s.

(** [s.rstrip(sep)] *)
Fixpoint rstrip_sep (s : string) : string :=
  match s with
  | EmptyString => EmptyString
  | String c s' =>
      match rstrip_sep s' with
      | EmptyString => if is_sep c then EmptyString else String c EmptyString
      | r => String c r
      end
  end.

(** [p[:p.rfind(sep) + 1]] *)
Fixpoint head_part (p : string) : string :=
  match p with
  | EmptyString => EmptyString
  | String c s => if is_sep c || has_sep s then String c (head_part s)
                  else EmptyString
  end.



(** [os.path.dirname(p)] *)
Definition dirname (p : string) : string :=
  let head := head_part p in
  if PyStr.truthy head && negb (all_sep head) then rstrip_sep head else head.

(** [os.path.join(a, b)] *)
Definition join (a b : string) : string :=
  if PyStr.startswith b "/" then b
  else if negb (PyStr.truthy a) || PyStr.endswith a "/" then a +:+ b
  else a +:+ "/" +:+ b.

End OsPath.

(** ** Data model *)

Definition bytes := list Byte.byte.

(** One entry of a listing: [files(id, name, mimeType, size)]. *)
Record RemoteFile := {
  rf_id : string;
  rf_name : string;
  rf_mimeType : string;
  rf_size : option Z
}.

(** One entry of a folder query: [files(id, name)]. *)
Record FolderEntry := {
  fe_id : string;
  fe_name : string
}.

(** The exceptions the modelled calls can raise; all of them derive from
    Python's [Exception]. *)
Inductive exn :=
| HttpError (status : Z)
| OSError (errno : Z)
| ValueError
| EOFError
| AttributeError
| IndexError
| NotAuthenticated.

Inductive outcome (A : Type) :=
| Ret (a : A)
| Raise (e : exn).
Arguments Ret {A} a.
Arguments Raise {A} e.

(** A download request object, built by [export_media] or [get_media];
    building it sends nothing. *)
Inductive request :=
| ExportMedia (file_id mime_type : string)
| GetMedia (file_id : string).

(** What [int(input(...))] yields for one line typed by the user. *)
Inductive input_line :=
| Num (z : Z)
| NotANumber.

(** The [print] statements of [get_folder_id], [download_file] and
    [download_folder], one constructor each, with the interpolated values. *)
Inductive message :=
| MsgMultipleFolders (folder_name : string)
| MsgFolderChoice (i : Z) (name id : string)
| MsgInvalidChoice
| MsgEnterValidNumber
| MsgSkipping (file_name : string)
| MsgSavedTo (download_path : string)
| MsgNotAtExpectedLocation (download_path : string)
| MsgErrorDownloading (file_name : string) (e : exn)
| MsgAttemptingToSave (local_path : string)
| MsgFullAbsolutePath (local_path : string)
| MsgParentMissing (parent_dir : string)
| MsgCreatedParents
| MsgFailedCreateParents (e : exn)
| MsgTargetReady (local_path : string)
| MsgFailedCreateTarget (e : exn)
| MsgFolderNotFound (folder_identifier : string)
| MsgDownloadingFromFolder (folder_id : string)
| MsgNoFilesFound
| MsgFoundFiles (n : Z)
| MsgDownloading (i n : Z) (file_name : string)
| MsgDownloaded (file_name : string)
| MsgDownloadComplete (success_count n : Z).

(** Every interaction with the outside, in the order it happens. *)
Inductive event :=
| Print (m : message)
| Input
| CallFolderQuery (folder_name : string)
| CallList (folder_id : string)
| CallGetMetadata (file_id : string)
| CallNextChunk (r : request)
| CallExists (p : string) (found : bool)
| CallMakedirs (p : string) (ok : bool)
| CallOpenWrite (p : string)
| CallWrite (p : string) (data : bytes).

(** The Drive service behind [self.service]: what each remote call
    answers.  A download answers chunk by chunk: the first answer and the
    following ones. *)
Record Drive := {
  folder_query : string -> outcome (list FolderEntry);
  children : string -> outcome (list RemoteFile);
  metadata_mimeType : string -> outcome (option string);
  chunks : request -> outcome bytes * list (outcome bytes)
}.

(** The object [self]; [service] is [None] until [authenticate] ran. *)
Record GoogleDriveDownloader := {
  service : option Drive
}.

(** The operating system's faults: the error a call on a path raises, if
    any; [write_lost p] is a path whose write returns normally and leaves
    no entry behind. *)
Record OS := {
  makedirs_fault : string -> option exn;
  open_fault : string -> option exn;
  write_fault : string -> option exn;
  write_lost : string -> bool
}.

(** The local machine: directories, regular files with their contents,
    the lines waiting on standard input, and the trace of events. *)
Record world := {
  dirs : gset string;
  files : gmap string bytes;
  stdin : list input_line;
  trace : list event
}.

Definition log (ev : event) (w : world) : world :=
  {| dirs := dirs w; files := files w; stdin := stdin w;
     trace := trace w ++ [ev] |}.

Definition set_files (f : gmap string bytes) (w : world) : world :=
  {| dirs := dirs w; files := f; stdin := stdin w; trace := trace w |}.

Definition set_dirs (d : gset string) (w : world) : world :=
  {| dirs := d; files := files w; stdin := stdin w; trace := trace w |}.

Definition set_stdin (l : list input_line) (w : world) : world :=
  {| dirs := dirs w; files := files w; stdin := l; trace := trace w |}.

(** ** The monad of the embedding: state and exceptions *)

Definition M (A : Type) : Type := world -> outcome A * world.

Definition ret {A} (a : A) : M A := fun w => (Ret a, w).

Definition raise {A} (e : exn) : M A := fun w => (Raise e, w).

Definition bind {A B} (m : M A) (k : A -> M B) : M B :=
  fun w => match m w with
           | (Ret a, w') => k a w'
           | (Raise e, w') => (Raise e, w')
           end.

(** [try: body except Exception as e: handler(e)] *)
Definition try_except {A} (body : M A) (handler : exn -> M A) : M A :=
  fun w => match body w with
           | (Ret a, w') => (Ret a, w')
           | (Raise e, w') => handler e w'
           end.

Declare Scope py_scope.
Delimit Scope py_scope with py.
Notation "x <- m ;; k" := (bind m (fun x => k))
  (at level 100, m at next level, right associativity) : py_scope.
Notation "m ;; k" := (bind m (fun _ => k))
  (at level 100, right associativity) : py_scope.
Local Open Scope py_scope.

Definition emit (ev : event) : M unit := fun w => (Ret tt, log ev w).

Definition print (m : message) : M unit := emit (Print m).

Definition lift_outcome {A} (o : outcome A) : M A := fun w => (o, w).

(** ** Operating-system calls *)

Section Program.

Variable os : OS.
Variable self : GoogleDriveDownloader.

(** [os.path.exists(p)] *)
Definition path_exists (w : world) (p : string) : bool :=
  bool_decide (p ∈ dirs w) || bool_decide (is_Some (files w !! p)).

Definition os_path_exists (p : string) : M bool :=
  fun w => (Ret (path_exists w p), log (CallExists p (path_exists w p)) w).

(** [os.makedirs(p, exist_ok=True)] *)
Definition os_makedirs (p : string) : M unit :=
  fun w => match makedirs_fault os p with
           | Some e => (Raise e, log (CallMakedirs p false) w)
           | None => (Ret tt, log (CallMakedirs p true)
                                  (set_dirs ({[p]} ∪ dirs w) w))
           end.

(** [with open(p, 'wb') as f: f.write(data)]: opening creates or
    truncates the file, then the buffer is written in one call. *)
Definition open_and_write (p : string) (data : bytes) : M unit :=
  fun w => match open_fault os p with
           | Some e => (Raise e, log (CallOpenWrite p) w)
           | None =>
               let w1 := log (CallOpenWrite p) (set_files (<[p := []]> (files w)) w) in
               match write_fault os p with
               | Some e => (Raise e, log (CallWrite p data) w1)
               | None =>
                   let f := if write_lost os p then delete p (files w1)
                            else <[p := data]> (files w1) in
                   (Ret tt, log (CallWrite p data) (set_files f w1))
               end
           end.

(** Consuming one line of standard input. *)
Definition put_stdin (rest : list input_line) : M unit :=
  fun w => (Ret tt, set_stdin rest w).

(** ** Remote calls through [self.service] *)

Definition with_service {A} (k : Drive -> M A) : M A :=
  match service self with
  | Some d => k d
  | None => raise AttributeError
  end.

(** [self.service.files().list(q=name and folder type, fields=...).execute()] *)
Definition files_list_folders (folder_name : string) : M (list FolderEntry) :=
  with_service (fun d =>
    emit (CallFolderQuery folder_name) ;;
    lift_outcome (folder_query d folder_name)).

(** [self.service.files().get(fileId=file_id).execute()], of which only
    the [mimeType] entry is read. *)
Definition files_get (file_id : string) : M (option string) :=
  with_service (fun d =>
    emit (CallGetMetadata file_id) ;;
    lift_outcome (metadata_mimeType d file_id)).

(** [downloader.next_chunk()] until [done]: every call sends the
    request for the next chunk and appends the answer to [fh]. *)
Fixpoint next_chunks (d : Drive) (r : request) (c : outcome bytes)
    (following : list (outcome bytes)) (fh : bytes) : M bytes :=
  emit (CallNextChunk r) ;;
  match c with
  | Raise e => raise e
  | Ret b =>
      match following with
      | [] => ret (fh ++ b)%list
      | c' :: following' => next_chunks d r c' following' (fh ++ b)%list
      end
  end.

Definition media_download (r : request) : M bytes :=
  with_service (fun d =>
    next_chunks d r (fst (chunks d r)) (snd (chunks d r)) []).

(** ** [get_folder_id] *)

(** [for i, folder in enumerate(folders): print(...)] *)
Fixpoint print_choices (i : Z) (folders : list FolderEntry) : M unit :=
  match folders with
  | [] => ret tt
  | folder :: rest =>
      print (MsgFolderChoice (i + 1) (fe_name folder) (fe_id folder)) ;;
      print_choices (i + 1) rest
  end.

(** The [while True] loop around [int(input(...))]; [pending] is what
    standard input still holds.  The loop ends on a valid choice, or
    with [EOFError] (which is not caught) when the input is exhausted. *)
Fixpoint ask_choice (folders : list FolderEntry) (pending : list input_line)
    : M string :=
  match pending with
  | [] => emit Input ;; raise EOFError
  | line :: rest =>
      emit Input ;;
      put_stdin rest ;;
      match line with
      | NotANumber =>
          print MsgEnterValidNumber ;;
          ask_choice folders rest
      | Num z =>
          let choice := z - 1 in
          if (0 <=? choice) && (choice <? Z.of_nat (length folders)) then
            match folders !! Z.to_nat choice with
            | Some folder => ret (fe_id folder)
            | None => raise IndexError
            end
          else
            print MsgInvalidChoice ;;
            ask_choice folders rest
      end
  end.

Definition get_folder_id (folder_name : string) : M (option string) :=
  folders <- files_list_folders folder_name ;;
  match folders with
  | [] => ret None
  | [folder] => ret (Some (fe_id folder))
  | _ =>
      print (MsgMultipleFolders folder_name) ;;
      print_choices 0 folders ;;
      pending <- (fun w => (Ret (stdin w), w)) ;;
      id <- ask_choice folders pending ;;
      ret (Some id)
  end.

(** ** [list_files_in_folder] *)

Definition list_files_in_folder (folder_id : string) : M (list RemoteFile) :=
  with_service (fun d =>
    emit (CallList folder_id) ;;
    lift_outcome (children d folder_id)).

(** ** [download_file] *)

(** Python dictionaries with string keys and values, as written in the
    source, and [d.get(k)]. *)
Fixpoint dict_get (d : list (string * string)) (k : string) : option string :=
  match d with
  | [] => None
  | (k', v) :: d' => if String.eqb k' k then Some v else dict_get d' k
  end.

Definition export_formats : list (string * string) :=
  [ ("application/vnd.google-apps.document",
     "application/vnd.openxmlformats-officedocument.wordprocessingml.document");
    ("application/vnd.google-apps.spreadsheet",
     "application/vnd.openxmlformats-officedocument.spreadsheetml.sheet");
    ("application/vnd.google-apps.presentation",
     "application/vnd.openxmlformats-officedocument.presentationml.presentation");
    ("application/vnd.google-apps.drawing", "image/png") ].

Definition extensions : list (string * string) :=
  [ ("application/vnd.openxmlformats-officedocument.wordprocessingml.document", ".docx");
    ("application/vnd.openxmlformats-officedocument.spreadsheetml.sheet", ".xlsx");
    ("application/vnd.openxmlformats-officedocument.presentationml.presentation", ".pptx");
    ("image/png", ".png") ].

(** Truth value of the result of [d.get(k)]: [None] and the empty
    string are false. *)
Definition truthy_opt (o : option string) : bool :=
  match o with
  | Some s => PyStr.truthy s
  | None => false
  end.

(** The handler of the function's [except Exception as e]; [file_name]
    is the value the variable holds when the exception is raised. *)
Definition on_error (file_name : string) (e : exn) : M bool :=
  print (MsgErrorDownloading file_name e) ;;
  ret false.

(** Lines 180 to 198: fetch the content into memory, write it out,
    check the path, return [True]. *)
Definition fetch_and_write (r : request) (file_name download_path : string)
    : M bool :=
  try_except
    (fh <- media_download r ;;
     open_and_write download_path fh ;;
     found <- os_path_exists download_path ;;
     (if found then print (MsgSavedTo download_path)
      else print (MsgNotAtExpectedLocation download_path)) ;;
     ret true)
    (on_error file_name).

(** The body of the [try] is split where [file_name] is rebound, so
    that each part is handled with the name current at that point; the
    inner part never raises. *)
Definition download_file (file_id file_name download_path : string) : M bool :=
  try_except
    (file_metadata <- files_get file_id ;;
     let mime_type := default "" file_metadata in
     if PyStr.startswith mime_type "application/vnd.google-apps." then
       let export_mime_type := dict_get export_formats mime_type in
       if truthy_opt export_mime_type then
         let export_mime_type := default "" export_mime_type in
         let r := ExportMedia file_id export_mime_type in
         let ext := default "" (dict_get extensions export_mime_type) in
         if negb (PyStr.endswith file_name ext) then
           let file_name := file_name +:+ ext in
           let download_path :=
             OsPath.join (OsPath.dirname download_path) file_name in
           fetch_and_write r file_name download_path
         else
           fetch_and_write r file_name download_path
       else
         print (MsgSkipping file_name) ;;
         ret false
     else
       fetch_and_write (GetMedia file_id) file_name download_path)
    (on_error file_name).

(** ** [download_folder] *)

(** Lines 220 to 228; the result is [false] where the source returns. *)
Definition ensure_parent (parent_dir : string) : M bool :=
  missing <- (if PyStr.truthy parent_dir
              then found <- os_path_exists parent_dir ;; ret (negb found)
              else ret false) ;;
  if (missing : bool) then
    print (MsgParentMissing parent_dir) ;;
    try_except
      (os_makedirs parent_dir ;;
       print MsgCreatedParents ;;
       ret true)
      (fun e => print (MsgFailedCreateParents e) ;; ret false)
  else ret true.

(** Lines 231 to 236; the result is [false] where the source returns. *)
Definition ensure_target (local_path : string) : M bool :=
  try_except
    (os_makedirs local_path ;;
     print (MsgTargetReady local_path) ;;
     ret true)
    (fun e => print (MsgFailedCreateTarget e) ;; ret false).

(** The shape test of line 239. *)
Definition looks_like_id (folder_identifier : string) : bool :=
  (PyStr.len folder_identifier =? 33) && PyStr.isalnum folder_identifier.

(** Lines 239 to 247; the result is [None] where the source returns. *)
Definition resolve_folder (folder_identifier : string) : M (option string) :=
  if looks_like_id folder_identifier then
    ret (Some folder_identifier)
  else
    folder_id <- get_folder_id folder_identifier ;;
    if negb (truthy_opt folder_id) then
      print (MsgFolderNotFound folder_identifier) ;;
      ret None
    else ret folder_id.

(** Lines 262 to 271: [for i, file in enumerate(files, 1)], with [n]
    for [len(files)]; the result is the final [success_count]. *)
Fixpoint download_each (local_path : string) (n i success_count : Z)
    (files : list RemoteFile) : M Z :=
  match files with
  | [] => ret success_count
  | file :: rest =>
      let file_name := rf_name file in
      let file_id := rf_id file in
      let file_path := OsPath.join local_path file_name in
      print (MsgDownloading i n file_name) ;;
      ok <- download_file file_id file_name file_path ;;
      success_count <- (if (ok : bool)
                        then print (MsgDownloaded file_name) ;;
                             ret (success_count + 1)
                        else ret success_count) ;;
      download_each local_path n (i + 1) success_count rest
  end.

(** Lines 249 to 273, once the folder id is known. *)
Definition download_listing (local_path folder_id : string) : M unit :=
  print (MsgDownloadingFromFolder folder_id) ;;
  files <- list_files_in_folder folder_id ;;
  match files with
  | [] => print MsgNoFilesFound ;; ret tt
  | _ =>
      let n := Z.of_nat (length files) in
      print (MsgFoundFiles n) ;;
      success_count <- download_each local_path n 1 0 files ;;
      print (MsgDownloadComplete success_count n)
  end.

(** The function returns [None] on every path: the result type is
    [unit]. *)
Definition download_folder (folder_identifier local_path : string) : M unit :=
  if negb (bool_decide (is_Some (service self))) then raise NotAuthenticated
  else
    print (MsgAttemptingToSave local_path) ;;
    print (MsgFullAbsolutePath local_path) ;;
    let parent_dir := OsPath.dirname local_path in
    parent_ready <- ensure_parent parent_dir ;;
    if negb parent_ready then ret tt
    else
      target_ready <- ensure_target local_path ;;
      if negb target_ready then ret tt
      else
        resolved <- resolve_folder folder_identifier ;;
        match resolved with
        | None => ret tt
        | Some folder_id => download_listing local_path folder_id
        end.

End Program.

(** ** The file-system effect of a run *)

(** The events a run appended: what the final trace holds beyond the
    initial one. *)
Definition new_events (w w' : world) : list event :=
  drop (length (trace w)) (trace w').

(** Appending several events at once. *)
Definition logs (evs : list event) (w : world) : world :=
  {| dirs := dirs w; files := files w; stdin := stdin w;
     trace := trace w ++ evs |}.

(** What one download does to the files: nothing, or one path set to a
    content or left absent. *)
Definition fs_op : Type := option (string * option bytes).

Definition apply_op (op : fs_op) (f : gmap string bytes) : gmap string bytes :=
  match op with
  | None => f
  | Some (p, Some data) => <[p := data]> f
  | Some (p, None) => delete p f
  end.

Definition apply_ops (ops : list fs_op) (f : gmap string bytes)
    : gmap string bytes :=
  foldl (fun f op => apply_op op f) f ops.

(** The last thing a list of operations does to path [p], if any. *)
Fixpoint last_op (ops : list fs_op) (p : string) : option (option bytes) :=
  match ops with
  | [] => None
  | op :: ops' =>
      match last_op ops' p with
      | Some v => Some v
      | None =>
          match op with
          | Some (q, v) => if String.eqb q p then Some v else None
          | None => None
          end
      end
  end.

(** The content a download assembles from the answers to its chunk
    requests: the pure part of [next_chunks]. *)
Fixpoint assemble (c : outcome bytes) (following : list (outcome bytes))
    (fh : bytes) : outcome bytes :=
  match c with
  | Raise e => Raise e
  | Ret b =>
      match following with
      | [] => Ret (fh ++ b)%list
      | c' :: following' => assemble c' following' (fh ++ b)%list
      end
  end.

Definition content_of (d : Drive) (r : request) : outcome bytes :=
  assemble (chunks d r).1 (chunks d r).2 [].

(** What [open_and_write] leaves at [p]. *)
Definition write_op (os : OS) (p : string) (data : bytes) : fs_op :=
  match open_fault os p with
  | Some _ => None
  | None =>
      match write_fault os p with
      | Some _ => Some (p, Some [])
      | None => if write_lost os p then Some (p, None) else Some (p, Some data)
      end
  end.

(** The decision [download_file] takes from the fetched metadata. *)
Inductive plan :=
| PlanFail (e : exn)
| PlanSkip
| PlanFetch (r : request) (file_name download_path : string).

Definition file_plan (d : Drive) (file_id file_name download_path : string)
    : plan :=
  match metadata_mimeType d file_id with
  | Raise e => PlanFail e
  | Ret file_metadata =>
      let mime_type := default "" file_metadata in
      if PyStr.startswith mime_type "application/vnd.google-apps." then
        match dict_get export_formats mime_type with
        | Some export_mime_type =>
            if PyStr.truthy export_mime_type then
              let ext := default "" (dict_get extensions export_mime_type) in
              if negb (PyStr.endswith file_name ext) then
                PlanFetch (ExportMedia file_id export_mime_type)
                  (file_name +:+ ext)
                  (OsPath.join (OsPath.dirname download_path) (file_name +:+ ext))
              else
                PlanFetch (ExportMedia file_id export_mime_type)
                  file_name download_path
            else PlanSkip
        | None => PlanSkip
        end
      else PlanFetch (GetMedia file_id) file_name download_path
  end.

Definition fetch_op (os : OS) (d : Drive) (r : request) (download_path : string)
    : fs_op :=
  match content_of d r with
  | Ret data => write_op os download_path data
  | Raise _ => None
  end.

Definition file_op (os : OS) (self : GoogleDriveDownloader)
    (file_id file_name download_path : string) : fs_op :=
  match service self with
  | None => None
  | Some d =>
      match file_plan d file_id file_name download_path with
      | PlanFetch r _ p => fetch_op os d r p
      | _ => None
      end
  end.

(** How many chunk requests a download sends. *)
Fixpoint chunk_calls (c : outcome bytes) (following : list (outcome bytes))
    : nat :=
  match c with
  | Raise _ => 1
  | Ret _ =>
      match following with
      | [] => 1
      | c' :: following' => S (chunk_calls c' following')
      end
  end.

(** The result and the events of [fetch_and_write]; [is_dir] tells
    whether the destination path is a known directory. *)
Definition fetch_summary (os : OS) (d : Drive) (r : request)
    (file_name download_path : string) (is_dir : bool) : bool * list event :=
  let calls := replicate (chunk_calls (chunks d r).1 (chunks d r).2)
                 (CallNextChunk r) in
  let found := is_dir || negb (write_lost os download_path) in
  match content_of d r with
  | Raise e => (false, calls ++ [Print (MsgErrorDownloading file_name e)])
  | Ret data =>
      match open_fault os download_path with
      | Some e =>
          (false, calls ++ [CallOpenWrite download_path;
                            Print (MsgErrorDownloading file_name e)])
      | None =>
          match write_fault os download_path with
          | Some e =>
              (false, calls ++ [CallOpenWrite download_path;
                                CallWrite download_path data;
                                Print (MsgErrorDownloading file_name e)])
          | None =>
              (true, calls ++ [CallOpenWrite download_path;
                               CallWrite download_path data;
                               CallExists download_path found;
                               Print (if found
                                      then MsgSavedTo download_path
                                      else MsgNotAtExpectedLocation download_path)])
          end
      end
  end%list.

(** The result and the events of [download_file] in a world whose
    directories are [ds]. *)
Definition file_summary (os : OS) (self : GoogleDriveDownloader)
    (file_id file_name download_path : string) (ds : gset string)
    : bool * list event :=
  match service self with
  | None => (false, [Print (MsgErrorDownloading file_name AttributeError)])
  | Some d =>
      match file_plan d file_id file_name download_path with
      | PlanFail e =>
          (false, [CallGetMetadata file_id;
                   Print (MsgErrorDownloading file_name e)])
      | PlanSkip =>
          (false, [CallGetMetadata file_id; Print (MsgSkipping file_name)])
      | PlanFetch r n p =>
          let s := fetch_summary os d r n p (bool_decide (p ∈ ds)) in
          (s.1, CallGetMetadata file_id :: s.2)
      end
  end.

(** The final [success_count] and the events of the loop of
    [download_folder]. *)
Fixpoint each_summary (os : OS) (self : GoogleDriveDownloader)
    (local_path : string) (n i success_count : Z) (listing : list RemoteFile)
    (ds : gset string) : Z * list event :=
  match listing with
  | [] => (success_count, [])
  | file :: rest =>
      let s := file_summary os self (rf_id file) (rf_name file)
                 (OsPath.join local_path (rf_name file)) ds in
      let tail := each_summary os self local_path n (i + 1)
                    (if s.1 then success_count + 1 else success_count) rest ds in
      (tail.1,
       (Print (MsgDownloading i n (rf_name file)) :: s.2
        ++ (if s.1 then [Print (MsgDownloaded (rf_name file))] else [])
        ++ tail.2)%list)
  end.

(** The operations of one pass over a listing, in listing order. *)
Definition sync_ops (os : OS) (self : GoogleDriveDownloader)
    (local_path : string) (listing : list RemoteFile) : list fs_op :=
  map (fun file => file_op os self (rf_id file) (rf_name file)
                     (OsPath.join local_path (rf_name file))) listing.

(** The result, the events and the file operations of
    [download_listing] in a world whose directories are [ds]. *)
Definition listing_summary (os : OS) (self : GoogleDriveDownloader) (d : Drive)
    (local_path folder_id : string) (ds : gset string)
    : outcome unit * list event * list fs_op :=
  let head := [Print (MsgDownloadingFromFolder folder_id); CallList folder_id] in
  match children d folder_id with
  | Raise e => (Raise e, head, [])
  | Ret [] => (Ret tt, head ++ [Print MsgNoFilesFound], [])
  | Ret listing =>
      let n := Z.of_nat (length listing) in
      let s := each_summary os self local_path n 1 0 listing ds in
      (Ret tt,
       head ++ [Print (MsgFoundFiles n)] ++ s.2
         ++ [Print (MsgDownloadComplete s.1 n)],
       sync_ops os self local_path listing)
  end%list.

(** The file operations of a pass over the folder [folder_id]. *)
Definition listing_ops (os : OS) (self : GoogleDriveDownloader) (d : Drive)
    (local_path folder_id : string) : list fs_op :=
  match children d folder_id with
  | Ret listing => sync_ops os self local_path listing
  | Raise _ => []
  end.

(** The two halves of [download_folder]: lines 216 to 236, whose result
    tells whether the function goes on, and lines 239 to 273. *)
Definition prepare (os : OS) (local_path : string) : M bool :=
  (print (MsgAttemptingToSave local_path) ;;
   print (MsgFullAbsolutePath local_path) ;;
   parent_ready <- ensure_parent os (OsPath.dirname local_path) ;;
   if negb parent_ready then ret false
   else ensure_target os local_path)%py.

Definition sync_prepared (os : OS) (self : GoogleDriveDownloader)
    (folder_identifier local_path : string) : M unit :=
  (resolved <- resolve_folder self folder_identifier ;;
   match resolved with
   | None => ret tt
   | Some folder_id => download_listing os self local_path folder_id
   end)%py.

(** The result, the events and the directories created by [prepare], in
    a world where [os.path.exists(parent_dir)] is [parent_found]. *)
Definition prep_summary (os : OS) (local_path : string) (parent_found : bool)
    : bool * list event * gset string :=
  let parent_dir := OsPath.dirname local_path in
  let intro := [Print (MsgAttemptingToSave local_path);
                Print (MsgFullAbsolutePath local_path)] in
  let probe := if PyStr.truthy parent_dir
               then [CallExists parent_dir parent_found] else [] in
  let target (created : gset string) (before : list event) :=
    match makedirs_fault os local_path with
    | Some e =>
        (false,
         before ++ [CallMakedirs local_path false; Print (MsgFailedCreateTarget e)],
         created)
    | None =>
        (true,
         before ++ [CallMakedirs local_path true; Print (MsgTargetReady local_path)],
         {[local_path]} ∪ created)
    end%list in
  if PyStr.truthy parent_dir && negb parent_found then
    match makedirs_fault os parent_dir with
    | Some e =>
        (false,
         intro ++ probe ++ [Print (MsgParentMissing parent_dir);
                            CallMakedirs parent_dir false;
                            Print (MsgFailedCreateParents e)],
         ∅)
    | None =>
        target {[parent_dir]}
          (intro ++ probe ++ [Print (MsgParentMissing parent_dir);
                              CallMakedirs parent_dir true;
                              Print MsgCreatedParents])
    end%list
  else target ∅ (intro ++ probe)%list.

(** Events of the console during folder resolution. *)
Definition is_console_event (ev : event) : bool :=
  match ev with
  | Print (MsgMultipleFolders _) | Print (MsgFolderChoice _ _ _)
  | Print MsgInvalidChoice | Print MsgEnterValidNumber
  | Print (MsgFolderNotFound _) | Input => true
  | _ => false
  end.

(** The summary of the preparation in world [w], and the world it
    leaves but for the trace. *)
Definition prep_of (os : OS) (local_path : string) (w : world)
    : bool * list event * gset string :=
  prep_summary os local_path (path_exists w (OsPath.dirname local_path)).

Definition prepared (os : OS) (local_path : string) (w : world) : world :=
  set_dirs ((prep_of os local_path w).2 ∪ dirs w) w.

(** The three ways a run of [download_folder] with a service unfolds:
    it stops in the preparation; or at the resolution of a name, not
    found ([Ret tt]) or with an error; or it lists one folder and
    downloads what the listing holds. *)
Inductive folder_run (os : OS) (self : GoogleDriveDownloader) (d : Drive)
    (folder_identifier local_path : string) (w : world)
    : outcome unit * world -> Prop :=
| Aborted :
    (prep_of os local_path w).1.1 = false ->
    folder_run os self d folder_identifier local_path w
      (Ret tt, logs (prep_of os local_path w).1.2 (prepared os local_path w))
| Unresolved (o : outcome unit) (res : list event) (rest : list input_line) :
    (prep_of os local_path w).1.1 = true ->
    looks_like_id folder_identifier = false ->
    Forall (fun ev => is_console_event ev = true) res ->
    (o = Ret tt ->
     exists res0, res = (res0 ++ [Print (MsgFolderNotFound folder_identifier)])%list) ->
    (folder_query d folder_identifier = Ret [] -> o = Ret tt) ->
    folder_run os self d folder_identifier local_path w
      (o, logs ((prep_of os local_path w).1.2
                ++ CallFolderQuery folder_identifier :: res)
            (set_stdin rest (prepared os local_path w)))
| Listed (folder_id : string) (res : list event) (rest : list input_line) :
    (prep_of os local_path w).1.1 = true ->
    (if looks_like_id folder_identifier
     then res = [] /\ folder_id = folder_identifier
     else folder_query d folder_identifier <> Ret []
          /\ exists res', res = CallFolderQuery folder_identifier :: res'
                          /\ Forall (fun ev => is_console_event ev = true) res') ->
    folder_run os self d folder_identifier local_path w
      ((listing_summary os self d local_path folder_id
          (dirs (prepared os local_path w))).1.1,
       logs ((prep_of os local_path w).1.2 ++ res
             ++ (listing_summary os self d local_path folder_id
                   (dirs (prepared os local_path w))).1.2)
         (set_files
            (apply_ops
               (listing_summary os self d local_path folder_id
                  (dirs (prepared os local_path w))).2
               (files w))
            (set_stdin rest (prepared os local_path w)))).

(** ** Event classes *)

(** Events of the directory preparation (lines 216 to 236). *)
Definition is_prep_event (ev : event) : bool :=
  match ev with
  | Print (MsgAttemptingToSave _) | Print (MsgFullAbsolutePath _)
  | Print (MsgParentMissing _) | Print MsgCreatedParents
  | Print (MsgFailedCreateParents _) | Print (MsgTargetReady _)
  | Print (MsgFailedCreateTarget _)
  | CallExists _ _ | CallMakedirs _ _ => true
  | _ => false
  end.

(** Events of one [download_file] call. *)
Definition is_file_event (ev : event) : bool :=
  match ev with
  | Print _ | CallGetMetadata _ | CallNextChunk _ | CallOpenWrite _
  | CallWrite _ _ | CallExists _ _ => true
  | _ => false
  end.

(** A call that lists: the folder query and the listing of children are
    both [files().list] requests. *)
Definition is_listing_call (ev : event) : bool :=
  match ev with
  | CallFolderQuery _ | CallList _ => true
  | _ => false
  end.

(** A call on one file: its metadata, its content, its local copy. *)
Definition is_file_call (ev : event) : bool :=
  match ev with
  | CallGetMetadata _ | CallNextChunk _ | CallOpenWrite _ | CallWrite _ _ => true
  | _ => false
  end.


(** The call that fetches the metadata of a file: the first thing
    [download_file] does, once per file. *)
Definition is_metadata_call (ev : event) : bool :=
  match ev with
  | CallGetMetadata _ => true
  | _ => false
  end.



(** Opening a local file for writing, and writing it. *)
Definition is_local_write (ev : event) : bool :=
  match ev with
  | CallOpenWrite _ | CallWrite _ _ => true
  | _ => false
  end.

(** What [download_file] does after the metadata call. *)
Definition is_inner_event (ev : event) : bool :=
  match ev with
  | Print (MsgSkipping _) | Print (MsgSavedTo _)
  | Print (MsgNotAtExpectedLocation _) | Print (MsgErrorDownloading _ _)
  | CallNextChunk _ | CallOpenWrite _ | CallWrite _ _ | CallExists _ _ => true
  | _ => false
  end.

Definition is_list_call (ev : event) : bool :=
  match ev with
  | CallList _ => true
  | _ => false
  end.

Definition is_folder_query (ev : event) : bool :=
  match ev with
  | CallFolderQuery _ => true
  | _ => false
  end.

Definition is_makedirs_call (ev : event) : bool :=
  match ev with
  | CallMakedirs _ _ => true
  | _ => false
  end.

(** A listing call or a file call. *)
Definition is_remote_or_file_call (ev : event) : bool :=
  is_listing_call ev || is_file_call ev.

(** ** Concrete worlds, for examples *)

Module Demo.

Definition doc_mime : string := "application/vnd.google-apps.document".
Definition form_mime : string := "application/vnd.google-apps.form".
Definition pdf_mime : string := "application/pdf".

(** An operating system on which nothing goes wrong. *)
Definition sound_os : OS :=
  {| makedirs_fault := fun _ => None;
     open_fault := fun _ => None;
     write_fault := fun _ => None;
     write_lost := fun _ => false |}.


(** An operating system on which a write to [p] leaves nothing. *)
Definition lossy_os (p : string) : OS :=
  {| makedirs_fault := fun _ => None;
     open_fault := fun _ => None;
     write_fault := fun _ => None;
     write_lost := fun q => String.eqb q p |}.

(** Exported content starts like a zip archive; raw content is one
    byte per character of the file id. *)
Definition content (r : request) : bytes :=
  match r with
  | ExportMedia _ _ => [x50; x4b]
  | GetMedia file_id => map byte_of_ascii (list_ascii_of_string file_id)
  end.

(** A Drive with one folder content [listing], found under every id,
    and [folders] as the answer to every folder query. *)
Definition drive (folders : list FolderEntry) (listing : list RemoteFile)
    : Drive :=
  {| folder_query := fun _ => Ret folders;
     children := fun _ => Ret listing;
     metadata_mimeType := fun file_id =>
       match List.find (fun f => String.eqb (rf_id f) file_id) listing with
       | Some f => Ret (Some (rf_mimeType f))
       | None => Raise (HttpError 404)
       end;
     chunks := fun r => (Ret (content r), []) |}.

Definition downloader (folders : list FolderEntry)
    (listing : list RemoteFile) : GoogleDriveDownloader :=
  {| service := Some (drive folders listing) |}.

Definition file (id name mime : string) : RemoteFile :=
  {| rf_id := id; rf_name := name; rf_mimeType := mime; rf_size := None |}.

Definition start : world :=
  {| dirs := ∅; files := ∅; stdin := []; trace := [] |}.

(** Listings and downloaders used below. *)
Definition one_document : list RemoteFile := [file "f1" "report" doc_mime].
Definition one_pdf : list RemoteFile := [file "f1" "a.pdf" pdf_mime].

Definition documents : GoogleDriveDownloader := downloader [] one_document.
Definition pdfs : GoogleDriveDownloader := downloader [] one_pdf.

Definition mixed : list RemoteFile :=
  [file "f1" "report" doc_mime; file "f2" "survey" form_mime;
   file "f3" "a.pdf" pdf_mime].

Definition mixed_files : GoogleDriveDownloader := downloader [] mixed.

(** A folder id of the canonical shape. *)
Definition folder_id : string := "1AbCdEfGhIjKlMnOpQrStUvWxYz012345".


(** Two passes over the same folder, one after the other. *)
Definition first_pass : outcome unit * world :=
  download_folder sound_os mixed_files folder_id "out" start.
Definition second_pass : outcome unit * world :=
  download_folder sound_os mixed_files folder_id "out" first_pass.2.

End Demo.

(** ** Statements about one download *)

(** A run of [download_file] on a file of native type [mime] exports or
    skips: it never requests the raw content; with an export format in
    the table, every content request is the export request in that
    format, one is sent at least, what is written is the exported
    content, and any content new in the file system is empty or the
    exported content; without one, [False] is returned after the skip
    message and no file changes. *)
Definition exported_or_skipped (d : Drive) (file_id file_name mime : string)
    (w : world) (run : outcome bool * world) : Prop :=
  let evs := new_events w run.2 in
  trace run.2 = (trace w ++ evs)%list
  /\ (forall id, CallNextChunk (GetMedia id) ∉ evs)
  /\ match dict_get export_formats mime with
     | Some export_mime_type =>
         let r := ExportMedia file_id export_mime_type in
         CallNextChunk r ∈ evs
         /\ (forall r', CallNextChunk r' ∈ evs -> r' = r)
         /\ (forall p data, CallWrite p data ∈ evs -> content_of d r = Ret data)
         /\ (forall p data, files run.2 !! p = Some data ->
               files w !! p = Some data \/ data = []
               \/ content_of d r = Ret data)
     | None =>
         run.1 = Ret false
         /\ evs = [CallGetMetadata file_id; Print (MsgSkipping file_name)]
         /\ files run.2 = files w
     end.


(** ** Statements about one run of [download_folder] *)

(** Directories come first: whenever the run makes a listing call or a
    file call, the target directory has been created before it, and so
    has the parent directory, before the target, if it was missing; and
    a run in which a directory creation fails makes no listing call and
    no file call at all, and returns. *)
Definition directories_first (local_path : string) (w : world)
    (run : outcome unit * world) : Prop :=
  let evs := new_events w run.2 in
  let parent_dir := OsPath.dirname local_path in
  trace run.2 = (trace w ++ evs)%list
  /\ (forall pre ev post,
        evs = (pre ++ ev :: post)%list ->
        is_remote_or_file_call ev = true ->
        CallMakedirs local_path true ∈ pre
        /\ local_path ∈ dirs run.2
        /\ (PyStr.truthy parent_dir = true ->
            path_exists w parent_dir = false ->
            parent_dir ∈ dirs run.2
            /\ exists pre1 pre2,
                pre = (pre1 ++ CallMakedirs parent_dir true :: pre2)%list
                /\ CallMakedirs local_path true ∈ pre2))
  /\ ((exists p, CallMakedirs p false ∈ evs) ->
      run.1 = Ret tt
      /\ Forall (fun ev => is_remote_or_file_call ev = false) evs).




(** * The rest of the program: [__init__], [authenticate] and [main]

    [authenticate] and [main] run on top of the machine modelled above.
    The Google libraries are external collaborators like the Drive
    service: a record of response functions gives their answers.  The
    loaders read a file; their answer depends on the path and on what
    the file holds.  [creds.to_json()] always gives a text.  An
    interrupt from the keyboard reaches the program where a library call
    is waiting (the browser flow, for one); an interrupt at a prompt or
    during a download is not modelled.  The lines typed are text; what
    [int(line)] makes of a line is a parameter of [main]. *)

(** ** [str.strip()] *)

Module PyStrip.

(** [c.isspace()] for one character, by the Unicode tables for code
    points below 256: tab to carriage return, the four separators, the
    space, next line and the no-break space. *)
Definition isspace_char (c : ascii) : bool :=
  let n := Z.of_nat (nat_of_ascii c) in
  ((9 <=? n) && (n <=? 13)) || ((28 <=? n) && (n <=? 32))
  || (n =? 133) || (n =? 160).

(** [s.lstrip()] *)
Fixpoint lstrip (s : string) : string :=
  match s with
  | EmptyString => EmptyString
  | String c s' => if isspace_char c then lstrip s' else s
  end.

(** [s.rstrip()] *)
Fixpoint rstrip (s : string) : string :=
  match s with
  | EmptyString => EmptyString
  | String c s' =>
      match rstrip s' with
      | EmptyString => if isspace_char c then EmptyString
                       else String c EmptyString
      | r => String c r
      end
  end.

(** [s.strip()] *)
Definition strip (s : string) : string := rstrip (lstrip s).

End PyStrip.

(** ** The authentication libraries *)

(** A credentials object, as far as [authenticate] looks at it: the
    properties [valid] and [expired], the attribute [refresh_token], and
    the text of [to_json()] as the bytes it makes in a file. *)
Record Credentials := {
  cr_valid : bool;
  cr_expired : bool;
  cr_refresh_token : option string;
  cr_to_json : bytes
}.

(** The flow object [InstalledAppFlow.from_client_secrets_file] builds. *)
Inductive Flow :=
| InstalledAppFlow (client_secrets : bytes).

(** What [authenticate] and [main] can see raised: the exceptions of the
    calls modelled above; the [FileNotFoundError] that [authenticate]
    raises itself, for the service-account key or for the OAuth client
    file; any other exception of a library, by its name; and the
    interrupt from the keyboard, the only one that does not derive from
    [Exception]. *)
Inductive error :=
| Exception (e : exn)
| FileNotFoundError (credentials_file : string) (service_account : bool)
| LibraryError (name : string)
| KeyboardInterrupt.

Inductive result (A : Type) :=
| Done (a : A)
| Failed (e : error).
Arguments Done {A} a.
Arguments Failed {A} e.

(** What the Google libraries answer.  The three loaders read the file
    at the path they are given: their answer depends on the path and on
    what the file holds, [None] when no regular file is there.  [refresh]
    updates the credentials in place and [run_local_server] waits for the
    user in the browser; [build] makes the Drive service. *)
Record Google := {
  from_service_account_file : string -> option bytes -> result Credentials;
  from_authorized_user_file : string -> option bytes -> result Credentials;
  refresh : Credentials -> result Credentials;
  from_client_secrets_file : string -> option bytes -> result Flow;
  run_local_server : Flow -> result Credentials;
  build : Credentials -> result Drive
}.

(** The lines [authenticate] and [main] print. *)
Inductive note :=
| MsgAuthenticatedServiceAccount
| MsgAuthenticated
| MsgTitle
| MsgRule
| MsgChooseMethod
| MsgOptionOAuth
| MsgOptionServiceAccount
| MsgUsingDefault (service_key_file : string)
| MsgNoFolderSpecified
| MsgUsingDefaultPath (local_path : string)
| MsgCancelled
| MsgError (e : error).

(** The four [input] prompts of [main]. *)
Inductive prompt :=
| AskChoice
| AskKeyFile
| AskFolder
| AskPath.

Inductive library_call :=
| FromServiceAccountFile (path : string)
| FromAuthorizedUserFile (path : string)
| Refresh (creds : Credentials)
| FromClientSecretsFile (path : string)
| RunLocalServer (flow : Flow)
| Build (creds : Credentials).

(** Everything a command-line session does, in order: its own prints,
    prompts and library calls, and the events of the calls modelled
    above. *)
Inductive entry :=
| Said (m : note)
| Asked (p : prompt)
| Library (c : library_call)
| Machine (ev : event).

(** The object with all its attributes: the three that [__init__] sets
    from its arguments and [service], kept in [this]. *)
Record Downloader := {
  credentials_file : string;
  token_file : string;
  use_service_account : bool;
  this : GoogleDriveDownloader
}.

(** [GoogleDriveDownloader(credentials_file, token_file,
    use_service_account)]; [self.service = None]. *)
Definition init (credentials_file token_file : string)
    (use_service_account : bool) : Downloader :=
  {| credentials_file := credentials_file;
     token_file := token_file;
     use_service_account := use_service_account;
     this := {| service := None |} |}.

(** [self.service = service] *)
Definition set_service (self : Downloader) (service : Drive) : Downloader :=
  {| credentials_file := credentials_file self;
     token_file := token_file self;
     use_service_account := use_service_account self;
     this := {| service := Some service |} |}.

(** A session at the command line: the machine, the lines still to be
    typed, and what happened so far. *)
Record session := {
  machine : world;
  keyboard : list string;
  journal : list entry
}.

Definition note_down (en : entry) (s : session) : session :=
  {| machine := machine s; keyboard := keyboard s;
     journal := journal s ++ [en] |}.

(** The monad of a session: state and errors. *)
Definition Script (A : Type) : Type := session -> result A * session.

Definition pure {A} (a : A) : Script A := fun s => (Done a, s).

Definition throw {A} (e : error) : Script A := fun s => (Failed e, s).

Definition and_then {A B} (m : Script A) (k : A -> Script B) : Script B :=
  fun s => match m s with
           | (Done a, s') => k a s'
           | (Failed e, s') => (Failed e, s')
           end.

Declare Scope script_scope.
Delimit Scope script_scope with script.
Notation "x <- m ;; k" := (and_then m (fun x => k))
  (at level 100, m at next level, right associativity) : script_scope.
Notation "m ;; k" := (and_then m (fun _ => k))
  (at level 100, right associativity) : script_scope.

Definition say (m : note) : Script unit :=
  fun s => (Done tt, note_down (Said m) s).

(** A library call, logged before its answer is known. *)
Definition library {A} (c : library_call) (answer : result A) : Script A :=
  fun s => (answer, note_down (Library c) s).

(** A library call that reads the file at [path]. *)
Definition library_reading {A} (c : library_call) (path : string)
    (answer : option bytes -> result A) : Script A :=
  fun s => (answer (files (machine s) !! path), note_down (Library c) s).

Definition of_outcome {A} (o : outcome A) : result A :=
  match o with
  | Ret a => Done a
  | Raise e => Failed (Exception e)
  end.

(** A call of the machine level, run on the session's machine; its
    events go to the journal. *)
Definition on_machine {A} (m : M A) : Script A :=
  fun s => let run := m (machine s) in
           (of_outcome run.1,
            {| machine := run.2; keyboard := keyboard s;
               journal := (journal s
                           ++ map Machine (new_events (machine s) run.2))%list |}).

(** [input(prompt)]: the next line typed, or [EOFError]. *)
Definition input (p : prompt) : Script string :=
  fun s => match keyboard s with
           | [] => (Failed (Exception EOFError), note_down (Asked p) s)
           | line :: rest =>
               (Done line,
                note_down (Asked p)
                  {| machine := machine s; keyboard := rest;
                     journal := journal s |})
           end.

(** [try: body except KeyboardInterrupt: h1 except Exception as e: h2(e)];
    every [error] is the interrupt or derives from [Exception]. *)
Definition try_interrupt_except {A} (body : Script A)
    (interrupted : Script A) (handler : error -> Script A) : Script A :=
  fun s => match body s with
           | (Done a, s') => (Done a, s')
           | (Failed KeyboardInterrupt, s') => interrupted s'
           | (Failed e, s') => handler e s'
           end.

Section CommandLine.

Variable os : OS.
Variable google : Google.

Local Open Scope script_scope.

(** ** [authenticate] *)

(** Lines 67 to 74: the browser flow, which needs the client file. *)
Definition run_flow (self : Downloader) : Script Credentials :=
  found <- on_machine (os_path_exists (credentials_file self)) ;;
  if negb found then throw (FileNotFoundError (credentials_file self) false)
  else
    flow <- library_reading (FromClientSecretsFile (credentials_file self))
              (credentials_file self)
              (from_client_secrets_file google (credentials_file self)) ;;
    library (RunLocalServer flow) (run_local_server google flow).

(** Lines 64 to 78, entered when there are no valid credentials: refresh
    them or run the flow, then save them in the token file. *)
Definition renew (self : Downloader) (creds : option Credentials)
    : Script Credentials :=
  creds <- (match creds with
            | Some c =>
                if cr_expired c && truthy_opt (cr_refresh_token c)
                then library (Refresh c) (refresh google c)
                else run_flow self
            | None => run_flow self
            end) ;;
  on_machine (open_and_write os (token_file self) (cr_to_json creds)) ;;
  pure creds.

(** The result is the object with [service] set. *)
Definition authenticate (self : Downloader) : Script Downloader :=
  if use_service_account self then
    found <- on_machine (os_path_exists (credentials_file self)) ;;
    if negb found then throw (FileNotFoundError (credentials_file self) true)
    else
      creds <- library_reading (FromServiceAccountFile (credentials_file self))
                 (credentials_file self)
                 (from_service_account_file google (credentials_file self)) ;;
      service <- library (Build creds) (build google creds) ;;
      say MsgAuthenticatedServiceAccount ;;
      pure (set_service self service)
  else
    found <- on_machine (os_path_exists (token_file self)) ;;
    creds <- (if found : bool
              then creds <- library_reading
                              (FromAuthorizedUserFile (token_file self))
                              (token_file self)
                              (from_authorized_user_file google (token_file self)) ;;
                   pure (Some creds)
              else pure None) ;;
    creds <- (match creds with
              | Some c => if negb (cr_valid c) then renew self (Some c)
                          else pure c
              | None => renew self None
              end) ;;
    service <- library (Build creds) (build google creds) ;;
    say MsgAuthenticated ;;
    pure (set_service self service).

(** ** [main] *)

(** What [int(line)] yields, for [get_folder_id]. *)
Variable int_of : string -> input_line.

(** [downloader.download_folder(folder_name, local_path)] from the
    command line: the machine's standard input is the keyboard as
    [int(input(...))] reads it, and the lines it consumes are gone. *)
Definition call_download_folder (self : Downloader)
    (folder_name local_path : string) : Script unit :=
  fun s =>
    let w := set_stdin (map int_of (keyboard s)) (machine s) in
    let run := download_folder os (this self) folder_name local_path w in
    (of_outcome run.1,
     {| machine := run.2;
        keyboard := drop (length (keyboard s) - length (stdin run.2))
                      (keyboard s);
        journal := (journal s ++ map Machine (new_events w run.2))%list |}).

(** Lines 286 to 301: the choice of the authentication method. *)
Definition choose_downloader : Script Downloader :=
  line <- input AskChoice ;;
  let auth_choice := PyStrip.strip line in
  if String.eqb auth_choice "2" then
    line <- input AskKeyFile ;;
    let service_key_file := PyStrip.strip line in
    if negb (PyStr.truthy service_key_file) then
      let service_key_file := "service-account-key.json" in
      say (MsgUsingDefault service_key_file) ;;
      pure (init service_key_file "token.json" true)
    else pure (init service_key_file "token.json" true)
  else pure (init "credentials.json" "token.json" false).

(** Lines 304 to 320: the body of the [try]. *)
Definition authenticate_and_download (downloader : Downloader) : Script unit :=
  downloader <- authenticate downloader ;;
  line <- input AskFolder ;;
  let folder_name := PyStrip.strip line in
  if negb (PyStr.truthy folder_name) then say MsgNoFolderSpecified
  else
    line <- input AskPath ;;
    let local_path := PyStrip.strip line in
    if negb (PyStr.truthy local_path) then
      let local_path := "./downloads" in
      say (MsgUsingDefaultPath local_path) ;;
      call_download_folder downloader folder_name local_path
    else call_download_folder downloader folder_name local_path.

Definition main : Script unit :=
  say MsgTitle ;;
  say MsgRule ;;
  say MsgChooseMethod ;;
  say MsgOptionOAuth ;;
  say MsgOptionServiceAccount ;;
  downloader <- choose_downloader ;;
  try_interrupt_except
    (authenticate_and_download downloader)
    (say MsgCancelled)
    (fun e => say (MsgError e)).

End CommandLine.

(** What the journal added during a run. *)
Definition new_entries (s s' : session) : list entry :=
  drop (length (journal s)) (journal s').

(** ** Classes of journal entries *)

Definition is_library_call (en : entry) : bool :=
  match en with
  | Library _ => true
  | _ => false
  end.

(** The calls that ask the user or the network for new credentials. *)
Definition is_login_call (en : entry) : bool :=
  match en with
  | Library (Refresh _) | Library (FromClientSecretsFile _)
  | Library (RunLocalServer _) => true
  | _ => false
  end.

(** A write to a local file. *)
Definition is_write_entry (en : entry) : bool :=
  match en with
  | Machine ev => is_local_write ev
  | _ => false
  end.

(** What [download_folder] does and [authenticate] does not: a line
    printed by the machine level, a creation of a directory, a call of
    the Drive service, a read of standard input.  ([download_folder]
    prints before anything else, so that a journal without such an entry
    holds no trace of it.) *)
Definition is_download_entry (en : entry) : bool :=
  match en with
  | Machine (CallExists _ _) | Machine (CallOpenWrite _)
  | Machine (CallWrite _ _) => false
  | Machine _ => true
  | _ => false
  end.

(** ** Lines of standard input, for [get_folder_id] *)

(** A line that chooses one of [n] folders: a number from 1 to [n]. *)
Definition valid_choice (n : nat) (line : input_line) : bool :=
  match line with
  | Num z => (1 <=? z) && (z <=? Z.of_nat n)
  | NotANumber => false
  end.

(** The two complaints of the prompt loop. *)
Definition is_complaint (ev : event) : bool :=
  match ev with
  | Print MsgInvalidChoice | Print MsgEnterValidNumber => true
  | _ => false
  end.

Definition is_chunk_call (ev : event) : bool :=
  match ev with
  | CallNextChunk _ => true
  | _ => false
  end.

(** What the prompt loop answers to a line it does not accept. *)
Definition complaint_for (line : input_line) : event :=
  match line with
  | Num _ => Print MsgInvalidChoice
  | NotANumber => Print MsgEnterValidNumber
  end.

(** The prompts and complaints for the lines typed before the loop
    ends: each is asked for, then complained about. *)
Definition rejected (bad : list input_line) : list event :=
  flat_map (fun line => [Input; complaint_for line]) bad.

(** The numbered list of the folders found, as printed. *)
Definition choice_lines (folders : list FolderEntry) : list event :=
  imap (fun k folder =>
          Print (MsgFolderChoice (1 + Z.of_nat k) (fe_name folder) (fe_id folder)))
    folders.

(** ** Statements about the folder lookup *)

(** How a run of [download_folder] can raise at the resolution of a
    name: the folder query raised; or several folders have the name and
    standard input ran out before a line chose one of them. *)
Definition query_raised (d : Drive) (folder_identifier : string) (e : exn)
    : Prop :=
  looks_like_id folder_identifier = false
  /\ folder_query d folder_identifier = Raise e.

Definition input_ran_out (d : Drive) (folder_identifier : string) (e : exn)
    (w : world) : Prop :=
  looks_like_id folder_identifier = false
  /\ e = EOFError
  /\ exists folders,
       folder_query d folder_identifier = Ret folders
       /\ (2 <= length folders)%nat
       /\ Forall (fun line => valid_choice (length folders) line = false)
            (stdin w).

(** What [get_folder_id] answers when the query found [folders]:
    [None] only if there is none; an id only if it is the id of one of
    them; an error only if there are several and no line of standard
    input chooses one, and the error is then [EOFError].  With at most
    one folder the user is not asked: the only event is the query. *)
Definition folder_answer (folders : list FolderEntry) (folder_name : string)
    (w : world) (run : outcome (option string) * world) : Prop :=
  match run.1 with
  | Ret None => folders = []
  | Ret (Some id) => exists folder, folder ∈ folders /\ fe_id folder = id
  | Raise e =>
      e = EOFError /\ (2 <= length folders)%nat
      /\ Forall (fun line => valid_choice (length folders) line = false)
           (stdin w)
  end
  /\ ((length folders <= 1)%nat ->
      run = (Ret (fe_id <$> head folders),
             log (CallFolderQuery folder_name) w)).

(** The run of [get_folder_id] that ends with the choice of line
    [Num z], typed after the lines [bad]: the folder number [z] of the
    list is returned, the list was printed once, each line of [bad] was
    asked for and complained about, and [rest] is left to be read. *)
Definition folder_chosen (folders : list FolderEntry) (folder_name : string)
    (bad : list input_line) (z : Z) (rest : list input_line)
    (w : world) (run : outcome (option string) * world) : Prop :=
  exists folder,
    folders !! Z.to_nat (z - 1) = Some folder
    /\ run = (Ret (Some (fe_id folder)),
              logs (CallFolderQuery folder_name
                    :: Print (MsgMultipleFolders folder_name)
                    :: choice_lines folders ++ rejected bad ++ [Input])%list
                (set_stdin rest w)).

(** What a run of [download_folder] that raises [e] has done: without a
    service, nothing; with one, no call on any file, and the error is
    that of the folder query, the end of standard input at the choice of
    a folder, or the error of a listing call the run made. *)
Definition raised_before_files (self : GoogleDriveDownloader)
    (folder_identifier : string) (e : exn) (w : world)
    (run : outcome unit * world) : Prop :=
  let evs := new_events w run.2 in
  (service self = None /\ e = NotAuthenticated /\ run.2 = w)
  \/ exists d,
       service self = Some d
       /\ trace run.2 = (trace w ++ evs)%list
       /\ Forall (fun ev => is_file_call ev = false) evs
       /\ (query_raised d folder_identifier e
           \/ input_ran_out d folder_identifier e w
           \/ exists folder_id,
                CallList folder_id ∈ evs /\ children d folder_id = Raise e).

(** ** More concrete worlds *)

Module Scene.

(** Two folders with the same name. *)
Definition twins : list FolderEntry :=
  [ {| fe_id := "idA"; fe_name := "Reports" |};
    {| fe_id := "idB"; fe_name := "Reports" |} ].

(** A world where [lines] wait on standard input. *)
Definition typing (lines : list input_line) : world :=
  {| dirs := ∅; files := ∅; stdin := lines; trace := [] |}.

(** A Drive whose listing call fails. *)
Definition unlistable : Drive :=
  {| folder_query := fun _ => Ret [];
     children := fun _ => Raise (HttpError 500);
     metadata_mimeType := fun _ => Raise (HttpError 404);
     chunks := fun _ => (Raise (HttpError 404), []) |}.

End Scene.

(** ** Statements about one download, continued *)

Definition is_open_call (ev : event) : bool :=
  match ev with
  | CallOpenWrite _ => true
  | _ => false
  end.


(** The destination is opened only once the whole content has been
    received: a file is opened after a content that was assembled in
    full, no content is requested after the file is opened, and when the
    content of a request fails the run returns [False] without a call
    on a local file. *)
Definition written_after_fetch (d : Drive) (w : world)
    (run : outcome bool * world) : Prop :=
  let evs := new_events w run.2 in
  (forall pre p post,
     evs = (pre ++ CallOpenWrite p :: post)%list ->
     Forall (fun ev => is_chunk_call ev = false) post
     /\ exists r data, content_of d r = Ret data /\ CallNextChunk r ∈ pre)
  /\ (forall r e,
        CallNextChunk r ∈ evs -> content_of d r = Raise e ->
        run.1 = Ret false /\ files run.2 = files w
        /\ Forall (fun ev => is_local_write ev = false) evs).

(** The native types that are exported, each with the extension its
    export is saved under: the two tables of [download_file] composed. *)
Definition export_extensions : list (string * string) :=
  [ ("application/vnd.google-apps.document", ".docx");
    ("application/vnd.google-apps.spreadsheet", ".xlsx");
    ("application/vnd.google-apps.presentation", ".pptx");
    ("application/vnd.google-apps.drawing", ".png") ].

(** A run of [download_file] that exports in the format
    [export_mime_type], saved under the extension [ext]: the content is
    requested in that format only, every file opened has a name ending
    with [ext], and so has every path whose content is new. *)
Definition exported_with_extension (file_id export_mime_type ext : string)
    (w : world) (run : outcome bool * world) : Prop :=
  let evs := new_events w run.2 in
  (forall r, CallNextChunk r ∈ evs -> r = ExportMedia file_id export_mime_type)
  /\ (forall p, CallOpenWrite p ∈ evs -> PyStr.endswith p ext = true)
  /\ (forall p data,
        files run.2 !! p = Some data ->
        files w !! p = Some data \/ PyStr.endswith p ext = true).

Module Scene2.

(** A Drive that gives no [mimeType] for a file and sends its content in
    three chunks. *)
Definition chunked : Drive :=
  {| folder_query := fun _ => Ret [];
     children := fun _ => Ret [];
     metadata_mimeType := fun _ => Ret None;
     chunks := fun _ => (Ret [x61; x62], [Ret [x63]; Ret [x64; x65]]) |}.

End Scene2.

(** ** Statements about one run of [download_folder], continued *)

(** The run changes no file it did not open, and removes no directory. *)
Definition changes_only_opened (w : world) (run : outcome unit * world)
    : Prop :=
  let evs := new_events w run.2 in
  (forall p, CallOpenWrite p ∉ evs -> files run.2 !! p = files w !! p)
  /\ dirs w ⊆ dirs run.2.


Module Scene3.

(** A listing with a file whose name is an absolute path. *)
Definition absolute : list RemoteFile :=
  [Demo.file "f1" "a.pdf" Demo.pdf_mime;
   Demo.file "f2" "/tmp/x" Demo.pdf_mime].

End Scene3.

(** ** Sessions *)

(** Several entries at once, and a new state of the machine. *)
Definition notes_down (ens : list entry) (s : session) : session :=
  {| machine := machine s; keyboard := keyboard s;
     journal := (journal s ++ ens)%list |}.

Definition set_machine (w : world) (s : session) : session :=
  {| machine := w; keyboard := keyboard s; journal := journal s |}.

Definition set_keyboard (lines : list string) (s : session) : session :=
  {| machine := machine s; keyboard := lines; journal := journal s |}.

(** ** Statements about [authenticate] *)

(** A run with a service account: the only path looked at is the key
    file, the only library calls are the loading of the key and the
    building of the service, and no file or directory changes; without
    the key file the run raises [FileNotFoundError] before any library
    call; and a run that returns has built the service from the key. *)
Definition service_account_run (google : Google) (self : Downloader)
    (s : session) (run : result Downloader * session) : Prop :=
  let new := new_entries s run.2 in
  let key := credentials_file self in
  journal run.2 = (journal s ++ new)%list
  /\ files (machine run.2) = files (machine s)
  /\ dirs (machine run.2) = dirs (machine s)
  /\ (forall en,
        en ∈ new ->
        en = Machine (CallExists key (path_exists (machine s) key))
        \/ en = Library (FromServiceAccountFile key)
        \/ (exists creds, en = Library (Build creds))
        \/ en = Said MsgAuthenticatedServiceAccount)
  /\ (path_exists (machine s) key = false ->
      run.1 = Failed (FileNotFoundError key true)
      /\ new = [Machine (CallExists key false)])
  /\ (forall self',
        run.1 = Done self' ->
        exists creds d,
          from_service_account_file google key (files (machine s) !! key)
          = Done creds
          /\ build google creds = Done d
          /\ self' = set_service self d).

(** What the OAuth branch loads from the token file: nothing when the
    file is not there. *)
Definition load_token (google : Google) (self : Downloader) (w : world)
    : result (option Credentials) :=
  if path_exists w (token_file self) then
    match from_authorized_user_file google (token_file self)
            (files w !! token_file self) with
    | Done c => Done (Some c)
    | Failed e => Failed e
    end
  else Done None.

(** The browser flow is needed: there are no credentials, or they are
    not valid and cannot be refreshed. *)
Definition needs_browser (creds : option Credentials) : bool :=
  match creds with
  | Some c => negb (cr_valid c)
              && negb (cr_expired c && truthy_opt (cr_refresh_token c))
  | None => true
  end.

(** A run of the OAuth branch: no file but the token file changes and
    no directory does; the call that builds the service is the last one,
    and the credentials it is given are either valid ones loaded from
    the token file, with no write at all, or credentials just refreshed
    or obtained in the browser and written to the token file before the
    call; and a run that returns has set [service] to what was built. *)
Definition builds_from_token (os : OS) (google : Google) (self : Downloader)
    (s : session) (run : result Downloader * session) : Prop :=
  let new := new_entries s run.2 in
  let token := token_file self in
  journal run.2 = (journal s ++ new)%list
  /\ dirs (machine run.2) = dirs (machine s)
  /\ (forall p, p <> token ->
        files (machine run.2) !! p = files (machine s) !! p)
  /\ (forall pre c post,
        new = (pre ++ Library (Build c) :: post)%list ->
        (forall en, en ∈ post -> en = Said MsgAuthenticated)
        /\ ((cr_valid c = true
             /\ path_exists (machine s) token = true
             /\ from_authorized_user_file google token
                  (files (machine s) !! token) = Done c
             /\ Forall (fun en => is_write_entry en = false) new
             /\ files (machine run.2) = files (machine s))
            \/ (Machine (CallWrite token (cr_to_json c)) ∈ pre
                /\ files (machine run.2) !! token
                   = (if write_lost os token then None
                      else Some (cr_to_json c))
                /\ ((exists c0, Library (Refresh c0) ∈ pre
                                /\ refresh google c0 = Done c)
                    \/ (exists flow, Library (RunLocalServer flow) ∈ pre
                                     /\ run_local_server google flow
                                        = Done c)))))
  /\ (forall self',
        run.1 = Done self' ->
        exists c d,
          Library (Build c) ∈ new
          /\ build google c = Done d
          /\ self' = set_service self d).

(** ** Concrete sessions *)

Module Office.

(** Credentials that are valid, and credentials to be refreshed. *)
Definition fresh : Credentials :=
  {| cr_valid := true; cr_expired := false; cr_refresh_token := Some "r1";
     cr_to_json := [x7b; x7d] |}.

Definition stale : Credentials :=
  {| cr_valid := false; cr_expired := true; cr_refresh_token := Some "r1";
     cr_to_json := [x7b] |}.

(** Libraries that read [fresh] from a token file that holds its text
    and [stale] from any other, whose refresh and browser flow both give
    [fresh], and that build the service [target]. *)
Definition google (target : Drive) : Google :=
  {| from_service_account_file := fun _ content =>
       match content with
       | Some _ => Done fresh
       | None => Failed (LibraryError "OSError")
       end;
     from_authorized_user_file := fun _ content =>
       match content with
       | Some [x7b; x7d] => Done fresh
       | Some _ => Done stale
       | None => Failed (LibraryError "OSError")
       end;
     refresh := fun _ => Done fresh;
     from_client_secrets_file := fun _ content =>
       match content with
       | Some secrets => Done (InstalledAppFlow secrets)
       | None => Failed (LibraryError "OSError")
       end;
     run_local_server := fun _ => Done fresh;
     build := fun _ => Done target |}.

(** Libraries whose refresh is refused. *)
Definition revoked (target : Drive) : Google :=
  {| from_service_account_file := from_service_account_file (google target);
     from_authorized_user_file := from_authorized_user_file (google target);
     refresh := fun _ => Failed (LibraryError "RefreshError");
     from_client_secrets_file := from_client_secrets_file (google target);
     run_local_server := run_local_server (google target);
     build := build (google target) |}.

(** A session that starts with the files [held] and the lines [typed]. *)
Definition desk (held : gmap string bytes) (typed : list string) : session :=
  {| machine := {| dirs := ∅; files := held; stdin := []; trace := [] |};
     keyboard := typed;
     journal := [] |}.

Definition oauth : Downloader := init "credentials.json" "token.json" false.

(** A reading of the numbers 1 and 2, for the choice of a folder. *)
Definition number (line : string) : input_line :=
  if String.eqb line "1" then Num 1
  else if String.eqb line "2" then Num 2
  else NotANumber.

Definition robot : Downloader := init "key.json" "token.json" true.

End Office.

(** ** Statements about [authenticate], continued *)

(** The run stopped for want of the client file: it raised
    [FileNotFoundError] for it right after looking for it, without a
    call that asks for new credentials and without a write. *)
Definition stopped_for_client_file (self : Downloader) (s : session)
    (run : result Downloader * session) : Prop :=
  let new := new_entries s run.2 in
  run.1 = Failed (FileNotFoundError (credentials_file self) false)
  /\ files (machine run.2) = files (machine s)
  /\ last new = Some (Machine (CallExists (credentials_file self) false))
  /\ Forall (fun en => is_login_call en = false) new
  /\ Forall (fun en => is_write_entry en = false) new.

(** The object [self'] is [self] with a service built by the library,
    and [download_folder] on it gets past the check of the service: the
    first thing it does is print where it is going to save. *)
Definition ready_to_download (os : OS) (google : Google)
    (self self' : Downloader) : Prop :=
  credentials_file self' = credentials_file self
  /\ token_file self' = token_file self
  /\ use_service_account self' = use_service_account self
  /\ (exists c d, build google c = Done d /\ service (this self') = Some d)
  /\ forall folder_identifier local_path w,
       exists rest,
         trace (download_folder os (this self') folder_identifier local_path
                  w).2
         = (trace w ++ Print (MsgAttemptingToSave local_path) :: rest)%list.

(** A run that asks nobody for credentials and writes nothing. *)
Definition silent_run (s : session) (run : result Downloader * session)
    : Prop :=
  let new := new_entries s run.2 in
  Forall (fun en => is_login_call en = false) new
  /\ Forall (fun en => is_write_entry en = false) new
  /\ files (machine run.2) = files (machine s).

(** ** Statements about [main] *)

(** What [authenticate] can leave in the journal: checks that a path
    exists, the write of the token file, library calls, and its two
    messages. *)
Definition is_auth_entry (en : entry) : bool :=
  match en with
  | Machine (CallExists _ _) | Machine (CallOpenWrite _)
  | Machine (CallWrite _ _) | Library _
  | Said MsgAuthenticated | Said MsgAuthenticatedServiceAccount => true
  | _ => false
  end.

(** The five lines [main] prints first. *)
Definition banner : list entry :=
  [Said MsgTitle; Said MsgRule; Said MsgChooseMethod; Said MsgOptionOAuth;
   Said MsgOptionServiceAccount].

(** The lines typed in answer to the choice of the method: one line
    that is not [2], or the line [2] and the path of the key file. *)
Definition answers_method (lines : list string) : bool :=
  match lines with
  | [choice] => negb (String.eqb (PyStrip.strip choice) "2")
  | [choice; _] => String.eqb (PyStrip.strip choice) "2"
  | _ => false
  end.

(** The line [main] prints for an error caught by its [try]. *)
Definition report (e : error) : note :=
  match e with
  | KeyboardInterrupt => MsgCancelled
  | _ => MsgError e
  end.

Definition is_machine_entry (en : entry) : bool :=
  match en with
  | Machine _ => true
  | _ => false
  end.

(** A run of [main] that raised: it raised [EOFError], standard input
    having ended at the choice of the method or at the path of the key
    file, and before anything but printing and asking was done. *)
Definition ended_at_first_prompts (s : session) (e : error)
    (run : result unit * session) : Prop :=
  let new := new_entries s run.2 in
  e = Exception EOFError
  /\ (keyboard s = []
      \/ exists choice, keyboard s = [choice]
                        /\ PyStrip.strip choice = "2")
  /\ machine run.2 = machine s
  /\ Forall (fun en => is_library_call en = false
                       /\ is_machine_entry en = false) new.

(** A run of [main] in which the folder name typed is blank: it
    returns; no line of [download_folder] is printed, no directory is
    created and no call of the Drive service is made, and the path is
    not asked for; and when the folder name was asked for (the
    authentication having returned), the last line printed says that no
    folder was specified and the lines typed after the name are left. *)
Definition left_without_folder (rest : list string) (s : session)
    (run : result unit * session) : Prop :=
  let new := new_entries s run.2 in
  run.1 = Done tt
  /\ Forall (fun en => is_download_entry en = false) new
  /\ (Asked AskPath ∉ new)
  /\ (Asked AskFolder ∈ new ->
      last new = Some (Said MsgNoFolderSpecified)
      /\ keyboard run.2 = rest).


(** The first thing a run of [main] does on the machine. *)
Definition first_on_machine (s : session) (run : result unit * session)
    : option entry :=
  head (List.filter is_machine_entry (new_entries s run.2)).

(** ** Listings that differ in what is not used *)

(** Two listing entries with the same id and the same name; they may
    differ in [mimeType] and [size]. *)
Definition same_entry (f f' : RemoteFile) : Prop :=
  rf_id f = rf_id f' /\ rf_name f = rf_name f'.

(** Two answers to a listing call that fail alike, or list entries with
    the same ids and names in the same order. *)
Definition same_listing (o o' : outcome (list RemoteFile)) : Prop :=
  match o, o' with
  | Ret l, Ret l' => Forall2 same_entry l l'
  | Raise e, Raise e' => e = e'
  | _, _ => False
  end.

Module Scene4.

(** The Drive of [Demo.drive [] Demo.one_pdf], with a listing that
    gives another type and a size for the same file. *)
Definition mislabelled : Drive :=
  {| folder_query := folder_query (Demo.drive [] Demo.one_pdf);
     children := fun _ =>
       Ret [ {| rf_id := "f1"; rf_name := "a.pdf";
                rf_mimeType := Demo.doc_mime; rf_size := Some 7 |} ];
     metadata_mimeType := metadata_mimeType (Demo.drive [] Demo.one_pdf);
     chunks := chunks (Demo.drive [] Demo.one_pdf) |}.

End Scene4.
(** * Properties *)

(** ** The path functions on examples *)

Example join_plain : OsPath.join "out" "report" = "out/report".
Proof. reflexivity. Qed.
Example join_trailing : OsPath.join "out/" "report" = "out/report".
Proof. reflexivity. Qed.
Example join_absolute : OsPath.join "out" "/etc/x" = "/etc/x".
Proof. reflexivity. Qed.
Example join_empty : OsPath.join "" "report" = "report".
Proof. reflexivity. Qed.
Example dirname_plain : OsPath.dirname "out/sub/report" = "out/sub".
Proof. reflexivity. Qed.
Example dirname_root : OsPath.dirname "/report" = "/".
Proof. reflexivity. Qed.
Example dirname_slashes : OsPath.dirname "a//b" = "a".
Proof. reflexivity. Qed.
Example dirname_none : OsPath.dirname "report" = "".
Proof. reflexivity. Qed.
Example endswith_docx : PyStr.endswith "notes.docx" ".docx" = true.
Proof. reflexivity. Qed.
Example endswith_short : PyStr.endswith "ocx" ".docx" = false.
Proof. reflexivity. Qed.
Example endswith_empty : PyStr.endswith "abc" "" = true.
Proof. reflexivity. Qed.

Arguments path_exists w p : simpl never.
Arguments PyStr.startswith s pre : simpl never.
Arguments PyStr.endswith s suf : simpl never.
Arguments PyStr.truthy s : simpl never.
Arguments OsPath.join a b : simpl never.
Arguments OsPath.dirname p : simpl never.
Arguments dict_get d k : simpl never.


(** ** Properties of the path functions *)

Section Paths.

Import OsPath.

Lemma endswith_cons c s suf :
  PyStr.endswith (String c s) suf =
    if String.eqb (String c s) suf then true else PyStr.endswith s suf.
Proof. reflexivity. Qed.

Lemma append_cons c a b : String c a +:+ b = String c (a +:+ b).
Proof. reflexivity. Qed.


Lemma append_sep_leaf a n : (a +:+ "/") +:+ n = a +:+ String "/" n.
Proof.
  induction a as [|c a IH]; [reflexivity|].
  rewrite !append_cons, IH. reflexivity.
Qed.


















Lemma endswith_refl s : PyStr.endswith s s = true.
Proof.
  destruct s; [reflexivity|]. rewrite endswith_cons, String.eqb_refl. reflexivity.
Qed.

Lemma endswith_app a suf : PyStr.endswith (a +:+ suf) suf = true.
Proof.
  induction a as [|c a IH]; [apply endswith_refl|].
  rewrite append_cons, endswith_cons, IH.
  destruct (String.eqb _ _); reflexivity.
Qed.

Lemma endswith_join a n suf :
  PyStr.endswith n suf = true -> PyStr.endswith (join a n) suf = true.
Proof.
  intros H. unfold join.
  assert (Happ : forall x, PyStr.endswith (x +:+ n) suf = true).
  { induction x as [|c x IH]; [exact H|].
    rewrite append_cons, endswith_cons, IH.
    destruct (String.eqb _ _); reflexivity. }
  destruct (PyStr.startswith n "/"); [exact H|].
  destruct (_ || _); [apply Happ|].
  replace (a +:+ "/" +:+ n) with ((a +:+ "/") +:+ n); [apply Happ|].
  apply append_sep_leaf.
Qed.

End Paths.

(** ** Run equations: what each function returns and leaves behind *)

Lemma world_eq (w1 w2 : world) :
  dirs w1 = dirs w2 -> files w1 = files w2 -> stdin w1 = stdin w2 ->
  trace w1 = trace w2 -> w1 = w2.
Proof. destruct w1, w2; simpl; intros; subst; reflexivity. Qed.

Lemma logs_nil w : logs [] w = w.
Proof. apply world_eq; simpl; auto using app_nil_r. Qed.

Lemma logs_logs e1 e2 w : logs e2 (logs e1 w) = logs (e1 ++ e2) w.
Proof. apply world_eq; simpl; auto. symmetry. apply app_assoc. Qed.

Lemma log_logs ev w : log ev w = logs [ev] w.
Proof. reflexivity. Qed.

Lemma new_events_logs evs w w' :
  trace w' = trace w -> new_events w (logs evs w') = evs.
Proof.
  intros H. unfold new_events. simpl. rewrite H. apply drop_app_length.
Qed.

Lemma path_exists_logs evs w p : path_exists (logs evs w) p = path_exists w p.
Proof. reflexivity. Qed.

Lemma apply_ops_app ops1 ops2 f :
  apply_ops (ops1 ++ ops2) f = apply_ops ops2 (apply_ops ops1 f).
Proof. apply foldl_app. Qed.

Lemma apply_ops_cons op ops f :
  apply_ops (op :: ops) f = apply_ops ops (apply_op op f).
Proof. reflexivity. Qed.

(** Two worlds are equal when their four components are. *)
Ltac same_world :=
  apply world_eq; simpl; rewrite <- ?app_assoc, ?app_nil_r; simpl;
  try reflexivity;
  try (apply insert_insert_eq); try (apply delete_insert_eq).

(** Unfolding the monad's operations (and no program function). *)
Ltac run_monad :=
  cbv beta delta [try_except bind on_error print emit ret lift_outcome raise
                  put_stdin].

Section Runs.

Variable os : OS.
Variable self : GoogleDriveDownloader.

Lemma open_and_write_run p data w :
  open_and_write os p data w =
    (match open_fault os p, write_fault os p with
     | Some e, _ => Raise e
     | None, Some e => Raise e
     | None, None => Ret tt
     end,
     logs (match open_fault os p with
           | Some _ => [CallOpenWrite p]
           | None => [CallOpenWrite p; CallWrite p data]
           end)
          (set_files (apply_op (write_op os p data) (files w)) w)).
Proof.
  unfold open_and_write, write_op.
  destruct (open_fault os p), (write_fault os p); try destruct (write_lost os p);
    f_equal; same_world.
Qed.

Lemma next_chunks_run d r c following fh w :
  next_chunks d r c following fh w =
    (assemble c following fh,
     logs (replicate (chunk_calls c following) (CallNextChunk r)) w).
Proof.
  revert c fh w.
  induction following as [|c' following IH]; intros c fh w;
    destruct c as [b|e]; simpl; unfold bind, emit; simpl; try reflexivity.
  rewrite IH, log_logs, logs_logs. reflexivity.
Qed.

Lemma fetch_and_write_run d r file_name download_path w :
  service self = Some d ->
  fetch_and_write os self r file_name download_path w =
    let s := fetch_summary os d r file_name download_path
               (bool_decide (download_path ∈ dirs w)) in
    (Ret s.1,
     logs s.2 (set_files (apply_op (fetch_op os d r download_path) (files w)) w)).
Proof.
  intros Hd.
  unfold fetch_and_write, try_except, bind, media_download, with_service.
  rewrite Hd, next_chunks_run.
  unfold fetch_summary, fetch_op, content_of, on_error, print, emit, bind, ret.
  destruct (assemble _ _ _) as [data|e]; simpl.
  - rewrite open_and_write_run. unfold write_op.
    destruct (open_fault os download_path) as [e|] eqn:Ho; simpl.
    { f_equal. same_world. }
    destruct (write_fault os download_path) as [e|] eqn:Hw; simpl.
    { f_equal. same_world. }
    unfold os_path_exists, path_exists, print, emit; simpl.
    destruct (write_lost os download_path) eqn:Hl; simpl.
    + rewrite lookup_delete_eq.
      rewrite (bool_decide_eq_false_2 (is_Some None)) by (intros [? ?]; done).
      rewrite !orb_false_r.
      destruct (bool_decide _); simpl; f_equal;
        same_world.
    + rewrite lookup_insert_eq.
      rewrite (bool_decide_eq_true_2 (is_Some (Some data))) by eauto.
      rewrite !orb_true_r. simpl. f_equal.
      same_world.
  - f_equal. same_world.
Qed.


Lemma download_file_run file_id file_name download_path w :
  download_file os self file_id file_name download_path w =
    let s := file_summary os self file_id file_name download_path (dirs w) in
    (Ret s.1,
     logs s.2
       (set_files
          (apply_op (file_op os self file_id file_name download_path) (files w))
          w)).
Proof.
  unfold download_file, file_summary, file_op, file_plan, files_get,
    with_service.
  run_monad.
  destruct (service self) as [d|] eqn:Hd; [|simpl; f_equal; same_world].
  destruct (metadata_mimeType d file_id) as [md|e]; simpl;
    [|f_equal; same_world].
  destruct (PyStr.startswith _ _); simpl.
  - destruct (dict_get export_formats _) as [emt|]; simpl;
      [|f_equal; same_world].
    destruct (PyStr.truthy emt); simpl; [|f_equal; same_world].
    destruct (negb (PyStr.endswith _ _)); simpl;
      rewrite (fetch_and_write_run d) by exact Hd; simpl;
      f_equal; same_world.
  - rewrite (fetch_and_write_run d) by exact Hd; simpl. f_equal; same_world.
Qed.

Lemma download_each_run local_path n listing : forall i success_count w,
  download_each os self local_path n i success_count listing w =
    let s := each_summary os self local_path n i success_count listing (dirs w) in
    (Ret s.1,
     logs s.2
       (set_files (apply_ops (sync_ops os self local_path listing) (files w)) w)).
Proof.
  induction listing as [|file rest IH]; intros i sc w; simpl.
  - unfold ret. f_equal. same_world.
  - unfold bind at 1, print, emit. unfold bind at 1.
    rewrite download_file_run. simpl.
    destruct (file_summary os self _ _ _ (dirs w)) as [ok evs] eqn:Hs; simpl.
    destruct ok; simpl; run_monad; simpl;
      rewrite IH; simpl; f_equal; same_world.
Qed.

End Runs.

(** ** Run equations for [download_folder] *)

Section FolderRuns.

Variable os : OS.
Variable self : GoogleDriveDownloader.

Lemma download_folder_split folder_identifier local_path w :
  download_folder os self folder_identifier local_path w =
    match service self with
    | None => (Raise NotAuthenticated, w)
    | Some _ =>
        bind (prepare os local_path)
          (fun ready => if ready : bool
                        then sync_prepared os self folder_identifier local_path
                        else ret tt) w
    end.
Proof.
  unfold download_folder, prepare, sync_prepared.
  destruct (service self) as [d|]; simpl; [|reflexivity].
  rewrite ?bool_decide_eq_true_2 by eauto; simpl.
  unfold bind, print, emit, ret; simpl.
  destruct (ensure_parent os _ _) as [[[|]|e] w1]; simpl; try reflexivity.
  destruct (ensure_target os _ _) as [[[|]|e] w2]; simpl; reflexivity.
Qed.

Lemma prepare_run local_path w :
  prepare os local_path w =
    let s := prep_summary os local_path
               (path_exists w (OsPath.dirname local_path)) in
    (Ret s.1.1, logs s.1.2 (set_dirs (s.2 ∪ dirs w) w)).
Proof.
  unfold prepare, prep_summary, ensure_parent, ensure_target, os_path_exists,
    os_makedirs.
  run_monad. simpl.
  destruct (PyStr.truthy (OsPath.dirname local_path)); simpl;
    [destruct (path_exists _ _); simpl|];
    try destruct (makedirs_fault os (OsPath.dirname local_path)); simpl;
    destruct (makedirs_fault os local_path); simpl; f_equal;
    same_world;
    rewrite ?(left_id_L ∅ (∪)), ?(right_id_L ∅ (∪)), ?(assoc_L (∪));
    reflexivity.
Qed.

Lemma set_stdin_id w : set_stdin (stdin w) w = w.
Proof. apply world_eq; reflexivity. Qed.

Lemma print_choices_run folders : forall i w,
  exists evs, print_choices i folders w = (Ret tt, logs evs w)
              /\ Forall (fun ev => is_console_event ev = true) evs.
Proof.
  induction folders as [|f rest IH]; intros i w; simpl.
  - exists []. rewrite logs_nil. auto.
  - run_monad. simpl. destruct (IH (i + 1) (log (Print (MsgFolderChoice (i + 1) (fe_name f) (fe_id f))) w))
      as (evs & -> & F).
    eexists (_ :: evs). split; [f_equal; same_world|]. constructor; auto.
Qed.

Lemma ask_choice_run folders pending : forall w,
  exists r evs rest,
    ask_choice folders pending w = (r, logs evs (set_stdin rest w))
    /\ Forall (fun ev => is_console_event ev = true) evs.
Proof.
  induction pending as [|line rest IH]; intros w; simpl; run_monad; simpl.
  - exists (Raise EOFError), [Input], (stdin w).
    split; [f_equal; same_world|]. repeat constructor.
  - destruct line as [z|].
    + destruct ((0 <=? z - 1) && (z - 1 <? Z.of_nat (length folders))).
      * destruct (folders !! Z.to_nat (z - 1)) as [folder|];
          eexists _, [Input], rest;
          (split; [f_equal; same_world|]); repeat constructor.
      * destruct (IH (log (Print MsgInvalidChoice)
                        (set_stdin rest (log Input w))))
          as (r & evs & rest' & -> & F).
        exists r, (Input :: Print MsgInvalidChoice :: evs), rest'.
        split; [f_equal; same_world|]. repeat constructor; auto.
    + destruct (IH (log (Print MsgEnterValidNumber)
                      (set_stdin rest (log Input w))))
        as (r & evs & rest' & -> & F).
      exists r, (Input :: Print MsgEnterValidNumber :: evs), rest'.
      split; [f_equal; same_world|]. repeat constructor; auto.
Qed.

Lemma get_folder_id_run d folder_name w :
  service self = Some d ->
  exists r evs rest,
    get_folder_id self folder_name w =
      (r, logs (CallFolderQuery folder_name :: evs) (set_stdin rest w))
    /\ Forall (fun ev => is_console_event ev = true) evs
    /\ (r = Ret None -> evs = [])
    /\ (folder_query d folder_name = Ret [] -> r = Ret None).
Proof.
  intros Hd. unfold get_folder_id, files_list_folders, with_service.
  rewrite Hd. run_monad. simpl.
  destruct (folder_query d folder_name) as [folders|e]; simpl.
  2: { exists (Raise e), [], (stdin w). split; [f_equal; same_world|].
       repeat split; auto; discriminate. }
  destruct folders as [|f1 [|f2 more]].
  1,2: simpl; eexists _, [], (stdin w); (split; [f_equal; same_world|]);
    repeat split; auto; discriminate.
  cbv beta iota.
  match goal with
  | |- context [print_choices ?i ?fs ?w0] =>
      destruct (print_choices_run fs i w0) as (e1 & -> & F1)
  end.
  cbv beta iota.
  match goal with
  | |- context [ask_choice ?fs ?p ?w0] =>
      destruct (ask_choice_run fs p w0) as (r & e2 & rest & -> & F2)
  end.
  destruct r as [id|e]; cbv beta iota;
    eexists _, (Print (MsgMultipleFolders folder_name) :: e1 ++ e2)%list, rest;
    (split; [f_equal; same_world|]);
    (split; [repeat constructor; apply Forall_app; auto|]);
    split; discriminate.
Qed.

Lemma resolve_folder_id folder_identifier w :
  looks_like_id folder_identifier = true ->
  resolve_folder self folder_identifier w = (Ret (Some folder_identifier), w).
Proof. intros H. unfold resolve_folder. rewrite H. reflexivity. Qed.

Lemma resolve_folder_name d folder_identifier w :
  service self = Some d ->
  looks_like_id folder_identifier = false ->
  exists r evs rest,
    resolve_folder self folder_identifier w =
      (r, logs (CallFolderQuery folder_identifier :: evs) (set_stdin rest w))
    /\ Forall (fun ev => is_console_event ev = true) evs
    /\ (r = Ret None ->
        exists evs0,
          evs = (evs0 ++ [Print (MsgFolderNotFound folder_identifier)])%list)
    /\ (folder_query d folder_identifier = Ret [] -> r = Ret None).
Proof.
  intros Hd H. unfold resolve_folder. rewrite H. unfold bind at 1.
  destruct (get_folder_id_run d folder_identifier w Hd)
    as (r & evs & rest & -> & F & Hnone & Hempty).
  destruct r as [fid|e].
  2: { exists (Raise e), evs, rest. repeat split; auto; discriminate. }
  destruct (negb (truthy_opt fid)) eqn:Ht; run_monad; simpl.
  - exists (Ret None),
      (evs ++ [Print (MsgFolderNotFound folder_identifier)])%list, rest.
    split; [f_equal; same_world|]. split; [apply Forall_app; auto|].
    split; eauto.
  - exists (Ret fid), evs, rest. split; [reflexivity|]. split; [exact F|].
    split.
    + intros Hr. inversion Hr; subst. discriminate.
    + intros Hq. specialize (Hempty Hq). inversion Hempty; subst. discriminate.
Qed.

Lemma download_listing_run d local_path folder_id w :
  service self = Some d ->
  download_listing os self local_path folder_id w =
    let s := listing_summary os self d local_path folder_id (dirs w) in
    (s.1.1, logs s.1.2 (set_files (apply_ops s.2 (files w)) w)).
Proof.
  intros Hd.
  unfold download_listing, list_files_in_folder, with_service, listing_summary.
  rewrite Hd. run_monad. simpl.
  destruct (children d folder_id) as [listing|e];
    [|simpl; f_equal; same_world].
  destruct listing as [|file rest]; [simpl; f_equal; same_world|].
  cbv beta iota zeta. rewrite download_each_run.
  cbv beta iota zeta. cbn [fst snd]. f_equal.
  apply world_eq; try reflexivity.
  cbn [trace logs log set_files]. rewrite <- !app_assoc. reflexivity.
Qed.

(** How a run of [download_folder] unfolds. *)
Lemma download_folder_shape d folder_identifier local_path w :
  service self = Some d ->
  folder_run os self d folder_identifier local_path w
    (download_folder os self folder_identifier local_path w).
Proof.
  intros Hd.
  rewrite download_folder_split, Hd. unfold bind.
  rewrite prepare_run. cbv zeta. fold (prep_of os local_path w).
  fold (prepared os local_path w).
  destruct ((prep_of os local_path w).1.1) eqn:Hok.
  2: { apply Aborted. exact Hok. }
  unfold sync_prepared, bind.
  destruct (looks_like_id folder_identifier) eqn:Hid.
  - rewrite resolve_folder_id by exact Hid.
    rewrite (download_listing_run d) by exact Hd. cbv zeta.
    pose proof (Listed os self d folder_identifier local_path w
                  folder_identifier [] (stdin w) Hok) as HL.
    rewrite Hid in HL. specialize (HL (conj eq_refl eq_refl)).
    match goal with
    | |- folder_run _ _ _ _ _ _ (_, ?w2) =>
        match type of HL with
        | folder_run _ _ _ _ _ _ (_, ?w3) =>
            replace w2 with w3; [exact HL|]
        end
    end.
    apply world_eq; try reflexivity.
    cbn [trace logs set_files set_stdin]. rewrite <- ?app_assoc. reflexivity.
  - match goal with
    | |- context [resolve_folder self folder_identifier ?w0] =>
        destruct (resolve_folder_name d folder_identifier w0 Hd Hid)
          as (r & res' & rest & -> & F & Hnone & Hempty)
    end.
    destruct r as [[folder_id|]|e].
    + rewrite (download_listing_run d) by exact Hd. cbv zeta.
      pose proof (Listed os self d folder_identifier local_path w
                    folder_id (CallFolderQuery folder_identifier :: res')
                    rest Hok) as HL.
      rewrite Hid in HL.
      assert (Hq : folder_query d folder_identifier <> Ret []).
      { intros Hq. specialize (Hempty Hq). discriminate. }
      specialize (HL (conj Hq (ex_intro _ res' (conj eq_refl F)))).
      match goal with
      | |- folder_run _ _ _ _ _ _ (_, ?w2) =>
          match type of HL with
          | folder_run _ _ _ _ _ _ (_, ?w3) =>
              replace w2 with w3; [exact HL|]
          end
      end.
      apply world_eq; try reflexivity.
      cbn [trace logs set_files set_stdin]. rewrite <- !app_assoc. reflexivity.
    + unfold ret.
      pose proof (Unresolved os self d folder_identifier local_path w
                    (Ret tt) res' rest Hok Hid F) as HU.
      match goal with
      | |- folder_run _ _ _ _ _ _ (_, ?w2) =>
          replace w2 with
            (logs ((prep_of os local_path w).1.2
                   ++ CallFolderQuery folder_identifier :: res')
               (set_stdin rest (prepared os local_path w)))
      end.
      * apply HU; auto.
      * apply world_eq; try reflexivity.
        cbn [trace logs set_files set_stdin]. rewrite <- !app_assoc. reflexivity.
    + pose proof (Unresolved os self d folder_identifier local_path w
                    (Raise e) res' rest Hok Hid F) as HU.
      match goal with
      | |- folder_run _ _ _ _ _ _ (_, ?w2) =>
          replace w2 with
            (logs ((prep_of os local_path w).1.2
                   ++ CallFolderQuery folder_identifier :: res')
               (set_stdin rest (prepared os local_path w)))
      end.
      * apply HU; [discriminate|].
        intros Hq. specialize (Hempty Hq). discriminate.
      * apply world_eq; try reflexivity.
        cbn [trace logs set_files set_stdin]. rewrite <- !app_assoc. reflexivity.
Qed.

End FolderRuns.

(** ** Membership in explicit event lists *)

Ltac elem_solve :=
  intros;
  repeat match goal with
         | H : context [_ ∈ (_ ++ _)%list] |- _ => rewrite elem_of_app in H
         | H : context [_ ∈ (_ :: _)] |- _ => rewrite elem_of_cons in H
         | H : context [_ ∈ replicate _ _] |- _ => rewrite elem_of_replicate in H
         | H : context [_ ∈ @nil _] |- _ => rewrite elem_of_nil in H
         end;
  repeat first [ rewrite elem_of_app | rewrite elem_of_cons
               | rewrite elem_of_replicate | rewrite elem_of_nil ];
  try naive_solver.

Lemma chunk_calls_pos c following : chunk_calls c following <> 0%nat.
Proof. destruct c, following; simpl; lia. Qed.

(** Every export format of the table is a non-empty string and has an
    extension. *)
Lemma export_formats_truthy mime export_mime_type :
  dict_get export_formats mime = Some export_mime_type ->
  PyStr.truthy export_mime_type = true
  /\ exists ext, dict_get extensions export_mime_type = Some ext.
Proof.
  unfold dict_get, export_formats.
  repeat match goal with
         | |- context [String.eqb ?a mime] => destruct (String.eqb a mime)
         end; intros H; inversion H; subst; split; try reflexivity; eauto.
Qed.

(** The plan for a file whose fetched type is a native document type. *)
Lemma file_plan_native d file_id file_name download_path mime :
  metadata_mimeType d file_id = Ret (Some mime) ->
  PyStr.startswith mime "application/vnd.google-apps." = true ->
  file_plan d file_id file_name download_path =
    match dict_get export_formats mime with
    | Some export_mime_type =>
        let ext := default "" (dict_get extensions export_mime_type) in
        if negb (PyStr.endswith file_name ext) then
          PlanFetch (ExportMedia file_id export_mime_type) (file_name +:+ ext)
            (OsPath.join (OsPath.dirname download_path) (file_name +:+ ext))
        else PlanFetch (ExportMedia file_id export_mime_type) file_name
               download_path
    | None => PlanSkip
    end.
Proof.
  intros Hm Hp. unfold file_plan. rewrite Hm. simpl. rewrite Hp.
  destruct (dict_get export_formats mime) as [emt|] eqn:He; [|reflexivity].
  destruct (export_formats_truthy _ _ He) as [-> _]. reflexivity.
Qed.

(** What [fetch_and_write] can do, whatever the request and the path:
    it asks for chunks of its request only, writes the assembled content
    only, and touches its path only. *)
Lemma fetch_summary_facts os d r file_name download_path is_dir :
  let s := fetch_summary os d r file_name download_path is_dir in
  CallNextChunk r ∈ s.2
  /\ (forall r', CallNextChunk r' ∈ s.2 -> r' = r)
  /\ (forall p, CallOpenWrite p ∈ s.2 -> p = download_path)
  /\ (forall p data, CallWrite p data ∈ s.2 ->
        p = download_path /\ content_of d r = Ret data)
  /\ (forall id, CallGetMetadata id ∉ s.2)
  /\ (s.1 = true ->
      exists data, content_of d r = Ret data
                   /\ CallWrite download_path data ∈ s.2).
Proof.
  pose proof (chunk_calls_pos (chunks d r).1 (chunks d r).2) as Hpos.
  unfold fetch_summary.
  destruct (content_of d r) as [data|e];
    [destruct (open_fault os download_path);
     [|destruct (write_fault os download_path)]|];
    cbn [fst snd]; repeat split; try discriminate; elem_solve.
  exists data. split; [reflexivity|]. elem_solve.
Qed.

Lemma fetch_op_facts os d r download_path f p :
  let f' := apply_op (fetch_op os d r download_path) f in
  (p <> download_path -> f' !! p = f !! p)
  /\ (forall data, f' !! p = Some data ->
        f !! p = Some data \/ data = [] \/ content_of d r = Ret data).
Proof.
  unfold fetch_op, write_op.
  destruct (content_of d r) as [data|e]; [|simpl; auto].
  destruct (open_fault os download_path); [simpl; auto|].
  destruct (write_fault os download_path); [|destruct (write_lost os download_path)];
    simpl; (split; [intros Hne|intros data' Hl]).
  - rewrite lookup_insert_ne; auto.
  - destruct (decide (download_path = p)) as [->|Hne].
    + rewrite lookup_insert_eq in Hl. naive_solver.
    + rewrite lookup_insert_ne in Hl; auto.
  - rewrite lookup_delete_ne; auto.
  - destruct (decide (download_path = p)) as [->|Hne].
    + rewrite lookup_delete_eq in Hl. discriminate.
    + rewrite lookup_delete_ne in Hl; auto.
  - rewrite lookup_insert_ne; auto.
  - destruct (decide (download_path = p)) as [->|Hne].
    + rewrite lookup_insert_eq in Hl. naive_solver.
    + rewrite lookup_insert_ne in Hl; auto.
Qed.

Lemma download_file_events os self file_id file_name download_path w :
  let run := download_file os self file_id file_name download_path w in
  new_events w run.2 =
    (file_summary os self file_id file_name download_path (dirs w)).2
  /\ trace run.2 = (trace w ++ new_events w run.2)%list.
Proof.
  cbv zeta. rewrite download_file_run. cbv zeta. cbn [snd fst].
  rewrite new_events_logs by reflexivity. split; reflexivity.
Qed.



(** * One download: claims C1, C3, C4 and C9 *)

(** ** C1: native documents are exported or skipped, never fetched raw *)

(** C1.  When the freshly fetched mimeType of a file starts with
    [application/vnd.google-apps.], [download_file] never requests the
    raw content ([get_media]): the file is exported in the format the
    table maps its type to, and only the exported content is written, or
    it is skipped and nothing is written. *)
Theorem native_document_never_raw os self d file_id file_name download_path
    mime w :
  service self = Some d ->
  metadata_mimeType d file_id = Ret (Some mime) ->
  PyStr.startswith mime "application/vnd.google-apps." = true ->
  exported_or_skipped d file_id file_name mime w
    (download_file os self file_id file_name download_path w).
Proof.
  intros Hd Hm Hp. unfold exported_or_skipped.
  destruct (download_file_events os self file_id file_name download_path w)
    as [-> Ht].
  cbv zeta. split; [exact Ht|]. clear Ht.
  rewrite download_file_run. cbv zeta. cbn [fst snd].
  unfold file_summary, file_op. rewrite Hd.
  rewrite (file_plan_native d file_id file_name download_path mime Hm Hp).
  destruct (dict_get export_formats mime) as [emt|] eqn:He.
  - cbv zeta.
    set (ext := default "" (dict_get extensions emt)).
    set (r := ExportMedia file_id emt).
    assert (Hgen : forall n p,
      let evs := CallGetMetadata file_id
                 :: (fetch_summary os d r n p (bool_decide (p ∈ dirs w))).2 in
      (forall id, CallNextChunk (GetMedia id) ∉ evs)
      /\ CallNextChunk r ∈ evs
      /\ (forall r', CallNextChunk r' ∈ evs -> r' = r)
      /\ (forall p0 data, CallWrite p0 data ∈ evs -> content_of d r = Ret data)
      /\ (forall p0 data,
            apply_op (fetch_op os d r p) (files w) !! p0 = Some data ->
            files w !! p0 = Some data \/ data = [] \/ content_of d r = Ret data)).
    { intros n p.
      destruct (fetch_summary_facts os d r n p (bool_decide (p ∈ dirs w)))
        as (F1 & F2 & F3 & F4 & F5 & F6).
      cbv zeta. repeat split.
      - intros id Hin. apply elem_of_cons in Hin as [Hin|Hin]; [discriminate|].
        apply F2 in Hin. discriminate.
      - apply elem_of_cons. auto.
      - intros r' Hin. apply elem_of_cons in Hin as [Hin|Hin]; [discriminate|].
        auto.
      - intros p0 data Hin.
        apply elem_of_cons in Hin as [Hin|Hin]; [discriminate|].
        apply F4 in Hin. tauto.
      - intros p0 data. apply fetch_op_facts. }
    destruct (negb (PyStr.endswith file_name ext)); cbn [fst snd]; apply Hgen.
  - cbn [fst snd]. split; [|auto].
    intros id Hin. elem_solve.
Qed.

Lemma native_document_never_raw_witness :
  service Demo.documents = Some (Demo.drive [] Demo.one_document)
  /\ metadata_mimeType (Demo.drive [] Demo.one_document) "f1"
     = Ret (Some Demo.doc_mime)
  /\ PyStr.startswith Demo.doc_mime "application/vnd.google-apps." = true
  /\ exported_or_skipped (Demo.drive [] Demo.one_document) "f1" "report"
       Demo.doc_mime Demo.start
       (download_file Demo.sound_os Demo.documents "f1" "report" "out/report"
          Demo.start).
Proof.
  split; [reflexivity|split; [reflexivity|split; [reflexivity|]]].
  apply (native_document_never_raw Demo.sound_os Demo.documents
           (Demo.drive [] Demo.one_document)
           "f1" "report" "out/report" Demo.doc_mime Demo.start);
    reflexivity.
Defined.

(** ** C3: an unmapped native type is skipped, with the result of a failure *)




(** ** C4: a Google document is written under its name plus [.docx] *)




(** ** C9: a file missing after its write still counts as downloaded *)

(** C9.  When the existence check after the write finds the destination
    path missing (which happens only after a write that raised nothing),
    [download_file] prints the anomaly and still returns [True]; no error
    message is printed. *)
Theorem missing_after_write_still_true os self file_id file_name
    download_path w p :
  CallExists p false
    ∈ new_events w (download_file os self file_id file_name download_path w).2 ->
  let run := download_file os self file_id file_name download_path w in
  run.1 = Ret true
  /\ open_fault os p = None /\ write_fault os p = None
  /\ (exists data, CallWrite p data ∈ new_events w run.2)
  /\ Print (MsgNotAtExpectedLocation p) ∈ new_events w run.2
  /\ (forall n e, Print (MsgErrorDownloading n e) ∉ new_events w run.2).
Proof.
  cbv zeta.
  destruct (download_file_events os self file_id file_name download_path w)
    as [-> _].
  rewrite download_file_run. cbv zeta. cbn [fst snd].
  unfold file_summary.
  destruct (service self) as [d|]; [|cbn [fst snd]; elem_solve].
  destruct (file_plan d file_id file_name download_path) as [e| |r n q];
    [cbn [fst snd]; elem_solve..|].
  unfold fetch_summary.
  destruct (content_of d r) as [data|e];
    [destruct (open_fault os q) eqn:Ho;
     [|destruct (write_fault os q) eqn:Hw]|];
    cbn [fst snd]; intros Hin; elem_solve.
  set (found := bool_decide (q ∈ dirs w) || negb (write_lost os q)) in *.
  assert (Heq : q = p /\ found = false) by (clear -Hin; naive_solver).
  destruct Heq as [-> Hf]. rewrite Hf.
  split; [reflexivity|]. split; [exact Ho|]. split; [exact Hw|].
  split; [exists data; elem_solve|]. split; [elem_solve|].
  intros n' e' Hin'. elem_solve.
Qed.

Lemma missing_after_write_still_true_witness :
  CallExists "out/a.pdf" false
    ∈ new_events Demo.start
        (download_file (Demo.lossy_os "out/a.pdf") Demo.pdfs
           "f1" "a.pdf" "out/a.pdf" Demo.start).2
  /\ (let run := download_file (Demo.lossy_os "out/a.pdf") Demo.pdfs
                   "f1" "a.pdf" "out/a.pdf" Demo.start in
      run.1 = Ret true
      /\ open_fault (Demo.lossy_os "out/a.pdf") "out/a.pdf" = None
      /\ write_fault (Demo.lossy_os "out/a.pdf") "out/a.pdf" = None
      /\ (exists data, CallWrite "out/a.pdf" data ∈ new_events Demo.start run.2)
      /\ Print (MsgNotAtExpectedLocation "out/a.pdf")
           ∈ new_events Demo.start run.2
      /\ (forall n e,
            Print (MsgErrorDownloading n e) ∉ new_events Demo.start run.2)).
Proof.
  assert (H : CallExists "out/a.pdf" false
                ∈ new_events Demo.start
                    (download_file (Demo.lossy_os "out/a.pdf") Demo.pdfs
                       "f1" "a.pdf" "out/a.pdf" Demo.start).2)
    by (vm_compute; repeat constructor).
  split; [exact H|].
  exact (missing_after_write_still_true (Demo.lossy_os "out/a.pdf")
           Demo.pdfs "f1" "a.pdf" "out/a.pdf" Demo.start "out/a.pdf" H).
Defined.

(** ** Facts about the events of a run of [download_folder] *)

Lemma filter_none (P Q : event -> bool) (l : list event) :
  (forall ev, Q ev = true -> P ev = false) ->
  Forall (fun ev => Q ev = true) l -> List.filter P l = [].
Proof.
  intros HQ F. induction F as [|ev l Hev F IH]; [reflexivity|].
  simpl. rewrite (HQ ev Hev). exact IH.
Qed.

Lemma Forall_replicate_event (P : event -> Prop) n ev :
  P ev -> Forall P (replicate n ev).
Proof. intros H. induction n; simpl; constructor; auto. Qed.

Lemma fetch_summary_inner os d r file_name download_path is_dir :
  Forall (fun ev => is_inner_event ev = true)
    (fetch_summary os d r file_name download_path is_dir).2.
Proof.
  unfold fetch_summary.
  destruct (content_of d r) as [data|e];
    [destruct (open_fault os download_path);
     [|destruct (write_fault os download_path)]|];
    cbn [fst snd]; apply Forall_app; split;
    try (apply Forall_replicate_event; reflexivity);
    repeat constructor.
  destruct (_ || _); reflexivity.
Qed.

(** With a service, a run of [download_file] is the metadata call
    followed by inner events. *)
Lemma file_summary_inner os self d file_id file_name download_path ds :
  service self = Some d ->
  exists inner,
    (file_summary os self file_id file_name download_path ds).2
    = CallGetMetadata file_id :: inner
    /\ Forall (fun ev => is_inner_event ev = true) inner.
Proof.
  intros Hd. unfold file_summary. rewrite Hd.
  destruct (file_plan d file_id file_name download_path) as [e| |r n p];
    cbn [fst snd]; eexists; (split; [reflexivity|]).
  - repeat constructor.
  - repeat constructor.
  - apply fetch_summary_inner.
Qed.

Section EachFacts.

Variable os : OS.
Variable self : GoogleDriveDownloader.
Variable d : Drive.
Hypothesis Hd : service self = Some d.
Variable local_path : string.
Variable n : Z.
Variable ds : gset string.

Lemma each_summary_cons file rest i sc :
  exists inner ok,
    Forall (fun ev => is_inner_event ev = true) inner
    /\ each_summary os self local_path n i sc (file :: rest) ds
       = ((each_summary os self local_path n (i + 1)
             (if ok : bool then sc + 1 else sc) rest ds).1,
          (Print (MsgDownloading i n (rf_name file))
           :: CallGetMetadata (rf_id file) :: inner
           ++ (if ok then [Print (MsgDownloaded (rf_name file))] else [])
           ++ (each_summary os self local_path n (i + 1)
                 (if ok then sc + 1 else sc) rest ds).2)%list).
Proof.
  destruct (file_summary_inner os self d (rf_id file) (rf_name file)
              (OsPath.join local_path (rf_name file)) ds Hd)
    as (inner & Hs & F).
  exists inner,
    (file_summary os self (rf_id file) (rf_name file)
       (OsPath.join local_path (rf_name file)) ds).1.
  split; [exact F|].
  cbn [each_summary]. rewrite Hs. reflexivity.
Qed.

Lemma each_summary_file_events listing : forall i sc,
  Forall (fun ev => is_file_event ev = true)
    (each_summary os self local_path n i sc listing ds).2.
Proof.
  induction listing as [|file rest IH]; intros i sc; [constructor|].
  destruct (each_summary_cons file rest i sc) as (inner & ok & F & ->).
  cbn [snd]. constructor; [reflexivity|]. constructor; [reflexivity|].
  apply Forall_app. split.
  - eapply Forall_impl; [exact F|]. intros [[]| | | | | | | | |]; simpl; congruence.
  - apply Forall_app. split; [destruct ok; repeat constructor|apply IH].
Qed.




End EachFacts.

Lemma prep_summary_facts os local_path found :
  let s := prep_summary os local_path found in
  let parent_dir := OsPath.dirname local_path in
  Forall (fun ev => is_prep_event ev = true) s.1.2
  /\ (s.1.1 = false ->
      (exists p, CallMakedirs p false ∈ s.1.2)
      /\ (Print (MsgTargetReady local_path) ∉ s.1.2)
      /\ exists e, last s.1.2 = Some (Print (MsgFailedCreateParents e))
                   \/ last s.1.2 = Some (Print (MsgFailedCreateTarget e)))
  /\ (s.1.1 = true ->
      (forall p, CallMakedirs p false ∉ s.1.2)
      /\ Print (MsgTargetReady local_path) ∈ s.1.2
      /\ CallMakedirs local_path true ∈ s.1.2
      /\ local_path ∈ s.2
      /\ (PyStr.truthy parent_dir = true -> found = false ->
          parent_dir ∈ s.2
          /\ exists e1 e2,
              s.1.2 = (e1 ++ CallMakedirs parent_dir true :: e2)%list
              /\ CallMakedirs local_path true ∈ e2)).
Proof.
  unfold prep_summary.
  destruct (PyStr.truthy (OsPath.dirname local_path)) eqn:Ht;
    destruct found;
    try destruct (makedirs_fault os (OsPath.dirname local_path)) eqn:Hp;
    destruct (makedirs_fault os local_path) eqn:Hl;
    cbn [fst snd andb negb app];
    (split; [repeat constructor|]); split; intros Hok; try discriminate.
  all: try match goal with
           | |- (exists p, _) /\ _ =>
               split; [eexists; elem_solve|];
               split; [intros Hin; elem_solve|eexists; cbn [last]; eauto]
           end.
  all: split; [intros p Hin; elem_solve|].
  all: split; [elem_solve|].
  all: split; [elem_solve|].
  all: split; [set_solver|].
  all: intros H1 H2; try discriminate.
  split; [set_solver|].
  eexists [_; _; _; _], [_; _; _]. split; [reflexivity|]. elem_solve.
Qed.

Lemma listing_summary_events os self d local_path folder_id ds :
  service self = Some d ->
  exists tail,
    (listing_summary os self d local_path folder_id ds).1.2
    = Print (MsgDownloadingFromFolder folder_id) :: CallList folder_id :: tail
    /\ Forall (fun ev => is_file_event ev = true) tail.
Proof.
  intros Hd. unfold listing_summary.
  destruct (children d folder_id) as [[|file rest]|e]; cbn [fst snd app];
    eexists; (split; [reflexivity|]).
  - repeat constructor.
  - constructor; [reflexivity|].
    apply Forall_app. split; [|repeat constructor].
    apply (each_summary_file_events os self d Hd).
  - constructor.
Qed.

Lemma split_after_prefix (P : event -> bool) (A B : list event) :
  Forall (fun x => P x = false) A ->
  forall pre ev post,
    P ev = true -> (A ++ B)%list = (pre ++ ev :: post)%list ->
    exists pre', pre = (A ++ pre')%list /\ B = (pre' ++ ev :: post)%list.
Proof.
  induction 1 as [|a A Ha F IH]; intros pre ev post Hev Heq.
  - exists pre. auto.
  - destruct pre as [|x pre]; simpl in Heq.
    + inversion Heq; subst. congruence.
    + inversion Heq; subst.
      destruct (IH pre ev post Hev H1) as (pre' & -> & HB).
      exists pre'. auto.
Qed.

Lemma new_events_same w : new_events w w = [].
Proof. unfold new_events. apply drop_all. Qed.

Lemma Forall_false_not_elem (P : event -> bool) (l : list event) ev :
  Forall (fun x => P x = false) l -> P ev = true -> ev ∉ l.
Proof.
  intros F Hev Hin. rewrite Forall_forall in F. specialize (F ev Hin). congruence.
Qed.

Lemma directories_first_of_shape os local_path w o w2 B :
  trace w2 = trace w ->
  dirs w2 = (prep_of os local_path w).2 ∪ dirs w ->
  ((prep_of os local_path w).1.1 = false /\ B = [] /\ o = Ret tt)
  \/ ((prep_of os local_path w).1.1 = true
      /\ Forall (fun ev => is_makedirs_call ev = false) B) ->
  directories_first local_path w
    (o, logs ((prep_of os local_path w).1.2 ++ B) w2).
Proof.
  intros Ht Hdirs Hcase. unfold directories_first. cbn [fst snd].
  rewrite new_events_logs by exact Ht.
  destruct (prep_summary_facts os local_path
              (path_exists w (OsPath.dirname local_path)))
    as (Fprep & Hfail & Hok).
  fold (prep_of os local_path w) in Fprep, Hfail, Hok.
  assert (Fnc : Forall (fun x => is_remote_or_file_call x = false)
                  (prep_of os local_path w).1.2).
  { eapply Forall_impl; [exact Fprep|].
    intros [[]| | | | | | | | |]; unfold is_remote_or_file_call; simpl;
      congruence. }
  split; [simpl; rewrite Ht; reflexivity|]. split.
  - intros pre ev post Heq Hev.
    destruct (split_after_prefix is_remote_or_file_call _ B Fnc pre ev post
                Hev Heq) as (pre' & -> & HB).
    destruct Hcase as [(_ & -> & _)|(Hs & FB)].
    { destruct pre'; discriminate. }
    destruct (Hok Hs) as (_ & _ & Hl & Hld & Hparent).
    split; [apply elem_of_app; auto|].
    split; [simpl; rewrite Hdirs; set_solver|].
    intros H1 H2. destruct (Hparent H1 H2) as (Hpd & e1 & e2 & He & Hin).
    split; [simpl; rewrite Hdirs; set_solver|].
    exists e1, (e2 ++ pre')%list. rewrite He, <- app_assoc. simpl.
    split; [reflexivity|]. apply elem_of_app. auto.
  - intros (p & Hin). apply elem_of_app in Hin.
    destruct Hcase as [(_ & -> & ->)|(Hs & FB)].
    + split; [reflexivity|]. rewrite app_nil_r. exact Fnc.
    + exfalso. destruct Hin as [Hin|Hin].
      * destruct (Hok Hs) as (Hno & _). exact (Hno p Hin).
      * exact (Forall_false_not_elem is_makedirs_call B
                 (CallMakedirs p false) FB eq_refl Hin).
Qed.

Lemma prep_events_plain os local_path w :
  Forall (fun ev => is_list_call ev = false)
    (prep_of os local_path w).1.2
  /\ Forall (fun ev => is_folder_query ev = false)
       (prep_of os local_path w).1.2.
Proof.
  destruct (prep_summary_facts os local_path
              (path_exists w (OsPath.dirname local_path))) as (F & _).
  fold (prep_of os local_path w) in F.
  split; (eapply Forall_impl; [exact F|]);
    intros [[]| | | | | | | | |]; simpl; congruence.
Qed.

Lemma console_events_plain (res : list event) :
  Forall (fun ev => is_console_event ev = true) res ->
  Forall (fun ev => is_list_call ev = false) res
  /\ Forall (fun ev => is_folder_query ev = false) res.
Proof.
  intros F.
  split; (eapply Forall_impl; [exact F|]);
    intros [[]| | | | | | | | |]; simpl; congruence.
Qed.

Lemma file_events_plain (tail : list event) :
  Forall (fun ev => is_file_event ev = true) tail ->
  Forall (fun ev => is_list_call ev = false) tail
  /\ Forall (fun ev => is_folder_query ev = false) tail.
Proof.
  intros F.
  split; (eapply Forall_impl; [exact F|]);
    intros [[]| | | | | | | | |]; simpl; congruence.
Qed.

Lemma elem_of_Forall_false (P : event -> bool) (l : list event) ev :
  Forall (fun x => P x = false) l -> ev ∈ l -> P ev = false.
Proof. intros F Hin. rewrite Forall_forall in F. auto. Qed.

(** The shape test: 33 characters, all of them alphanumeric. *)
Lemma looks_like_id_shape s :
  looks_like_id s = true
  <-> String.length s = 33%nat
      /\ PyStr.all_chars PyStr.isalnum_char s = true.
Proof.
  unfold looks_like_id, PyStr.len, PyStr.isalnum.
  rewrite andb_true_iff, Z.eqb_eq.
  destruct s as [|c s]; cbn [String.length]; [split; intros [H _]; lia|].
  split; intros [H1 H2]; (split; [lia|exact H2]).
Qed.

Example id_shape_yes : looks_like_id "1AbCdEfGhIjKlMnOpQrStUvWxYz012345" = true.
Proof. reflexivity. Qed.
Example id_shape_name : looks_like_id "Reports" = false.
Proof. reflexivity. Qed.
Example id_shape_dash : looks_like_id "1AbCdEfGhIjKlMnOpQrStUvWxYz0123-5" = false.
Proof. reflexivity. Qed.


Lemma prep_events_quiet os local_path w :
  Forall (fun ev => is_list_call ev = false /\ is_file_call ev = false)
    (prep_of os local_path w).1.2.
Proof.
  destruct (prep_summary_facts os local_path
              (path_exists w (OsPath.dirname local_path))) as (F & _).
  fold (prep_of os local_path w) in F.
  eapply Forall_impl; [exact F|].
  intros [[]| | | | | | | | |]; simpl; (split; congruence).
Qed.





(** ** The file system after a pass: the last write to a path wins *)

Lemma apply_op_lookup (op : fs_op) (f : gmap string bytes) (p : string) :
  apply_op op f !! p =
    match op with
    | Some (q, v) => if String.eqb q p then v else f !! p
    | None => f !! p
    end.
Proof.
  destruct op as [[q [data|]]|]; simpl; try reflexivity;
    destruct (String.eqb_spec q p) as [->|Hne].
  - apply lookup_insert_eq.
  - apply lookup_insert_ne, Hne.
  - apply lookup_delete_eq.
  - apply lookup_delete_ne, Hne.
Qed.

Lemma apply_ops_lookup (ops : list fs_op) : forall (f : gmap string bytes) p,
  apply_ops ops f !! p =
    match last_op ops p with
    | Some v => v
    | None => f !! p
    end.
Proof.
  induction ops as [|op ops IH]; intros f p; [reflexivity|].
  rewrite apply_ops_cons, IH. cbn [last_op].
  destruct (last_op ops p) as [v|]; [reflexivity|].
  rewrite apply_op_lookup.
  destruct op as [[q v]|]; [|reflexivity].
  destruct (String.eqb q p); reflexivity.
Qed.

(** Doing the same operations again changes nothing. *)
Lemma apply_ops_idempotent (ops : list fs_op) (f : gmap string bytes) :
  apply_ops ops (apply_ops ops f) = apply_ops ops f.
Proof.
  apply map_eq. intros p. rewrite !apply_ops_lookup.
  destruct (last_op ops p); reflexivity.
Qed.

Lemma listing_summary_ops os self d local_path folder_id ds :
  (listing_summary os self d local_path folder_id ds).2
  = listing_ops os self d local_path folder_id.
Proof.
  unfold listing_summary, listing_ops.
  destruct (children d folder_id) as [[|file rest]|e]; reflexivity.
Qed.

(** The local writes of a pass do not depend on the directories known. *)
Lemma fetch_summary_writes os d r file_name download_path b1 b2 :
  (fetch_summary os d r file_name download_path b1).1
  = (fetch_summary os d r file_name download_path b2).1
  /\ List.filter is_local_write
       (fetch_summary os d r file_name download_path b1).2
     = List.filter is_local_write
         (fetch_summary os d r file_name download_path b2).2.
Proof.
  unfold fetch_summary.
  destruct (content_of d r) as [data|e];
    [destruct (open_fault os download_path);
     [|destruct (write_fault os download_path)]|];
    cbn [fst snd]; (split; [reflexivity|]);
    rewrite !List.filter_app; f_equal.
Qed.

Lemma file_summary_writes os self file_id file_name download_path ds1 ds2 :
  (file_summary os self file_id file_name download_path ds1).1
  = (file_summary os self file_id file_name download_path ds2).1
  /\ List.filter is_local_write
       (file_summary os self file_id file_name download_path ds1).2
     = List.filter is_local_write
         (file_summary os self file_id file_name download_path ds2).2.
Proof.
  unfold file_summary.
  destruct (service self) as [d|]; [|auto].
  destruct (file_plan d file_id file_name download_path) as [e| |r n p]; auto.
  cbn [fst snd List.filter is_local_write].
  apply fetch_summary_writes.
Qed.

Lemma each_summary_writes os self local_path n listing ds1 ds2 : forall i sc,
  List.filter is_local_write
    (each_summary os self local_path n i sc listing ds1).2
  = List.filter is_local_write
      (each_summary os self local_path n i sc listing ds2).2.
Proof.
  induction listing as [|file rest IH]; intros i sc; [reflexivity|].
  cbn [each_summary snd].
  destruct (file_summary_writes os self (rf_id file) (rf_name file)
              (OsPath.join local_path (rf_name file)) ds1 ds2) as (H1 & H2).
  rewrite H1. cbn [List.filter is_local_write].
  rewrite !List.filter_app, H2, IH. reflexivity.
Qed.

Lemma listing_summary_writes os self d local_path folder_id ds1 ds2 :
  List.filter is_local_write
    (listing_summary os self d local_path folder_id ds1).1.2
  = List.filter is_local_write
      (listing_summary os self d local_path folder_id ds2).1.2.
Proof.
  unfold listing_summary.
  destruct (children d folder_id) as [[|file rest]|e]; try reflexivity.
  cbv zeta. cbn [fst snd]. rewrite !List.filter_app.
  rewrite (each_summary_writes os self local_path _ (file :: rest) ds1 ds2).
  reflexivity.
Qed.

(** What a run lists and leaves: no listing of children and no change
    of the files, or the listing of one folder and the operations of the
    pass over it. *)
Lemma folder_run_effect os self d folder_identifier local_path w run :
  service self = Some d ->
  folder_run os self d folder_identifier local_path w run ->
  let evs := new_events w run.2 in
  ((forall folder_id, CallList folder_id ∉ evs)
   /\ files run.2 = files w
   /\ List.filter is_local_write evs = [])
  \/ exists folder_id,
      CallList folder_id ∈ evs
      /\ (forall folder_id', CallList folder_id' ∈ evs -> folder_id' = folder_id)
      /\ files run.2
         = apply_ops (listing_ops os self d local_path folder_id) (files w)
      /\ List.filter is_local_write evs
         = List.filter is_local_write
             (listing_summary os self d local_path folder_id ∅).1.2
      /\ (prep_of os local_path w).1.1 = true
      /\ (looks_like_id folder_identifier = true ->
          folder_id = folder_identifier).
Proof.
  intros Hd Hrun.
  destruct (prep_events_plain os local_path w) as (PL & PQ).
  assert (PW : List.filter is_local_write (prep_of os local_path w).1.2 = []).
  { destruct (prep_summary_facts os local_path
                (path_exists w (OsPath.dirname local_path))) as (F & _).
    fold (prep_of os local_path w) in F.
    apply (filter_none is_local_write is_prep_event); [|exact F].
    intros [[]| | | | | | | | |]; simpl; congruence. }
  assert (CW : forall res, Forall (fun ev => is_console_event ev = true) res ->
                           List.filter is_local_write res = []).
  { intros res F. apply (filter_none is_local_write is_console_event); [|exact F].
    intros [[]| | | | | | | | |]; simpl; congruence. }
  destruct Hrun as [Hs|o res rest Hs Hid Fres Hnf Hq|folder_id res rest Hs Hres];
    cbn [fst snd]; rewrite new_events_logs by reflexivity.
  - left. split; [|split; [reflexivity|exact PW]].
    intros fid Hin.
    pose proof (elem_of_Forall_false is_list_call _ _ PL Hin). discriminate.
  - left. split; [|split; [reflexivity|]].
    + intros fid Hin. apply elem_of_app in Hin as [Hin|Hin].
      * pose proof (elem_of_Forall_false is_list_call _ _ PL Hin). discriminate.
      * apply elem_of_cons in Hin as [Hin|Hin]; [discriminate|].
        destruct (console_events_plain res Fres) as (RL & _).
        pose proof (elem_of_Forall_false is_list_call _ _ RL Hin). discriminate.
    + rewrite List.filter_app, PW. simpl. apply CW, Fres.
  - right. exists folder_id.
    assert (Hshape : Forall (fun ev => is_list_call ev = false) res
                     /\ List.filter is_local_write res = []).
    { destruct (looks_like_id folder_identifier).
      - destruct Hres as [-> _]. split; [constructor|reflexivity].
      - destruct Hres as (_ & res' & -> & F). split.
        + constructor; [reflexivity|]. apply console_events_plain, F.
        + simpl. apply CW, F. }
    destruct Hshape as (RL & RW).
    destruct (listing_summary_events os self d local_path folder_id
                (dirs (prepared os local_path w)) Hd) as (tail & El & Ftail).
    destruct (file_events_plain tail Ftail) as (TL & _).
    split; [rewrite El; elem_solve|]. split; [|split].
    + intros fid Hin. rewrite El in Hin.
      apply elem_of_app in Hin as [Hin|Hin].
      { pose proof (elem_of_Forall_false is_list_call _ _ PL Hin).
        discriminate. }
      apply elem_of_app in Hin as [Hin|Hin].
      { pose proof (elem_of_Forall_false is_list_call _ _ RL Hin).
        discriminate. }
      apply elem_of_cons in Hin as [Hin|Hin]; [discriminate|].
      apply elem_of_cons in Hin as [Hin|Hin]; [congruence|].
      pose proof (elem_of_Forall_false is_list_call _ _ TL Hin). discriminate.
    + simpl. rewrite listing_summary_ops. reflexivity.
    + split; [|split; [exact Hs|]].
      * rewrite !List.filter_app, PW, RW. simpl.
        apply listing_summary_writes.
      * intros Hid. rewrite Hid in Hres. tauto.
Qed.

(** A preparation that failed fails again in the world it left. *)
Lemma prep_fail_stable os local_path w evs :
  (prep_of os local_path w).1.1 = false ->
  (prep_of os local_path (logs evs (prepared os local_path w))).1.1 = false.
Proof.
  unfold prepared, prep_of, prep_summary, path_exists. cbn [dirs files logs set_dirs].
  destruct (PyStr.truthy (OsPath.dirname local_path)); cbn [andb];
    [destruct (bool_decide (OsPath.dirname local_path ∈ dirs w)
               || bool_decide (is_Some (files w !! OsPath.dirname local_path)))
       eqn:Hfound; cbn [negb]|];
    try destruct (makedirs_fault os (OsPath.dirname local_path)) eqn:Hp;
    destruct (makedirs_fault os local_path) eqn:Hl; cbn [fst snd];
    intros Hok; try discriminate;
    rewrite ?(left_id_L ∅ (∪)), ?Hfound; cbn [negb andb];
    repeat match goal with
           | |- context [if ?b then _ else _] => destruct b
           end; cbn [fst snd]; reflexivity.
Qed.

(** With an identifier of the shape of an id, a second run lists no
    folder that the first run did not list. *)
Lemma id_listed_again os self d folder_identifier local_path w :
  service self = Some d ->
  looks_like_id folder_identifier = true ->
  let run1 := download_folder os self folder_identifier local_path w in
  let run2 := download_folder os self folder_identifier local_path run1.2 in
  forall folder_id,
    CallList folder_id ∈ new_events run1.2 run2.2 ->
    CallList folder_id ∈ new_events w run1.2.
Proof.
  intros Hd Hid run1 run2 fid Hin.
  pose proof (folder_run_effect os self d folder_identifier local_path run1.2
                run2 Hd
                (download_folder_shape os self d folder_identifier local_path
                   run1.2 Hd)) as E2.
  cbv zeta in E2.
  destruct E2 as [(Hno2 & _)|(fid2 & _ & Honly2 & _ & _ & Hok2 & Hfid2)].
  { destruct (Hno2 fid Hin). }
  rewrite (Honly2 fid Hin), (Hfid2 Hid). clear Hin Honly2 Hfid2.
  subst run2. subst run1.
  destruct (download_folder_shape os self d folder_identifier local_path w Hd)
    as [Hs|o res rest Hs Hid' Fres Hnf Hq|folder_id res rest Hs Hres].
  - cbn [snd] in Hok2. rewrite prep_fail_stable in Hok2 by exact Hs.
    discriminate.
  - congruence.
  - cbn [snd]. rewrite new_events_logs by reflexivity.
    rewrite Hid in Hres. destruct Hres as [-> ->].
    destruct (listing_summary_events os self d local_path folder_identifier
                (dirs (prepared os local_path w)) Hd) as (tail & -> & _).
    elem_solve.
Qed.

Lemma second_sync_core os self folder_identifier local_path w :
  let run1 := download_folder os self folder_identifier local_path w in
  let run2 := download_folder os self folder_identifier local_path run1.2 in
  (forall folder_id,
     CallList folder_id ∈ new_events run1.2 run2.2 ->
     CallList folder_id ∈ new_events w run1.2) ->
  files run2.2 = files run1.2
  /\ ((exists folder_id, CallList folder_id ∈ new_events run1.2 run2.2) ->
      List.filter is_local_write (new_events run1.2 run2.2)
      = List.filter is_local_write (new_events w run1.2)).
Proof.
  intros run1 run2 Hsame.
  destruct (service self) as [d|] eqn:Hd.
  2: { subst run2 run1.
       repeat (rewrite download_folder_split, Hd; cbn [fst snd]).
       split; [reflexivity|]. rewrite new_events_same.
       intros (fid & Hin). elem_solve. }
  pose proof (folder_run_effect os self d folder_identifier local_path w run1 Hd
                (download_folder_shape os self d folder_identifier local_path
                   w Hd)) as E1.
  pose proof (folder_run_effect os self d folder_identifier local_path run1.2
                run2 Hd
                (download_folder_shape os self d folder_identifier local_path
                   run1.2 Hd)) as E2.
  cbv zeta in E1, E2.
  destruct E2 as [(Hno2 & Hf2 & Hw2)|(fid2 & Hin2 & Honly2 & Hf2 & Hw2 & _)].
  - split; [exact Hf2|]. intros (fid & Hin). destruct (Hno2 fid Hin).
  - pose proof (Hsame fid2 Hin2) as Hin1.
    destruct E1 as [(Hno1 & _)|(fid1 & _ & Honly1 & Hf1 & Hw1 & _)].
    { destruct (Hno1 fid2 Hin1). }
    rewrite (Honly1 fid2 Hin1) in *.
    split.
    + rewrite Hf2, Hf1. apply apply_ops_idempotent.
    + intros _. rewrite Hw2, Hw1. reflexivity.
Qed.



(** A file that is not of a native type is fetched raw and, when
    nothing fails, written to the path it was given. *)
Lemma file_op_raw os self d file_id file_name download_path md data :
  service self = Some d ->
  metadata_mimeType d file_id = Ret md ->
  PyStr.startswith (default "" md) "application/vnd.google-apps." = false ->
  content_of d (GetMedia file_id) = Ret data ->
  open_fault os download_path = None ->
  write_fault os download_path = None ->
  write_lost os download_path = false ->
  file_op os self file_id file_name download_path
  = Some (download_path, Some data).
Proof.
  intros Hd Hm Hp Hc Ho Hw Hl.
  unfold file_op, file_plan. rewrite Hd, Hm. cbv zeta. rewrite Hp.
  unfold fetch_op, write_op. rewrite Hc, Ho, Hw, Hl. reflexivity.
Qed.

(** * One run of [download_folder]: claims C2, C5, C6, C7, C8 and C10 *)

(** ** C2: every file of the listing is attempted *)



(** A listing of three files whose second one is skipped: the third is
    attempted all the same, and two of three are counted. *)
Example skipped_file_does_not_stop_the_pass :
  List.filter is_metadata_call
    (trace (download_folder Demo.sound_os Demo.mixed_files Demo.folder_id "out"
              Demo.start).2)
  = [CallGetMetadata "f1"; CallGetMetadata "f2"; CallGetMetadata "f3"]
  /\ last (trace (download_folder Demo.sound_os Demo.mixed_files Demo.folder_id
                    "out" Demo.start).2)
     = Some (Print (MsgDownloadComplete 2 3)).
Proof. split; vm_compute; reflexivity. Qed.

(** ** C5: an identifier of the shape of an id is not looked up *)


(** ** C6: the directories are created before any listing or file call *)

(** C6.  In every run of [download_folder], a listing call (the folder
    query or the listing of children) or a file call (metadata, chunk,
    open, write) is preceded by the successful creation of the target
    directory, itself preceded by the successful creation of the parent
    directory if that was missing; and when a directory creation fails,
    the run returns without any listing call or file call. *)
Theorem directories_created_first os self folder_identifier local_path w :
  directories_first local_path w
    (download_folder os self folder_identifier local_path w).
Proof.
  destruct (service self) as [d|] eqn:Hd.
  - destruct (download_folder_shape os self d folder_identifier local_path w Hd)
      as [Hs|o res rest Hs Hid Fres Hnf Hq|folder_id res rest Hs Hres].
    + rewrite <- (app_nil_r (prep_of os local_path w).1.2).
      apply directories_first_of_shape; [reflexivity|reflexivity|auto].
    + apply directories_first_of_shape; [reflexivity|reflexivity|].
      right. split; [exact Hs|]. constructor; [reflexivity|].
      eapply Forall_impl; [exact Fres|].
      intros [[]| | | | | | | | |]; simpl; congruence.
    + apply directories_first_of_shape; [reflexivity|reflexivity|].
      right. split; [exact Hs|].
      destruct (listing_summary_events os self d local_path folder_id
                  (dirs (prepared os local_path w)) Hd) as (tail & -> & Ftail).
      apply Forall_app. split.
      * destruct (looks_like_id folder_identifier).
        { destruct Hres as [-> _]. constructor. }
        destruct Hres as (_ & res' & -> & Fres). constructor; [reflexivity|].
        eapply Forall_impl; [exact Fres|].
        intros [[]| | | | | | | | |]; simpl; congruence.
      * constructor; [reflexivity|]. constructor; [reflexivity|].
        eapply Forall_impl; [exact Ftail|].
        intros [[]| | | | | | | | |]; simpl; congruence.
  - rewrite download_folder_split, Hd. unfold directories_first. cbn [fst snd].
    rewrite new_events_same, app_nil_r. split; [reflexivity|]. split.
    + intros pre ev post Heq. destruct pre; discriminate.
    + intros (p & Hin). elem_solve.
Qed.

(** ** C7: the exits of [download_folder] *)




(** ** C8: a second pass over the same folder leaves the same files *)

(** C8.  Run [download_folder] twice with the same identifier and the
    same destination, the second time in the world the first run left,
    against the same Drive and operating system.  If the identifier has
    the shape of an id or, more generally, if the second run lists the
    folder the first run listed (the same folder is chosen among folders
    of the same name), then the files after the second run are the files
    after the first, the same paths with the same contents, and the
    second run opens and writes the same files with the same contents,
    in the same order, as the first. *)
Theorem second_sync_same_files os self folder_identifier local_path w :
  let run1 := download_folder os self folder_identifier local_path w in
  let run2 := download_folder os self folder_identifier local_path run1.2 in
  looks_like_id folder_identifier = true
  \/ (forall folder_id,
        CallList folder_id ∈ new_events run1.2 run2.2 ->
        CallList folder_id ∈ new_events w run1.2) ->
  files run2.2 = files run1.2
  /\ dom (files run2.2) = dom (files run1.2)
  /\ ((exists folder_id, CallList folder_id ∈ new_events run1.2 run2.2) ->
      List.filter is_local_write (new_events run1.2 run2.2)
      = List.filter is_local_write (new_events w run1.2)).
Proof.
  intros run1 run2 Hsame.
  assert (Hlisted : forall folder_id,
            CallList folder_id ∈ new_events run1.2 run2.2 ->
            CallList folder_id ∈ new_events w run1.2).
  { destruct Hsame as [Hid|Hsame]; [|exact Hsame].
    destruct (service self) as [d|] eqn:Hd.
    - apply (id_listed_again os self d folder_identifier local_path w Hd Hid).
    - subst run2 run1.
      repeat (rewrite download_folder_split, Hd; cbn [fst snd]).
      rewrite new_events_same. intros fid Hin. elem_solve. }
  destruct (second_sync_core os self folder_identifier local_path w Hlisted)
    as [Hf Hw].
  fold run1 in Hf, Hw. fold run2 in Hf, Hw.
  split; [exact Hf|]. split; [rewrite Hf; reflexivity|exact Hw].
Qed.

Lemma second_sync_same_files_witness :
  (looks_like_id Demo.folder_id = true
   \/ (forall folder_id,
         CallList folder_id ∈ new_events Demo.first_pass.2 Demo.second_pass.2 ->
         CallList folder_id ∈ new_events Demo.start Demo.first_pass.2))
  /\ (files Demo.second_pass.2 = files Demo.first_pass.2
      /\ dom (files Demo.second_pass.2) = dom (files Demo.first_pass.2)
      /\ ((exists folder_id,
             CallList folder_id
               ∈ new_events Demo.first_pass.2 Demo.second_pass.2) ->
          List.filter is_local_write
            (new_events Demo.first_pass.2 Demo.second_pass.2)
          = List.filter is_local_write
              (new_events Demo.start Demo.first_pass.2))).
Proof.
  unfold Demo.second_pass, Demo.first_pass.
  split; [left; reflexivity|].
  exact (second_sync_same_files Demo.sound_os Demo.mixed_files
           Demo.folder_id "out" Demo.start (or_introl eq_refl)).
Defined.

(** The second pass over the three files of the example: the same two
    files, with the same contents, written again. *)
Example second_pass_on_mixed_files :
  map_to_list (files Demo.second_pass.2) = map_to_list (files Demo.first_pass.2)
  /\ files Demo.first_pass.2 !! "out/report.docx" = Some [x50; x4b]
  /\ size (files Demo.first_pass.2) = 2%nat
  /\ List.filter is_local_write
       (new_events Demo.first_pass.2 Demo.second_pass.2)
     = [CallOpenWrite "out/report.docx";
        CallWrite "out/report.docx" [x50; x4b];
        CallOpenWrite "out/a.pdf"; CallWrite "out/a.pdf" [x66; x33]].
Proof. repeat split; vm_compute; reflexivity. Qed.

(** ** C10: files with the same declared name *)




(** * The folder lookup and the errors that escape [download_folder] *)

Section Prompt.

Variable self : GoogleDriveDownloader.

Lemma print_choices_exact folders : forall i w,
  print_choices i folders w =
    (Ret tt,
     logs (imap (fun k folder =>
                   Print (MsgFolderChoice (i + 1 + Z.of_nat k)
                            (fe_name folder) (fe_id folder))) folders) w).
Proof.
  induction folders as [|f rest IH]; intros i w; simpl.
  - rewrite logs_nil. reflexivity.
  - run_monad. simpl. rewrite IH. f_equal.
    rewrite log_logs, logs_logs. simpl. f_equal. f_equal.
    + f_equal. f_equal. lia.
    + apply imap_ext. intros k x _. simpl. f_equal. f_equal. lia.
Qed.

Lemma valid_choice_index (folders : list FolderEntry) z :
  valid_choice (length folders) (Num z)
  = (0 <=? z - 1) && (z - 1 <? Z.of_nat (length folders)).
Proof. unfold valid_choice. lia. Qed.

Lemma ask_choice_accepts folders z rest : forall bad w,
  Forall (fun line => valid_choice (length folders) line = false) bad ->
  valid_choice (length folders) (Num z) = true ->
  exists folder,
    folders !! Z.to_nat (z - 1) = Some folder
    /\ ask_choice folders (bad ++ Num z :: rest) w
       = (Ret (fe_id folder),
          logs (rejected bad ++ [Input]) (set_stdin rest w)).
Proof.
  intros bad w Hbad Hz. revert w.
  induction Hbad as [|line bad Hline Hbad IH]; intros w.
  - destruct (lookup_lt_is_Some_2 folders (Z.to_nat (z - 1))) as [folder Hf].
    { unfold valid_choice in Hz. lia. }
    exists folder. split; [exact Hf|].
    simpl. run_monad. simpl. rewrite <- valid_choice_index, Hz, Hf.
    f_equal; try same_world.
  - destruct (IH (log (complaint_for line) (set_stdin (bad ++ Num z :: rest)
                                             (log Input w))))
      as (folder & Hf & E).
    exists folder. split; [exact Hf|].
    simpl. run_monad. simpl. destruct line as [k|].
    + rewrite <- valid_choice_index, Hline. simpl in E. rewrite E.
      f_equal; try same_world.
    + simpl in E. rewrite E. f_equal; try same_world.
Qed.

Lemma ask_choice_exhausted folders : forall pending w,
  Forall (fun line => valid_choice (length folders) line = false) pending ->
  stdin w = pending ->
  ask_choice folders pending w
  = (Raise EOFError, logs (rejected pending ++ [Input]) (set_stdin [] w)).
Proof.
  intros pending w Hbad. revert w.
  induction Hbad as [|line bad Hline Hbad IH]; intros w Hw.
  - simpl. run_monad. simpl. f_equal. apply world_eq; simpl; auto.
  - simpl. run_monad. simpl.
    pose proof (IH (log (complaint_for line) (set_stdin bad (log Input w)))
                  eq_refl) as E.
    destruct line as [k|].
    + rewrite <- valid_choice_index, Hline. simpl in E. rewrite E.
      f_equal; try same_world.
    + simpl in E. rewrite E. f_equal; try same_world.
Qed.

(** The lines of [pending] up to the first the loop accepts. *)
Lemma pending_split n (pending : list input_line) :
  Forall (fun line => valid_choice n line = false) pending
  \/ exists bad z rest,
       pending = (bad ++ Num z :: rest)%list
       /\ Forall (fun line => valid_choice n line = false) bad
       /\ valid_choice n (Num z) = true.
Proof.
  induction pending as [|line pending IH].
  - left. constructor.
  - destruct (valid_choice n line) eqn:Hline.
    + right. destruct line as [z|]; [|discriminate].
      exists [], z, pending. repeat split; auto.
    + destruct IH as [IH|(bad & z & rest & -> & Hbad & Hz)].
      * left. constructor; auto.
      * right. exists (line :: bad), z, rest. repeat split; auto.
Qed.

Lemma get_folder_id_several d folder_name folders w :
  service self = Some d ->
  folder_query d folder_name = Ret folders ->
  (2 <= length folders)%nat ->
  get_folder_id self folder_name w =
    let run := ask_choice folders (stdin w)
                 (logs (CallFolderQuery folder_name
                        :: Print (MsgMultipleFolders folder_name)
                        :: choice_lines folders) w) in
    (match run.1 with Ret id => Ret (Some id) | Raise e => Raise e end, run.2).
Proof.
  intros Hd Hq Hn. unfold get_folder_id, files_list_folders, with_service.
  rewrite Hd. run_monad. simpl. rewrite Hq. simpl.
  destruct folders as [|f1 [|f2 more]]; simpl in Hn; try lia.
  cbv beta iota. rewrite print_choices_exact. cbv beta iota zeta.
  match goal with
  | |- context [ask_choice ?fs ?p ?w0] =>
      replace w0 with
        (logs (CallFolderQuery folder_name
               :: Print (MsgMultipleFolders folder_name)
               :: choice_lines (f1 :: f2 :: more)) w)
  end.
  2: { unfold choice_lines. apply world_eq; simpl; auto.
       rewrite <- !app_assoc. simpl. reflexivity. }
  simpl stdin.
  destruct (ask_choice _ _ _) as [[id|e] w']; reflexivity.
Qed.

End Prompt.
Section Resolve.

Variable os : OS.
Variable self : GoogleDriveDownloader.

Lemma get_folder_id_query_fails d folder_name e w :
  service self = Some d ->
  folder_query d folder_name = Raise e ->
  get_folder_id self folder_name w
  = (Raise e, log (CallFolderQuery folder_name) w).
Proof.
  intros Hd Hq. unfold get_folder_id, files_list_folders, with_service.
  rewrite Hd. run_monad. simpl. rewrite Hq. reflexivity.
Qed.

Lemma get_folder_id_few d folder_name folders w :
  service self = Some d ->
  folder_query d folder_name = Ret folders ->
  (length folders <= 1)%nat ->
  get_folder_id self folder_name w
  = (Ret (fe_id <$> head folders), log (CallFolderQuery folder_name) w).
Proof.
  intros Hd Hq Hn. unfold get_folder_id, files_list_folders, with_service.
  rewrite Hd. run_monad. simpl. rewrite Hq.
  destruct folders as [|f1 [|f2 more]]; simpl in Hn; try lia; reflexivity.
Qed.

(** The three courses of [get_folder_id] when several folders have the
    name. *)
Lemma get_folder_id_asks d folder_name folders w :
  service self = Some d ->
  folder_query d folder_name = Ret folders ->
  (2 <= length folders)%nat ->
  let head := (CallFolderQuery folder_name
               :: Print (MsgMultipleFolders folder_name)
               :: choice_lines folders)%list in
  (Forall (fun line => valid_choice (length folders) line = false) (stdin w)
   /\ get_folder_id self folder_name w
      = (Raise EOFError,
         logs (head ++ rejected (stdin w) ++ [Input]) (set_stdin [] w)))
  \/ exists bad z rest folder,
       stdin w = (bad ++ Num z :: rest)%list
       /\ Forall (fun line => valid_choice (length folders) line = false) bad
       /\ valid_choice (length folders) (Num z) = true
       /\ folders !! Z.to_nat (z - 1) = Some folder
       /\ get_folder_id self folder_name w
          = (Ret (Some (fe_id folder)),
             logs (head ++ rejected bad ++ [Input]) (set_stdin rest w)).
Proof.
  intros Hd Hq Hn head.
  rewrite (get_folder_id_several self d folder_name folders w Hd Hq Hn).
  cbv zeta. fold head.
  destruct (pending_split (length folders) (stdin w))
    as [Hall|(bad & z & rest & Hs & Hbad & Hz)].
  - left. split; [exact Hall|].
    rewrite (ask_choice_exhausted folders (stdin w) (logs head w) Hall eq_refl).
    simpl. f_equal. same_world.
  - right.
    destruct (ask_choice_accepts folders z rest bad (logs head w) Hbad Hz)
      as (folder & Hf & E).
    exists bad, z, rest, folder. repeat (split; [assumption|]).
    rewrite Hs, E. simpl. f_equal. same_world.
Qed.

End Resolve.
Section Escapes.

Variable os : OS.
Variable self : GoogleDriveDownloader.

Lemma trace_logs evs w : trace (logs evs w) = (trace w ++ evs)%list.
Proof. reflexivity. Qed.

(** [download_listing] raises only what the listing call raises, and
    then no file has been touched. *)
Lemma download_listing_outcome d local_path folder_id w :
  service self = Some d ->
  let run := download_listing os self local_path folder_id w in
  exists evs,
    trace run.2 = (trace w ++ evs)%list
    /\ stdin run.2 = stdin w
    /\ forall e, run.1 = Raise e ->
         CallList folder_id ∈ evs
         /\ children d folder_id = Raise e
         /\ Forall (fun ev => is_file_call ev = false) evs.
Proof.
  intros Hd run. unfold run.
  rewrite (download_listing_run os self d local_path folder_id w Hd).
  cbv zeta. cbn [fst snd].
  eexists. split; [reflexivity|]. split; [reflexivity|].
  intros e. unfold listing_summary.
  destruct (children d folder_id) as [[|f l]|e0]; cbn [fst snd];
    try discriminate.
  intros [= ->]. split; [elem_solve|]. split; [reflexivity|].
  repeat constructor.
Qed.

Lemma console_rejected bad :
  Forall (fun ev => is_console_event ev = true) (rejected bad).
Proof.
  induction bad as [|[z|] bad IH]; simpl; repeat constructor; exact IH.
Qed.

Lemma console_choice_lines folders :
  Forall (fun ev => is_console_event ev = true) (choice_lines folders).
Proof.
  apply Forall_forall. intros ev Hin.
  apply elem_of_lookup_imap in Hin as (i & x & -> & _). reflexivity.
Qed.

Lemma console_no_file_call ev :
  is_console_event ev = true -> is_file_call ev = false.
Proof. destruct ev as [[]| | | | | | | | |]; simpl; congruence. Qed.

Lemma asking_no_file_call folder_name folders bad :
  Forall (fun ev => is_file_call ev = false)
    (CallFolderQuery folder_name :: Print (MsgMultipleFolders folder_name)
     :: choice_lines folders ++ rejected bad ++ [Input]).
Proof.
  constructor; [reflexivity|]. constructor; [reflexivity|].
  apply Forall_app. split.
  { eapply Forall_impl; [apply console_choice_lines|].
    intros ev. apply console_no_file_call. }
  apply Forall_app. split; [|repeat constructor].
  eapply Forall_impl; [apply console_rejected|].
  intros ev. apply console_no_file_call.
Qed.

Lemma bind_bind_run {A B C} (m : M A) (f : A -> M B) (k : B -> M C) w :
  bind (bind m f) k w =
    match m w with
    | (Ret a, w') => bind (f a) k w'
    | (Raise e, w') => (Raise e, w')
    end.
Proof. unfold bind. destruct (m w) as [[a|e] w']; reflexivity. Qed.

Lemma sync_prepared_outcome d folder_identifier local_path w :
  service self = Some d ->
  let run := sync_prepared os self folder_identifier local_path w in
  exists evs,
    trace run.2 = (trace w ++ evs)%list
    /\ forall e, run.1 = Raise e ->
         Forall (fun ev => is_file_call ev = false) evs
         /\ (query_raised d folder_identifier e
             \/ input_ran_out d folder_identifier e w
             \/ exists folder_id,
                  CallList folder_id ∈ evs /\ children d folder_id = Raise e).
Proof.
  intros Hd run. unfold run, sync_prepared. clear run.
  set (K := fun resolved : option string =>
              match resolved with
              | Some folder_id => download_listing os self local_path folder_id
              | None => ret tt
              end).
  set (Post := fun run : outcome unit * world =>
         exists evs,
           trace run.2 = (trace w ++ evs)%list
           /\ forall e, run.1 = Raise e ->
                Forall (fun ev => is_file_call ev = false) evs
                /\ (query_raised d folder_identifier e
                    \/ input_ran_out d folder_identifier e w
                    \/ exists folder_id,
                         CallList folder_id ∈ evs
                         /\ children d folder_id = Raise e)).
  change (Post (bind (resolve_folder self folder_identifier) K w)).
  assert (Hlist : forall folder_id res rest,
            Forall (fun ev => is_file_call ev = false) res ->
            Post (download_listing os self local_path folder_id
                    (logs res (set_stdin rest w)))).
  { intros folder_id res rest Hres.
    destruct (download_listing_outcome d local_path folder_id
                (logs res (set_stdin rest w)) Hd) as (evs & Ht & _ & Hr).
    exists (res ++ evs)%list.
    split; [rewrite Ht; simpl; rewrite <- app_assoc; reflexivity|].
    intros e He. destruct (Hr e He) as (Hin & Hc & Hf).
    split; [apply Forall_app; auto|].
    right. right. exists folder_id. split; [elem_solve|exact Hc]. }
  assert (Hnone : forall res rest,
            Post (Ret tt, logs res (set_stdin rest w))).
  { intros res rest. exists res. split; [reflexivity|]. discriminate. }
  assert (Hfound : forall folder_id res rest,
            Forall (fun ev => is_file_call ev = false) res ->
            Post (bind (if negb (truthy_opt folder_id)
                        then (print (MsgFolderNotFound folder_identifier) ;;
                              ret None)
                        else ret folder_id) K
                    (logs res (set_stdin rest w)))).
  { intros folder_id res rest Hres. destruct (negb (truthy_opt folder_id)) eqn:Ht.
    - run_monad. simpl. rewrite log_logs, logs_logs. apply Hnone.
    - destruct folder_id as [id|]; [|discriminate].
      run_monad. cbv beta iota. apply Hlist. exact Hres. }
  destruct (looks_like_id folder_identifier) eqn:Hlook.
  - unfold bind. rewrite resolve_folder_id by exact Hlook.
    specialize (Hlist folder_identifier [] (stdin w) (List.Forall_nil _)).
    rewrite logs_nil, set_stdin_id in Hlist. exact Hlist.
  - unfold resolve_folder. rewrite Hlook. rewrite bind_bind_run.
    destruct (folder_query d folder_identifier) as [folders|e0] eqn:Hq.
    2: { rewrite (get_folder_id_query_fails self d _ e0 w Hd Hq).
         exists [CallFolderQuery folder_identifier].
         split; [reflexivity|]. intros e [= ->].
         split; [repeat constructor|]. left. split; assumption. }
    destruct (le_lt_dec (length folders) 1) as [Hfew|Hmany].
    + rewrite (get_folder_id_few self d _ folders w Hd Hq Hfew).
      specialize (Hfound (fe_id <$> head folders)
                    [CallFolderQuery folder_identifier] (stdin w)).
      rewrite set_stdin_id in Hfound. apply Hfound. repeat constructor.
    + destruct (get_folder_id_asks self d _ folders w Hd Hq Hmany)
        as [(Hall & E)|(bad & z & rest & folder & Hs & Hbad & Hz & Hf & E)];
        rewrite E.
      * eexists. split; [reflexivity|]. intros e [= <-].
        split; [apply asking_no_file_call|].
        right. left. split; [exact Hlook|]. split; [reflexivity|].
        exists folders. auto.
      * apply Hfound. apply asking_no_file_call.
Qed.

End Escapes.

(** * The folder lookup: [get_folder_id] and what escapes [download_folder] *)

Lemma new_events_app w w' evs :
  trace w' = (trace w ++ evs)%list -> new_events w w' = evs.
Proof. unfold new_events. intros ->. apply drop_app_length. Qed.

(** X1.  When the folder query answers [folders], [get_folder_id]
    returns [None] only if [folders] is empty and an id only if it is
    the id of one of [folders]; it raises only [EOFError], and only when
    several folders were found and no line of standard input chooses one
    of them.  With at most one folder found, nothing is asked: the id of
    the only folder, or [None], is returned after the query alone. *)
Theorem get_folder_id_answer self d folder_name folders w :
  service self = Some d ->
  folder_query d folder_name = Ret folders ->
  folder_answer folders folder_name w (get_folder_id self folder_name w).
Proof.
  intros Hd Hq. unfold folder_answer.
  destruct (le_lt_dec (length folders) 1) as [Hfew|Hmany].
  - rewrite (get_folder_id_few self d _ folders w Hd Hq Hfew).
    split; [|reflexivity]. cbn [fst].
    destruct folders as [|f l]; simpl; [reflexivity|].
    exists f. split; [left|reflexivity].
  - split; [|lia].
    destruct (get_folder_id_asks self d _ folders w Hd Hq Hmany)
      as [(Hall & E)|(bad & z & rest & folder & Hs & Hbad & Hz & Hf & E)];
      rewrite E; cbn [fst].
    + repeat split; auto.
    + exists folder. split; [|reflexivity].
      eapply list_elem_of_lookup_2. exact Hf.
Qed.

Lemma get_folder_id_answer_witness :
  service (Demo.downloader Scene.twins [])
  = Some (Demo.drive Scene.twins [])
  /\ folder_query (Demo.drive Scene.twins []) "Reports" = Ret Scene.twins
  /\ folder_answer Scene.twins "Reports" (Scene.typing [Num 2])
       (get_folder_id (Demo.downloader Scene.twins []) "Reports"
          (Scene.typing [Num 2])).
Proof.
  split; [reflexivity|split; [reflexivity|]].
  apply (get_folder_id_answer (Demo.downloader Scene.twins [])
           (Demo.drive Scene.twins []) "Reports" Scene.twins
           (Scene.typing [Num 2])); reflexivity.
Defined.

(** X2.  When several folders have the name, [get_folder_id] returns the
    id of the folder whose number, counted from 1, is the first line of
    standard input that is a number from 1 to the number of folders.
    The lines before it (text that is no number, 0, negative numbers,
    numbers too large) are each read and answered with a complaint, and
    the lines after it are left unread. *)
Theorem get_folder_id_choice self d folder_name folders bad z rest w :
  service self = Some d ->
  folder_query d folder_name = Ret folders ->
  (2 <= length folders)%nat ->
  stdin w = (bad ++ Num z :: rest)%list ->
  Forall (fun line => valid_choice (length folders) line = false) bad ->
  valid_choice (length folders) (Num z) = true ->
  folder_chosen folders folder_name bad z rest w
    (get_folder_id self folder_name w).
Proof.
  intros Hd Hq Hn Hs Hbad Hz. unfold folder_chosen.
  rewrite (get_folder_id_several self d folder_name folders w Hd Hq Hn).
  cbv zeta. rewrite Hs.
  destruct (ask_choice_accepts folders z rest bad
              (logs (CallFolderQuery folder_name
                     :: Print (MsgMultipleFolders folder_name)
                     :: choice_lines folders) w) Hbad Hz)
    as (folder & Hf & E).
  exists folder. split; [exact Hf|]. rewrite E. cbn [fst snd].
  f_equal. same_world.
Qed.

Lemma get_folder_id_choice_witness :
  service (Demo.downloader Scene.twins [])
  = Some (Demo.drive Scene.twins [])
  /\ folder_query (Demo.drive Scene.twins []) "Reports" = Ret Scene.twins
  /\ (2 <= length Scene.twins)%nat
  /\ stdin (Scene.typing [NotANumber; Num 0; Num 3; Num 2; Num 1])
     = ([NotANumber; Num 0; Num 3] ++ Num 2 :: [Num 1])%list
  /\ Forall (fun line => valid_choice (length Scene.twins) line = false)
       [NotANumber; Num 0; Num 3]
  /\ valid_choice (length Scene.twins) (Num 2) = true
  /\ folder_chosen Scene.twins "Reports" [NotANumber; Num 0; Num 3] 2 [Num 1]
       (Scene.typing [NotANumber; Num 0; Num 3; Num 2; Num 1])
       (get_folder_id (Demo.downloader Scene.twins []) "Reports"
          (Scene.typing [NotANumber; Num 0; Num 3; Num 2; Num 1])).
Proof.
  split; [reflexivity|]. split; [reflexivity|]. split; [simpl; lia|].
  split; [reflexivity|]. split; [repeat constructor|]. split; [reflexivity|].
  apply (get_folder_id_choice (Demo.downloader Scene.twins [])
           (Demo.drive Scene.twins []) "Reports" Scene.twins
           [NotANumber; Num 0; Num 3] 2 [Num 1]
           (Scene.typing [NotANumber; Num 0; Num 3; Num 2; Num 1]));
    [reflexivity|reflexivity|simpl; lia|reflexivity|repeat constructor
    |reflexivity].
Defined.

(** The choice above, run: the second folder is returned after three
    complaints. *)
Example second_twin_chosen :
  (get_folder_id (Demo.downloader Scene.twins []) "Reports"
     (Scene.typing [NotANumber; Num 0; Num 3; Num 2; Num 1])).1
  = Ret (Some "idB")
  /\ List.filter is_complaint
       (trace (get_folder_id (Demo.downloader Scene.twins []) "Reports"
                 (Scene.typing [NotANumber; Num 0; Num 3; Num 2; Num 1])).2)
     = [Print MsgEnterValidNumber; Print MsgInvalidChoice;
        Print MsgInvalidChoice].
Proof. split; vm_compute; reflexivity. Qed.

(** X3.  Whatever [download_folder] raises, it raises before any file
    is touched, and for one of four reasons: there is no service (then
    nothing at all has happened); the folder query raised; standard
    input ended at the choice among several folders ([EOFError]); or the
    listing call raised.  A failure to create a directory or to download
    a file never makes [download_folder] raise. *)
Theorem download_folder_raises_before_files os self folder_identifier
    local_path w e :
  (download_folder os self folder_identifier local_path w).1 = Raise e ->
  raised_before_files self folder_identifier e w
    (download_folder os self folder_identifier local_path w).
Proof.
  intros He. unfold raised_before_files. cbv zeta.
  rewrite download_folder_split in He |- *.
  destruct (service self) as [d|] eqn:Hd.
  2: { left. injection He as <-. auto. }
  right. exists d. split; [reflexivity|].
  unfold bind in He |- *. rewrite prepare_run in He |- *.
  cbv zeta in He |- *.
  pose proof (prep_events_quiet os local_path w) as Hq.
  unfold prep_of in Hq.
  set (s := prep_summary os local_path
              (path_exists w (OsPath.dirname local_path))) in *.
  destruct (s.1.1) eqn:Hready; [|discriminate].
  destruct (sync_prepared_outcome os self d folder_identifier local_path
              (logs s.1.2 (set_dirs (s.2 ∪ dirs w) w)) Hd)
    as (evs & Ht & Hr).
  cbv zeta in Ht, Hr. destruct (Hr e He) as (Hf & Hcause).
  assert (Htr : trace (sync_prepared os self folder_identifier local_path
                         (logs s.1.2 (set_dirs (s.2 ∪ dirs w) w))).2
                = (trace w ++ s.1.2 ++ evs)%list).
  { rewrite Ht. simpl. rewrite <- app_assoc. reflexivity. }
  rewrite (new_events_app _ _ _ Htr).
  split; [exact Htr|]. split.
  { apply Forall_app. split; [|exact Hf].
    eapply Forall_impl; [exact Hq|]. intros ev [_ H]. exact H. }
  destruct Hcause as [H|[H|(fid & Hin & Hc)]]; [left; exact H| |].
  - right. left. exact H.
  - right. right. exists fid. split; [elem_solve|exact Hc].
Qed.

Lemma download_folder_raises_before_files_witness :
  (download_folder Demo.sound_os {| service := Some Scene.unlistable |}
     Demo.folder_id "out" Demo.start).1 = Raise (HttpError 500)
  /\ raised_before_files {| service := Some Scene.unlistable |}
       Demo.folder_id (HttpError 500) Demo.start
       (download_folder Demo.sound_os {| service := Some Scene.unlistable |}
          Demo.folder_id "out" Demo.start).
Proof.
  split; [reflexivity|].
  apply (download_folder_raises_before_files Demo.sound_os
           {| service := Some Scene.unlistable |} Demo.folder_id "out"
           Demo.start (HttpError 500)).
  reflexivity.
Defined.

(** * One download, continued *)


Lemma fetch_summary_open os d r file_name download_path is_dir
    (before : list event) :
  Forall (fun ev => is_open_call ev = false) before ->
  forall pre p post,
    (before ++ (fetch_summary os d r file_name download_path is_dir).2)%list
    = (pre ++ CallOpenWrite p :: post)%list ->
    Forall (fun ev => is_chunk_call ev = false) post
    /\ exists data, content_of d r = Ret data /\ CallNextChunk r ∈ pre.
Proof.
  intros Hb pre p post.
  pose proof (chunk_calls_pos (chunks d r).1 (chunks d r).2) as Hpos.
  unfold fetch_summary.
  set (calls := replicate (chunk_calls (chunks d r).1 (chunks d r).2)
                  (CallNextChunk r)).
  assert (Hin : CallNextChunk r ∈ calls).
  { unfold calls. apply elem_of_replicate. auto. }
  assert (Hc : Forall (fun ev => is_open_call ev = false) (before ++ calls)).
  { apply Forall_app. split; [exact Hb|].
    unfold calls. apply Forall_replicate_event. reflexivity. }
  assert (Hsplit : forall tail,
            (before ++ calls ++ tail = pre ++ CallOpenWrite p :: post)%list ->
            exists pre', pre = ((before ++ calls) ++ pre')%list
                         /\ tail = (pre' ++ CallOpenWrite p :: post)%list).
  { intros tail E. rewrite app_assoc in E.
    exact (split_after_prefix is_open_call _ _ Hc pre (CallOpenWrite p) post
             eq_refl E). }
  destruct (content_of d r) as [data|e];
    [destruct (open_fault os download_path);
     [|destruct (write_fault os download_path)]|];
    cbn [fst snd]; intros E; apply Hsplit in E as (pre' & -> & E);
    repeat (destruct pre' as [|? pre']; simpl in E; try discriminate);
    injection E as <- <-;
    (split; [repeat constructor|]); exists data;
    (split; [reflexivity|]); rewrite app_nil_r; elem_solve.
Qed.

Lemma fetch_summary_failed os d r file_name download_path is_dir e :
  content_of d r = Raise e ->
  let s := fetch_summary os d r file_name download_path is_dir in
  s.1 = false
  /\ fetch_op os d r download_path = None
  /\ Forall (fun ev => is_local_write ev = false) s.2.
Proof.
  intros Hc. unfold fetch_summary, fetch_op. rewrite Hc. cbn [fst snd].
  repeat split. apply Forall_app. split; [|repeat constructor].
  apply Forall_replicate_event. reflexivity.
Qed.


(** A write that fails leaves the destination empty: the report that
    was there is lost, and [False] is returned. *)
Example failed_write_truncates :
  let os := {| makedirs_fault := fun _ => None;
               open_fault := fun _ => None;
               write_fault := fun _ => Some (OSError 28);
               write_lost := fun _ => false |} in
  let w := {| dirs := {["out"]}; files := {["out/a.pdf" := [x31; x32]]};
              stdin := []; trace := [] |} in
  (download_file os Demo.pdfs "f1" "a.pdf" "out/a.pdf" w).1 = Ret false
  /\ files (download_file os Demo.pdfs "f1" "a.pdf" "out/a.pdf" w).2
       !! "out/a.pdf" = Some [].
Proof. split; vm_compute; reflexivity. Qed.

(** X5.  [download_file] opens the destination only once the whole
    content has been received: the open comes after the requests of a
    content that was assembled in full, and no content is requested
    after it.  When a content request fails, the run returns [False]
    without opening or writing any file, and the files are as before. *)
Theorem download_file_writes_after_fetch os self d file_id file_name
    download_path w :
  service self = Some d ->
  written_after_fetch d w
    (download_file os self file_id file_name download_path w).
Proof.
  intros Hd. unfold written_after_fetch. rewrite download_file_run. cbv zeta.
  cbn [fst snd]. rewrite new_events_logs by reflexivity.
  unfold file_summary, file_op. rewrite Hd.
  destruct (file_plan d file_id file_name download_path) as [e0| |r n p];
    cbn [fst snd].
  1,2: split;
    [intros pre p post E;
     repeat (destruct pre as [|? pre]; simpl in E; try discriminate)
    |intros r e Hin; elem_solve].
  split.
  - intros pre q post E.
    destruct (fetch_summary_open os d r n p (bool_decide (p ∈ dirs w))
                [CallGetMetadata file_id] ltac:(repeat constructor)
                pre q post E) as (Hpost & data & Hc & Hin).
    split; [exact Hpost|]. exists r, data. auto.
  - intros r' e Hin Hc.
    assert (r' = r) as ->.
    { apply elem_of_cons in Hin as [Hin|Hin]; [discriminate|].
      apply (fetch_summary_facts os d r n p (bool_decide (p ∈ dirs w))).
      exact Hin. }
    destruct (fetch_summary_failed os d r n p (bool_decide (p ∈ dirs w)) e Hc)
      as (H1 & H2 & H3).
    cbv zeta in H1, H3. rewrite H1, H2. simpl.
    repeat split. constructor; [reflexivity|exact H3].
Qed.

Lemma download_file_writes_after_fetch_witness :
  service Demo.pdfs = Some (Demo.drive [] Demo.one_pdf)
  /\ written_after_fetch (Demo.drive [] Demo.one_pdf) Demo.start
       (download_file Demo.sound_os Demo.pdfs "f1" "a.pdf" "out/a.pdf"
          Demo.start).
Proof.
  split; [reflexivity|].
  apply (download_file_writes_after_fetch Demo.sound_os Demo.pdfs
           (Demo.drive [] Demo.one_pdf) "f1" "a.pdf" "out/a.pdf" Demo.start).
  reflexivity.
Defined.

Lemma assemble_all bs : forall b0 fh,
  assemble (Ret b0) (map Ret bs) fh = Ret (fh ++ b0 ++ concat bs)%list.
Proof.
  induction bs as [|b bs IH]; intros b0 fh; simpl.
  - rewrite app_nil_r. reflexivity.
  - rewrite IH, <- !app_assoc. reflexivity.
Qed.

Lemma chunk_calls_all bs : forall b0,
  chunk_calls (Ret b0) (map (@Ret bytes) bs) = S (length bs).
Proof.
  induction bs as [|b bs IH]; intros b0; simpl; [reflexivity|].
  rewrite IH. reflexivity.
Qed.

(** X6.  A file that is not of a native type (also one whose metadata
    gives no [mimeType] at all) is fetched raw, chunk by chunk, and what
    is written is the chunks in the order received, one after the other:
    with nothing failing, [download_file] sends one request per chunk,
    opens the destination, writes the concatenation in one call, finds
    the file, and returns [True]; no other file changes. *)
Theorem raw_download_concatenates_chunks os self d file_id file_name
    download_path md b0 bs w :
  service self = Some d ->
  metadata_mimeType d file_id = Ret md ->
  PyStr.startswith (default "" md) "application/vnd.google-apps." = false ->
  chunks d (GetMedia file_id) = (Ret b0, map Ret bs) ->
  open_fault os download_path = None ->
  write_fault os download_path = None ->
  write_lost os download_path = false ->
  download_file os self file_id file_name download_path w
  = (Ret true,
     logs (CallGetMetadata file_id
           :: replicate (S (length bs)) (CallNextChunk (GetMedia file_id))
           ++ [CallOpenWrite download_path;
               CallWrite download_path (b0 ++ concat bs);
               CallExists download_path true;
               Print (MsgSavedTo download_path)])%list
       (set_files (<[download_path := (b0 ++ concat bs)%list]> (files w)) w)).
Proof.
  intros Hd Hm Hn Hc Ho Hw Hl.
  assert (Hcontent : content_of d (GetMedia file_id)
                     = Ret (b0 ++ concat bs)%list).
  { unfold content_of. rewrite Hc. apply assemble_all. }
  rewrite download_file_run. cbv zeta.
  rewrite (file_op_raw os self d file_id file_name download_path md
             (b0 ++ concat bs)%list Hd Hm Hn Hcontent Ho Hw Hl).
  unfold file_summary, file_plan. rewrite Hd, Hm. cbv zeta. rewrite Hn.
  unfold fetch_summary. rewrite Hcontent, Ho, Hw, Hl, Hc.
  cbn [fst snd]. rewrite chunk_calls_all, orb_true_r. reflexivity.
Qed.

Lemma raw_download_concatenates_chunks_witness :
  service {| service := Some Scene2.chunked |} = Some Scene2.chunked
  /\ metadata_mimeType Scene2.chunked "f1" = Ret None
  /\ PyStr.startswith (default "" None) "application/vnd.google-apps." = false
  /\ chunks Scene2.chunked (GetMedia "f1")
     = (Ret [x61; x62], map Ret [[x63]; [x64; x65]])
  /\ open_fault Demo.sound_os "out/notes" = None
  /\ write_fault Demo.sound_os "out/notes" = None
  /\ write_lost Demo.sound_os "out/notes" = false
  /\ download_file Demo.sound_os {| service := Some Scene2.chunked |} "f1"
       "notes" "out/notes" Demo.start
     = (Ret true,
        logs (CallGetMetadata "f1"
              :: replicate (S (length [[x63]; [x64; x65]]))
                   (CallNextChunk (GetMedia "f1"))
              ++ [CallOpenWrite "out/notes";
                  CallWrite "out/notes" ([x61; x62] ++ concat [[x63]; [x64; x65]]);
                  CallExists "out/notes" true;
                  Print (MsgSavedTo "out/notes")])%list
          (set_files
             (<["out/notes" := ([x61; x62] ++ concat [[x63]; [x64; x65]])%list]>
                (files Demo.start)) Demo.start)).
Proof.
  repeat (split; [reflexivity|]).
  apply (raw_download_concatenates_chunks Demo.sound_os
           {| service := Some Scene2.chunked |} Scene2.chunked "f1" "notes"
           "out/notes" None [x61; x62] [[x63]; [x64; x65]] Demo.start);
    reflexivity.
Defined.

Lemma export_formats_native mime export_mime_type :
  dict_get export_formats mime = Some export_mime_type ->
  PyStr.startswith mime "application/vnd.google-apps." = true.
Proof.
  unfold dict_get, export_formats.
  repeat match goal with
         | |- context [String.eqb ?a mime] =>
             destruct (String.eqb_spec a mime) as [<-|_]; [reflexivity|]
         end.
  discriminate.
Qed.

Lemma export_formats_extension mime export_mime_type :
  dict_get export_formats mime = Some export_mime_type ->
  exists ext,
    dict_get extensions export_mime_type = Some ext
    /\ (mime, ext) ∈ export_extensions.
Proof.
  unfold dict_get at 1. unfold export_formats, export_extensions.
  repeat match goal with
         | |- context [String.eqb ?a mime] =>
             destruct (String.eqb_spec a mime) as [<-|_];
               [intros [= <-]; eexists; split; [reflexivity|elem_solve]|]
         end.
  discriminate.
Qed.

(** X7.  Each of the four native types of the export table (document,
    spreadsheet, presentation, drawing) is exported in its format and
    saved under its extension ([.docx], [.xlsx], [.pptx], [.png]); every
    format of the table has an extension.  When [download_file] is
    called as the folder loop calls it, with the path made of a
    directory and the file name, the content is requested in that format
    only, and every file it opens or changes has a name that ends with
    the extension. *)
Theorem exports_end_with_extension os self d file_id file_name local_path
    mime export_mime_type w :
  service self = Some d ->
  metadata_mimeType d file_id = Ret (Some mime) ->
  dict_get export_formats mime = Some export_mime_type ->
  exists ext,
    dict_get extensions export_mime_type = Some ext
    /\ (mime, ext) ∈ export_extensions
    /\ exported_with_extension file_id export_mime_type ext w
         (download_file os self file_id file_name
            (OsPath.join local_path file_name) w).
Proof.
  intros Hd Hm He.
  destruct (export_formats_extension mime export_mime_type He)
    as (ext & Hx & Hin).
  exists ext. split; [exact Hx|]. split; [exact Hin|].
  unfold exported_with_extension. rewrite download_file_run. cbv zeta.
  cbn [fst snd]. rewrite new_events_logs by reflexivity.
  unfold file_summary, file_op. rewrite Hd.
  rewrite (file_plan_native d file_id file_name _ mime Hm
             (export_formats_native mime export_mime_type He)).
  rewrite He, Hx. change (default "" (Some ext)) with ext. cbv zeta.
  set (r := ExportMedia file_id export_mime_type).
  assert (Hgoal : forall n p,
            PyStr.endswith p ext = true ->
            (forall r', CallNextChunk r'
                          ∈ CallGetMetadata file_id
                            :: (fetch_summary os d r n p
                                  (bool_decide (p ∈ dirs w))).2 -> r' = r)
            /\ (forall q, CallOpenWrite q
                            ∈ CallGetMetadata file_id
                              :: (fetch_summary os d r n p
                                    (bool_decide (p ∈ dirs w))).2 ->
                  PyStr.endswith q ext = true)
            /\ (forall q data,
                  apply_op (fetch_op os d r p) (files w) !! q = Some data ->
                  files w !! q = Some data \/ PyStr.endswith q ext = true)).
  { intros n p Hp.
    destruct (fetch_summary_facts os d r n p (bool_decide (p ∈ dirs w)))
      as (_ & F2 & F3 & _).
    split; [|split].
    - intros r' H. apply elem_of_cons in H as [H|H]; [discriminate|auto].
    - intros q H. apply elem_of_cons in H as [H|H]; [discriminate|].
      rewrite (F3 q H). exact Hp.
    - intros q data H. destruct (decide (q = p)) as [->|Hne]; [auto|].
      left. rewrite <- H. symmetry. apply fetch_op_facts. exact Hne. }
  destruct (PyStr.endswith file_name ext) eqn:Hends; cbn [negb fst snd].
  - apply Hgoal. apply endswith_join. exact Hends.
  - apply Hgoal. apply endswith_join, endswith_app.
Qed.

Lemma exports_end_with_extension_witness :
  service (Demo.downloader [] [Demo.file "f1" "budget" "application/vnd.google-apps.spreadsheet"])
  = Some (Demo.drive [] [Demo.file "f1" "budget" "application/vnd.google-apps.spreadsheet"])
  /\ metadata_mimeType
       (Demo.drive [] [Demo.file "f1" "budget" "application/vnd.google-apps.spreadsheet"])
       "f1"
     = Ret (Some "application/vnd.google-apps.spreadsheet")
  /\ dict_get export_formats "application/vnd.google-apps.spreadsheet"
     = Some "application/vnd.openxmlformats-officedocument.spreadsheetml.sheet"
  /\ exists ext,
       dict_get extensions
         "application/vnd.openxmlformats-officedocument.spreadsheetml.sheet"
       = Some ext
       /\ ("application/vnd.google-apps.spreadsheet", ext) ∈ export_extensions
       /\ exported_with_extension "f1"
            "application/vnd.openxmlformats-officedocument.spreadsheetml.sheet"
            ext Demo.start
            (download_file Demo.sound_os
               (Demo.downloader []
                  [Demo.file "f1" "budget" "application/vnd.google-apps.spreadsheet"])
               "f1" "budget" (OsPath.join "out" "budget") Demo.start).
Proof.
  split; [reflexivity|]. split; [reflexivity|]. split; [reflexivity|].
  apply (exports_end_with_extension Demo.sound_os
           (Demo.downloader []
              [Demo.file "f1" "budget" "application/vnd.google-apps.spreadsheet"])
           (Demo.drive []
              [Demo.file "f1" "budget" "application/vnd.google-apps.spreadsheet"])
           "f1" "budget" "out" "application/vnd.google-apps.spreadsheet"
           "application/vnd.openxmlformats-officedocument.spreadsheetml.sheet"
           Demo.start); reflexivity.
Defined.

(** A spreadsheet named [budget] ends up in [out/budget.xlsx]. *)
Example spreadsheet_saved_as_xlsx :
  files (download_file Demo.sound_os
           (Demo.downloader []
              [Demo.file "f1" "budget" "application/vnd.google-apps.spreadsheet"])
           "f1" "budget" (OsPath.join "out" "budget") Demo.start).2
  = {["out/budget.xlsx" := [x50; x4b]]}.
Proof. vm_compute. reflexivity. Qed.

(** * One run of [download_folder], continued *)

Lemma file_op_opens os self file_id file_name download_path ds p v :
  file_op os self file_id file_name download_path = Some (p, v) ->
  CallOpenWrite p
    ∈ (file_summary os self file_id file_name download_path ds).2.
Proof.
  unfold file_op, file_summary.
  destruct (service self) as [d|]; [|discriminate].
  destruct (file_plan d file_id file_name download_path) as [e| |r n q];
    try discriminate.
  unfold fetch_op, write_op, fetch_summary. cbn [fst snd].
  destruct (content_of d r) as [data|e]; [|discriminate].
  destruct (open_fault os q); [discriminate|].
  destruct (write_fault os q); [|destruct (write_lost os q)];
    intros [= <- <-]; cbn [fst snd]; elem_solve.
Qed.

Lemma each_summary_member os self local_path n ds f ev : forall listing i sc,
  f ∈ listing ->
  ev ∈ (file_summary os self (rf_id f) (rf_name f)
          (OsPath.join local_path (rf_name f)) ds).2 ->
  ev ∈ (each_summary os self local_path n i sc listing ds).2.
Proof.
  induction listing as [|g rest IH]; intros i sc Hin Hev.
  - apply elem_of_nil in Hin. destruct Hin.
  - cbn [each_summary]. cbv zeta. cbn [fst snd].
    apply elem_of_cons in Hin as [->|Hin].
    + apply elem_of_cons. right. apply elem_of_app. left. exact Hev.
    + apply elem_of_cons. right. apply elem_of_app. right.
      apply elem_of_app. right. apply IH; assumption.
Qed.

Lemma sync_ops_opens os self local_path n ds p v : forall listing i sc,
  last_op (sync_ops os self local_path listing) p = Some v ->
  CallOpenWrite p ∈ (each_summary os self local_path n i sc listing ds).2.
Proof.
  induction listing as [|f rest IH]; intros i sc H; [discriminate|].
  cbn [sync_ops map last_op] in H.
  fold (sync_ops os self local_path rest) in H.
  cbn [each_summary]. cbv zeta. cbn [fst snd].
  apply elem_of_cons. right.
  destruct (last_op (sync_ops os self local_path rest) p) as [v'|] eqn:Hl.
  - apply elem_of_app. right. apply elem_of_app. right.
    apply IH. exact H.
  - apply elem_of_app. left.
    destruct (file_op os self (rf_id f) (rf_name f)
                (OsPath.join local_path (rf_name f))) as [[q v']|] eqn:Hop;
      [|discriminate].
    destruct (String.eqb_spec q p) as [->|_]; [|discriminate].
    eapply file_op_opens. exact Hop.
Qed.

Lemma listing_summary_opens os self d local_path folder_id ds p v :
  last_op (listing_summary os self d local_path folder_id ds).2 p = Some v ->
  CallOpenWrite p
    ∈ (listing_summary os self d local_path folder_id ds).1.2.
Proof.
  unfold listing_summary.
  destruct (children d folder_id) as [[|f rest]|e]; cbn [fst snd];
    try discriminate.
  intros H. apply elem_of_cons. right. apply elem_of_cons. right.
  apply elem_of_app. right. apply elem_of_app. left.
  eapply sync_ops_opens. exact H.
Qed.

(** X8.  A run of [download_folder] changes no file that it did not open
    for writing: every path without an open in the run holds after the
    run what it held before (paths being told apart by their spelling);
    and the run removes no directory. *)
Theorem download_folder_changes_only_opened os self folder_identifier
    local_path w :
  changes_only_opened w
    (download_folder os self folder_identifier local_path w).
Proof.
  unfold changes_only_opened.
  destruct (service self) as [d|] eqn:Hd.
  2: { rewrite download_folder_split, Hd. cbn [fst snd]. auto. }
  destruct (download_folder_shape os self d folder_identifier local_path w Hd)
    as [Hs|o res rest Hs Hid Fres Hnf Hq|folder_id res rest Hs Hres];
    cbn [fst snd]; rewrite new_events_logs by reflexivity.
  1,2: split; [reflexivity|simpl; apply union_subseteq_r].
  split; [|simpl; apply union_subseteq_r].
  intros p Hno. simpl. rewrite apply_ops_lookup.
  destruct (last_op _ p) as [v|] eqn:Hl; [|reflexivity].
  exfalso. apply Hno. apply elem_of_app. right. apply elem_of_app. right.
  eapply listing_summary_opens. exact Hl.
Qed.






(** With a missing parent, the parent is created and then the target. *)
Example parent_then_target :
  List.filter is_makedirs_call
    (trace (download_folder Demo.sound_os Demo.pdfs Demo.folder_id "backup/out"
              Demo.start).2)
  = [CallMakedirs "backup" true; CallMakedirs "backup/out" true].
Proof. vm_compute. reflexivity. Qed.

Lemma elem_of_filter_event (P : event -> bool) (l : list event) ev :
  ev ∈ List.filter P l <-> P ev = true /\ ev ∈ l.
Proof.
  rewrite !list_elem_of_In, List.filter_In. tauto.
Qed.

(** X10.  The destination of a file is [os.path.join(local_path, name)]
    with the name as the listing gives it: for a name that begins with
    [/] this is the name itself, so the file is written at that absolute
    path, outside [local_path].  When such a file is listed, is not of a
    native type, its content arrives and the open does not fail, the run
    opens the path [name] and writes the content there. *)
Theorem absolute_name_leaves_local_path os self d folder_identifier local_path
    w folder_id listing f md data :
  service self = Some d ->
  CallList folder_id
    ∈ new_events w (download_folder os self folder_identifier local_path w).2 ->
  children d folder_id = Ret listing ->
  f ∈ listing ->
  PyStr.startswith (rf_name f) "/" = true ->
  metadata_mimeType d (rf_id f) = Ret md ->
  PyStr.startswith (default "" md) "application/vnd.google-apps." = false ->
  content_of d (GetMedia (rf_id f)) = Ret data ->
  open_fault os (rf_name f) = None ->
  let evs :=
    new_events w (download_folder os self folder_identifier local_path w).2 in
  OsPath.join local_path (rf_name f) = rf_name f
  /\ CallOpenWrite (rf_name f) ∈ evs
  /\ CallWrite (rf_name f) data ∈ evs.
Proof.
  intros Hd Hin Hlist Hf Habs Hm Hn Hc Ho evs.
  assert (Hjoin : OsPath.join local_path (rf_name f) = rf_name f).
  { unfold OsPath.join. rewrite Habs. reflexivity. }
  split; [exact Hjoin|].
  pose proof (folder_run_effect os self d folder_identifier local_path w _ Hd
                (download_folder_shape os self d folder_identifier local_path
                   w Hd)) as E.
  cbv zeta in E. fold evs in E.
  destruct E as [(Hno & _)|(fid & _ & Honly & _ & Hw & _)].
  { destruct (Hno folder_id Hin). }
  rewrite <- (Honly folder_id Hin) in Hw.
  assert (Hboth : forall ev,
            is_local_write ev = true ->
            ev ∈ (file_summary os self (rf_id f) (rf_name f)
                    (OsPath.join local_path (rf_name f)) ∅).2 ->
            ev ∈ evs).
  { intros ev Hev Hfile.
    assert (H : ev ∈ List.filter is_local_write evs).
    { rewrite Hw. apply elem_of_filter_event. split; [exact Hev|].
      unfold listing_summary. rewrite Hlist.
      destruct listing as [|g rest] eqn:El.
      { apply elem_of_nil in Hf. destruct Hf. }
      rewrite <- El in *. cbn [fst snd].
      apply elem_of_cons. right. apply elem_of_cons. right.
      apply elem_of_app. right. apply elem_of_app. left.
      apply (each_summary_member os self local_path _ ∅ f ev); assumption. }
    apply elem_of_filter_event in H. tauto. }
  assert (Hfile : (file_summary os self (rf_id f) (rf_name f)
                     (OsPath.join local_path (rf_name f)) ∅).2
                  = (CallGetMetadata (rf_id f)
                     :: (fetch_summary os d (GetMedia (rf_id f)) (rf_name f)
                           (rf_name f) (bool_decide (rf_name f ∈ (∅ : gset string)))).2)).
  { unfold file_summary, file_plan. rewrite Hd, Hm. cbv zeta. rewrite Hn, Hjoin.
    reflexivity. }
  split; apply Hboth; try reflexivity; rewrite Hfile;
    unfold fetch_summary; rewrite Hc, Ho;
    destruct (write_fault os (rf_name f)); cbn [fst snd]; elem_solve.
Qed.

Lemma absolute_name_leaves_local_path_witness :
  service (Demo.downloader [] Scene3.absolute)
  = Some (Demo.drive [] Scene3.absolute)
  /\ CallList Demo.folder_id
       ∈ new_events Demo.start
           (download_folder Demo.sound_os (Demo.downloader [] Scene3.absolute)
              Demo.folder_id "out" Demo.start).2
  /\ children (Demo.drive [] Scene3.absolute) Demo.folder_id
     = Ret Scene3.absolute
  /\ Demo.file "f2" "/tmp/x" Demo.pdf_mime ∈ Scene3.absolute
  /\ PyStr.startswith (rf_name (Demo.file "f2" "/tmp/x" Demo.pdf_mime)) "/"
     = true
  /\ metadata_mimeType (Demo.drive [] Scene3.absolute)
       (rf_id (Demo.file "f2" "/tmp/x" Demo.pdf_mime))
     = Ret (Some Demo.pdf_mime)
  /\ PyStr.startswith (default "" (Some Demo.pdf_mime))
       "application/vnd.google-apps." = false
  /\ content_of (Demo.drive [] Scene3.absolute)
       (GetMedia (rf_id (Demo.file "f2" "/tmp/x" Demo.pdf_mime)))
     = Ret [x66; x32]
  /\ open_fault Demo.sound_os (rf_name (Demo.file "f2" "/tmp/x" Demo.pdf_mime))
     = None
  /\ OsPath.join "out" (rf_name (Demo.file "f2" "/tmp/x" Demo.pdf_mime))
     = rf_name (Demo.file "f2" "/tmp/x" Demo.pdf_mime)
  /\ CallOpenWrite (rf_name (Demo.file "f2" "/tmp/x" Demo.pdf_mime))
       ∈ new_events Demo.start
           (download_folder Demo.sound_os (Demo.downloader [] Scene3.absolute)
              Demo.folder_id "out" Demo.start).2
  /\ CallWrite (rf_name (Demo.file "f2" "/tmp/x" Demo.pdf_mime)) [x66; x32]
       ∈ new_events Demo.start
           (download_folder Demo.sound_os (Demo.downloader [] Scene3.absolute)
              Demo.folder_id "out" Demo.start).2.
Proof.
  assert (Hlisted : CallList Demo.folder_id
            ∈ new_events Demo.start
                (download_folder Demo.sound_os
                   (Demo.downloader [] Scene3.absolute)
                   Demo.folder_id "out" Demo.start).2).
  { apply list_elem_of_In. vm_compute.
    repeat first [left; reflexivity | right]. }
  assert (Hmember : Demo.file "f2" "/tmp/x" Demo.pdf_mime ∈ Scene3.absolute).
  { unfold Scene3.absolute. elem_solve. }
  split; [reflexivity|]. split; [exact Hlisted|]. split; [reflexivity|].
  split; [exact Hmember|]. split; [reflexivity|]. split; [reflexivity|].
  split; [reflexivity|]. split; [reflexivity|]. split; [reflexivity|].
  exact (absolute_name_leaves_local_path Demo.sound_os
           (Demo.downloader [] Scene3.absolute) (Demo.drive [] Scene3.absolute)
           Demo.folder_id "out" Demo.start Demo.folder_id Scene3.absolute
           (Demo.file "f2" "/tmp/x" Demo.pdf_mime) (Some Demo.pdf_mime)
           [x66; x32] eq_refl Hlisted eq_refl Hmember eq_refl eq_refl eq_refl
           eq_refl eq_refl).
Defined.

(** The file named [/tmp/x] lands at [/tmp/x], not under [out]. *)
Example absolute_name_written_outside :
  dom (files (download_folder Demo.sound_os
                (Demo.downloader [] Scene3.absolute) Demo.folder_id "out"
                Demo.start).2)
  = {["out/a.pdf"; "/tmp/x"]}.
Proof. vm_compute. reflexivity. Qed.

(** * What the listing is used for *)

Section SameListing.

Variable os : OS.
Variables self self' : GoogleDriveDownloader.
Variables d d' : Drive.
Hypothesis Hd : service self = Some d.
Hypothesis Hd' : service self' = Some d'.
Hypothesis Hmeta : forall file_id,
  metadata_mimeType d file_id = metadata_mimeType d' file_id.
Hypothesis Hchunks : forall r, chunks d r = chunks d' r.

Lemma file_plan_same file_id file_name download_path :
  file_plan d file_id file_name download_path
  = file_plan d' file_id file_name download_path.
Proof. unfold file_plan. rewrite Hmeta. reflexivity. Qed.

Lemma content_of_same r : content_of d r = content_of d' r.
Proof. unfold content_of. rewrite Hchunks. reflexivity. Qed.

Lemma file_summary_same file_id file_name download_path ds :
  file_summary os self file_id file_name download_path ds
  = file_summary os self' file_id file_name download_path ds.
Proof.
  unfold file_summary. rewrite Hd, Hd', file_plan_same.
  destruct (file_plan d' file_id file_name download_path) as [e| |r n p];
    try reflexivity.
  unfold fetch_summary. rewrite content_of_same, Hchunks. reflexivity.
Qed.

Lemma file_op_same file_id file_name download_path :
  file_op os self file_id file_name download_path
  = file_op os self' file_id file_name download_path.
Proof.
  unfold file_op. rewrite Hd, Hd', file_plan_same.
  destruct (file_plan d' file_id file_name download_path) as [e| |r n p];
    try reflexivity.
  unfold fetch_op. rewrite content_of_same. reflexivity.
Qed.

Lemma each_summary_same local_path n ds l l' :
  Forall2 same_entry l l' ->
  forall i sc,
    each_summary os self local_path n i sc l ds
    = each_summary os self' local_path n i sc l' ds.
Proof.
  induction 1 as [|f f' l l' [Hid Hname] _ IH]; intros i sc; [reflexivity|].
  cbn [each_summary]. rewrite Hid, Hname, file_summary_same, IH.
  reflexivity.
Qed.

Lemma sync_ops_same local_path l l' :
  Forall2 same_entry l l' ->
  sync_ops os self local_path l = sync_ops os self' local_path l'.
Proof.
  induction 1 as [|f f' l l' [Hid Hname] _ IH]; [reflexivity|].
  cbn [sync_ops map]. fold (sync_ops os self local_path l).
  fold (sync_ops os self' local_path l').
  rewrite Hid, Hname, file_op_same, IH. reflexivity.
Qed.

Lemma listing_summary_same local_path folder_id ds :
  same_listing (children d folder_id) (children d' folder_id) ->
  listing_summary os self d local_path folder_id ds
  = listing_summary os self' d' local_path folder_id ds.
Proof.
  unfold same_listing, listing_summary.
  destruct (children d folder_id) as [l|e];
    destruct (children d' folder_id) as [l'|e']; try contradiction.
  - intros H. pose proof (Forall2_length _ _ _ H) as Hlen.
    rewrite (sync_ops_same local_path l l' H).
    destruct l as [|f l]; destruct l' as [|f' l']; try discriminate Hlen;
      [reflexivity|].
    rewrite (each_summary_same local_path _ ds (f :: l) (f' :: l') H).
    rewrite Hlen. reflexivity.
  - intros ->. reflexivity.
Qed.

Lemma get_folder_id_same folder_name w :
  folder_query d folder_name = folder_query d' folder_name ->
  get_folder_id self folder_name w = get_folder_id self' folder_name w.
Proof.
  intros Hq. unfold get_folder_id, files_list_folders, with_service.
  rewrite Hd, Hd', Hq. reflexivity.
Qed.

Lemma download_folder_same folder_identifier local_path w :
  (forall folder_name,
     folder_query d folder_name = folder_query d' folder_name) ->
  (forall folder_id,
     same_listing (children d folder_id) (children d' folder_id)) ->
  download_folder os self folder_identifier local_path w
  = download_folder os self' folder_identifier local_path w.
Proof.
  intros Hq Hl. rewrite !download_folder_split, Hd, Hd'. unfold bind.
  destruct (prepare os local_path w) as [[[|]|e] w1]; try reflexivity.
  unfold sync_prepared, bind.
  assert (Hres : resolve_folder self folder_identifier w1
                 = resolve_folder self' folder_identifier w1).
  { unfold resolve_folder.
    destruct (looks_like_id folder_identifier); [reflexivity|].
    unfold bind. rewrite (get_folder_id_same _ _ (Hq folder_identifier)).
    reflexivity. }
  rewrite Hres.
  destruct (resolve_folder self' folder_identifier w1) as [[[fid|]|e] w2];
    try reflexivity.
  rewrite (download_listing_run os self d local_path fid w2 Hd).
  rewrite (download_listing_run os self' d' local_path fid w2 Hd').
  rewrite (listing_summary_same local_path fid (dirs w2) (Hl fid)).
  reflexivity.
Qed.

End SameListing.

(** X22.  From the listing, [download_folder] takes the id and the name
    of each file and nothing else: the [mimeType] and the [size] that
    [list_files_in_folder] asks for are never used, the type of a file
    being fetched again when the file is downloaded.  Two Drive services
    that answer alike but for the types and sizes in their listings give
    the same run: the same result, events and files. *)
Theorem listing_types_are_not_used os self self' d d' folder_identifier
    local_path w :
  service self = Some d ->
  service self' = Some d' ->
  (forall folder_name,
     folder_query d folder_name = folder_query d' folder_name) ->
  (forall file_id,
     metadata_mimeType d file_id = metadata_mimeType d' file_id) ->
  (forall r, chunks d r = chunks d' r) ->
  (forall folder_id,
     same_listing (children d folder_id) (children d' folder_id)) ->
  download_folder os self folder_identifier local_path w
  = download_folder os self' folder_identifier local_path w.
Proof.
  intros Hd Hd' Hq Hm Hc Hl.
  exact (download_folder_same os self self' d d' Hd Hd' Hm Hc
           folder_identifier local_path w Hq Hl).
Qed.

Lemma listing_types_are_not_used_witness :
  service Demo.pdfs = Some (Demo.drive [] Demo.one_pdf)
  /\ service {| service := Some Scene4.mislabelled |}
     = Some Scene4.mislabelled
  /\ (forall folder_name,
        folder_query (Demo.drive [] Demo.one_pdf) folder_name
        = folder_query Scene4.mislabelled folder_name)
  /\ (forall file_id,
        metadata_mimeType (Demo.drive [] Demo.one_pdf) file_id
        = metadata_mimeType Scene4.mislabelled file_id)
  /\ (forall r, chunks (Demo.drive [] Demo.one_pdf) r
                = chunks Scene4.mislabelled r)
  /\ (forall folder_id,
        same_listing (children (Demo.drive [] Demo.one_pdf) folder_id)
          (children Scene4.mislabelled folder_id))
  /\ download_folder Demo.sound_os Demo.pdfs Demo.folder_id "out" Demo.start
     = download_folder Demo.sound_os {| service := Some Scene4.mislabelled |}
         Demo.folder_id "out" Demo.start.
Proof.
  assert (Hl : forall folder_id,
            same_listing (children (Demo.drive [] Demo.one_pdf) folder_id)
              (children Scene4.mislabelled folder_id)).
  { intros folder_id. simpl. repeat constructor. }
  split; [reflexivity|]. split; [reflexivity|].
  split; [intros; reflexivity|]. split; [intros; reflexivity|].
  split; [intros; reflexivity|]. split; [exact Hl|].
  apply (listing_types_are_not_used Demo.sound_os Demo.pdfs
           {| service := Some Scene4.mislabelled |}
           (Demo.drive [] Demo.one_pdf) Scene4.mislabelled Demo.folder_id
           "out" Demo.start);
    [reflexivity|reflexivity|intros; reflexivity|intros; reflexivity
    |intros; reflexivity|exact Hl].
Defined.

(** * [authenticate] *)

Lemma new_events_log ev w : new_events w (log ev w) = [ev].
Proof. apply (new_events_logs [ev] w w). reflexivity. Qed.

Lemma session_eq (s1 s2 : session) :
  machine s1 = machine s2 -> keyboard s1 = keyboard s2 ->
  journal s1 = journal s2 -> s1 = s2.
Proof. destruct s1, s2; simpl; intros; subst; reflexivity. Qed.

Lemma note_down_notes en s : note_down en s = notes_down [en] s.
Proof. reflexivity. Qed.

Lemma notes_down_notes e1 e2 s :
  notes_down e2 (notes_down e1 s) = notes_down (e1 ++ e2) s.
Proof. apply session_eq; simpl; auto. symmetry. apply app_assoc. Qed.

Lemma notes_down_nil s : notes_down [] s = s.
Proof. apply session_eq; simpl; auto using app_nil_r. Qed.

Lemma set_machine_notes w ens s :
  set_machine w (notes_down ens s) = notes_down ens (set_machine w s).
Proof. reflexivity. Qed.

Lemma set_machine_id s : set_machine (machine s) s = s.
Proof. apply session_eq; reflexivity. Qed.

Lemma new_entries_notes ens s s' :
  journal s' = journal s -> new_entries s (notes_down ens s') = ens.
Proof.
  intros H. unfold new_entries. simpl. rewrite H. apply drop_app_length.
Qed.

Lemma machine_notes ens s : machine (notes_down ens s) = machine s.
Proof. reflexivity. Qed.

Lemma machine_set w s : machine (set_machine w s) = w.
Proof. reflexivity. Qed.

Lemma journal_notes ens s :
  journal (notes_down ens s) = (journal s ++ ens)%list.
Proof. reflexivity. Qed.

Lemma journal_set w s : journal (set_machine w s) = journal s.
Proof. reflexivity. Qed.

Lemma files_log ev w : files (log ev w) = files w.
Proof. reflexivity. Qed.

Lemma dirs_log ev w : dirs (log ev w) = dirs w.
Proof. reflexivity. Qed.

Lemma path_exists_log_set ev w p :
  path_exists (log ev w) p = path_exists w p.
Proof. reflexivity. Qed.

Section AuthSteps.

Variable os : OS.
Variable google : Google.

Lemma exists_step p s :
  on_machine (os_path_exists p) s
  = (Done (path_exists (machine s) p),
     notes_down [Machine (CallExists p (path_exists (machine s) p))]
       (set_machine (log (CallExists p (path_exists (machine s) p)) (machine s))
          s)).
Proof.
  unfold on_machine, os_path_exists. cbn [fst snd of_outcome].
  rewrite new_events_log. reflexivity.
Qed.

Lemma write_step p data s :
  on_machine (open_and_write os p data) s
  = let evs := match open_fault os p with
               | Some _ => [CallOpenWrite p]
               | None => [CallOpenWrite p; CallWrite p data]
               end in
    (match open_fault os p, write_fault os p with
     | Some e, _ => Failed (Exception e)
     | None, Some e => Failed (Exception e)
     | None, None => Done tt
     end,
     notes_down (map Machine evs)
       (set_machine
          (logs evs
             (set_files (apply_op (write_op os p data) (files (machine s)))
                (machine s))) s)).
Proof.
  unfold on_machine. rewrite open_and_write_run. cbn [fst snd].
  rewrite new_events_logs by reflexivity.
  destruct (open_fault os p); [reflexivity|].
  destruct (write_fault os p); reflexivity.
Qed.

Lemma write_op_elsewhere p data (f : gmap string bytes) q :
  q <> p -> apply_op (write_op os p data) f !! q = f !! q.
Proof.
  intros Hne. unfold write_op.
  destruct (open_fault os p); [reflexivity|].
  destruct (write_fault os p); [|destruct (write_lost os p)]; simpl.
  - apply lookup_insert_ne. congruence.
  - apply lookup_delete_ne. congruence.
  - apply lookup_insert_ne. congruence.
Qed.

Lemma write_op_written p data (f : gmap string bytes) :
  open_fault os p = None -> write_fault os p = None ->
  apply_op (write_op os p data) f !! p
  = if write_lost os p then None else Some data.
Proof.
  intros Ho Hw. unfold write_op. rewrite Ho, Hw.
  destruct (write_lost os p); simpl.
  - apply lookup_delete_eq.
  - apply lookup_insert_eq.
Qed.

Lemma files_logs evs w : files (logs evs w) = files w.
Proof. reflexivity. Qed.

Lemma files_set_files f w : files (set_files f w) = f.
Proof. reflexivity. Qed.

End AuthSteps.

(** Unfolding the operations of the session monad. *)
Ltac run_script :=
  cbv beta delta [and_then library library_reading say pure throw];
  cbv beta iota.

Lemma set_machine_set w1 w2 s :
  set_machine w2 (set_machine w1 s) = set_machine w2 s.
Proof. reflexivity. Qed.

(** Bringing a session to the form [notes_down ens (set_machine w s)]. *)
Ltac tidy_session :=
  repeat first [ rewrite note_down_notes | rewrite set_machine_notes
               | rewrite set_machine_set | rewrite notes_down_notes
               | rewrite machine_notes | rewrite machine_set
               | rewrite files_log | rewrite dirs_log ].

(** The case analysis of the OAuth branch, with the tactic [leaf] for
    each course the run can take. *)
Ltac write_build_with leaf :=
  tidy_session; rewrite write_step; cbv zeta;
  match goal with
  | |- context [open_fault ?os ?p] =>
      destruct (open_fault os p) eqn:Hopen; [leaf|];
      destruct (write_fault os p) eqn:Hwrite; [leaf|]
  end;
  tidy_session;
  match goal with
  | |- context [build ?g ?c] => destruct (build g c) eqn:Hb
  end;
  leaf.

Ltac flow_with leaf :=
  tidy_session; rewrite exists_step; tidy_session;
  rewrite ?path_exists_log_set;
  match goal with
  | |- context [path_exists (machine ?s) (credentials_file ?self)] =>
      destruct (path_exists (machine s) (credentials_file self)) eqn:Hclient;
      cbn [negb]; [|leaf]
  end;
  tidy_session;
  match goal with
  | |- context [from_client_secrets_file ?g ?p ?f] =>
      destruct (from_client_secrets_file g p f) eqn:Hflow; [|leaf]
  end;
  match goal with
  | |- context [run_local_server ?g ?fl] =>
      destruct (run_local_server g fl) eqn:Hserver; [|leaf]
  end;
  write_build_with leaf.

Ltac done_leaf :=
  tidy_session; cbn [fst snd];
  let Hdone := fresh "Hdone" in
  intros Hdone; try discriminate Hdone; injection Hdone as <-;
  eexists _, _; (split; [eassumption|]); (split; [reflexivity|]);
  tidy_session; rewrite ?files_logs, ?files_set_files;
  (split; [reflexivity|]);
  first [ left; repeat split; solve [assumption | reflexivity]
        | right; split;
          [apply write_op_written; assumption
          |first [ left; eexists; eassumption
                 | right; eexists; eassumption ]] ].

Section AuthenticateFacts.

Variable os : OS.
Variable google : Google.

(** A run of the OAuth branch that returns: the service was built from
    valid credentials found in the token file, or from new ones that the
    token file holds now. *)
Lemma oauth_done self s self' :
  use_service_account self = false ->
  (authenticate os google self s).1 = Done self' ->
  let run := authenticate os google self s in
  exists c d,
    build google c = Done d
    /\ self' = set_service self d
    /\ dirs (machine run.2) = dirs (machine s)
    /\ ((cr_valid c = true
         /\ path_exists (machine s) (token_file self) = true
         /\ from_authorized_user_file google (token_file self)
              (files (machine s) !! token_file self) = Done c
         /\ files (machine run.2) = files (machine s))
        \/ (files (machine run.2) !! token_file self
            = (if write_lost os (token_file self) then None
               else Some (cr_to_json c))
            /\ ((exists c0, refresh google c0 = Done c)
                \/ (exists flow, run_local_server google flow = Done c)))).
Proof.
  intros Hsa. cbv zeta. unfold authenticate, renew, run_flow.
  rewrite Hsa. run_script. rewrite exists_step.
  destruct (path_exists (machine s) (token_file self)) eqn:Hfound;
    tidy_session.
  - destruct (from_authorized_user_file google (token_file self) _)
      as [c0|e] eqn:Hload; [|done_leaf].
    cbv beta iota. destruct (cr_valid c0) eqn:Hv; cbn [negb].
    { destruct (build google c0) as [d|e] eqn:Hb; done_leaf. }
    destruct (cr_expired c0 && truthy_opt (cr_refresh_token c0)) eqn:Hr.
    + destruct (refresh google c0) as [c1|e] eqn:Hrf; [|done_leaf].
      write_build_with done_leaf.
    + flow_with done_leaf.
  - cbv beta iota. flow_with done_leaf.
Qed.

(** A run of [authenticate] that returns has set [service] to what the
    library built. *)
Lemma authenticate_done self s self' :
  (authenticate os google self s).1 = Done self' ->
  exists c d, build google c = Done d /\ self' = set_service self d.
Proof.
  destruct (use_service_account self) eqn:Hsa.
  - unfold authenticate. rewrite Hsa. run_script. rewrite exists_step.
    destruct (path_exists (machine s) (credentials_file self));
      cbn [negb]; tidy_session; [|discriminate].
    destruct (from_service_account_file google (credentials_file self) _)
      as [creds|e]; [|discriminate].
    destruct (build google creds) as [d|e] eqn:Hb; [|discriminate].
    cbn [fst]. intros [= <-]. eauto.
  - intros Hdone.
    destruct (oauth_done self s self' Hsa Hdone) as (c & d & Hb & -> & _).
    eauto.
Qed.

End AuthenticateFacts.

(** * [authenticate]: what it reads, what it writes, what it builds *)

(** Where the building call stands in a list of entries written out. *)
Ltac find_build E pre :=
  destruct pre as [|? pre]; simpl in E;
  [ try discriminate E; simplify_eq
  | try discriminate E; injection E as ? E; subst; try find_build E pre ].

Ltac oauth_leaf :=
  tidy_session; cbn [fst snd];
  rewrite ?new_entries_notes by reflexivity;
  tidy_session; rewrite ?files_logs, ?files_set_files;
  (split; [reflexivity|]);
  (split; [reflexivity|]);
  (split; [intros p Hp; try reflexivity; apply write_op_elsewhere; exact Hp|]);
  (split;
   [intros pre c post E; find_build E pre
   |intros self' Hdone; try discriminate Hdone]).

Ltac oauth_close :=
  match goal with
  | |- (forall en, en ∈ _ -> en = _) /\ _ =>
      split; [intros en Hen; elem_solve|];
      first [ left; repeat split;
              solve [assumption | reflexivity | repeat constructor]
            | right; split; [elem_solve|]; split;
              [first [ apply write_op_written; assumption
                     | rewrite write_op_written by assumption;
                       repeat match goal with
                              | H : write_lost _ _ = _ |- _ => rewrite H
                              end; reflexivity ]
              |first [ left; eexists; split; [elem_solve|eassumption]
                     | right; eexists; split; [elem_solve|eassumption] ]] ]
  | Hdone : Done _ = Done _ |- exists c d, _ =>
      injection Hdone as <-; eexists _, _;
      split; [elem_solve|split; [eassumption|reflexivity]]
  end.

Section Authenticate.

Variable os : OS.
Variable google : Google.

(** X11.  With a service account, [authenticate] looks at the key file
    and at nothing else: the token file is neither read nor written, no
    file or directory changes, and the only library calls are the
    loading of the key and the building of the service.  When the key
    file does not exist, [FileNotFoundError] is raised before any
    library call.  A run that returns has set [service] to what was
    built from the key, and left the other attributes alone. *)
Theorem service_account_ignores_token self s :
  use_service_account self = true ->
  service_account_run google self s (authenticate os google self s).
Proof.
  intros Hsa. unfold service_account_run, authenticate. rewrite Hsa.
  run_script. rewrite exists_step.
  destruct (path_exists (machine s) (credentials_file self)) eqn:Hfound;
    cbn [negb]; tidy_session.
  2: { cbn [fst snd]. rewrite new_entries_notes by reflexivity.
       tidy_session. repeat split; try discriminate.
       intros en Hin. elem_solve. }
  destruct (from_service_account_file google (credentials_file self) _)
    as [creds|e] eqn:Hload; [destruct (build google creds) as [d|e] eqn:Hbuild|];
    tidy_session; cbn [fst snd]; rewrite new_entries_notes by reflexivity;
    tidy_session; repeat split; try discriminate;
    try (intros en Hin; elem_solve).
Qed.

(** X12.  In the OAuth branch, valid credentials in the token file are
    all that is needed: [authenticate] checks the token file, loads it
    and builds the service from what it loaded.  Nothing is refreshed,
    no browser flow runs, the client file [credentials_file] is not
    even looked for, and no file is written. *)
Theorem valid_token_is_enough self s c :
  use_service_account self = false ->
  path_exists (machine s) (token_file self) = true ->
  from_authorized_user_file google (token_file self)
    (files (machine s) !! token_file self) = Done c ->
  cr_valid c = true ->
  authenticate os google self s
  = (match build google c with
     | Done d => Done (set_service self d)
     | Failed e => Failed e
     end,
     notes_down
       ([Machine (CallExists (token_file self) true);
         Library (FromAuthorizedUserFile (token_file self));
         Library (Build c)]
        ++ match build google c with
           | Done _ => [Said MsgAuthenticated]
           | Failed _ => []
           end)
       (set_machine (log (CallExists (token_file self) true) (machine s)) s)).
Proof.
  intros Hsa Hfound Hload Hvalid. unfold authenticate. rewrite Hsa.
  run_script. rewrite exists_step, Hfound. tidy_session.
  rewrite Hload. cbv beta iota. rewrite Hvalid. cbn [negb].
  destruct (build google c) as [d|e]; tidy_session; reflexivity.
Qed.

(** X13.  Credentials that are expired and hold a refresh token are
    refreshed, and a refresh that fails makes [authenticate] fail with
    the error of the refresh: there is no falling back on the browser
    flow, the client file is not looked for, the token file is left as
    it was, and no service is built. *)
Theorem failed_refresh_is_final self s c e :
  use_service_account self = false ->
  path_exists (machine s) (token_file self) = true ->
  from_authorized_user_file google (token_file self)
    (files (machine s) !! token_file self) = Done c ->
  cr_valid c = false ->
  cr_expired c = true ->
  truthy_opt (cr_refresh_token c) = true ->
  refresh google c = Failed e ->
  authenticate os google self s
  = (Failed e,
     notes_down
       [Machine (CallExists (token_file self) true);
        Library (FromAuthorizedUserFile (token_file self));
        Library (Refresh c)]
       (set_machine (log (CallExists (token_file self) true) (machine s)) s)).
Proof.
  intros Hsa Hfound Hload Hvalid Hexp Htok Hr. unfold authenticate, renew.
  rewrite Hsa. run_script. rewrite exists_step, Hfound. tidy_session.
  rewrite Hload. cbv beta iota. rewrite Hvalid. cbn [negb].
  rewrite Hexp, Htok. cbn [andb]. rewrite Hr. tidy_session. reflexivity.
Qed.

(** X14.  The client file is needed only for the browser flow.  When
    there are no credentials to load, or the loaded ones are not valid
    and cannot be refreshed, and the client file does not exist,
    [authenticate] raises [FileNotFoundError] for it: no flow is
    started, nothing is written and no service is built. *)
Theorem missing_client_file_stops_flow self s creds :
  use_service_account self = false ->
  load_token google self (machine s) = Done creds ->
  needs_browser creds = true ->
  path_exists (machine s) (credentials_file self) = false ->
  stopped_for_client_file self s (authenticate os google self s).
Proof.
  intros Hsa Hload Hneed Hmiss. unfold stopped_for_client_file. cbv zeta.
  unfold authenticate, renew, run_flow. rewrite Hsa.
  unfold load_token in Hload.
  run_script. rewrite exists_step.
  destruct (path_exists (machine s) (token_file self)); tidy_session.
  - destruct (from_authorized_user_file google (token_file self) _) as [c|e0];
      [|discriminate].
    injection Hload as <-. cbv beta iota. simpl in Hneed.
    apply andb_prop in Hneed as [Hv Hr].
    apply negb_true_iff in Hv, Hr. rewrite Hv, Hr. cbn [negb].
    rewrite exists_step. tidy_session. rewrite path_exists_log_set, Hmiss.
    cbn [negb fst snd]. rewrite new_entries_notes by reflexivity.
    tidy_session. repeat split; repeat constructor.
  - injection Hload as <-. cbv beta iota.
    rewrite exists_step. tidy_session. rewrite path_exists_log_set, Hmiss.
    cbn [negb fst snd]. rewrite new_entries_notes by reflexivity.
    tidy_session. repeat split; repeat constructor.
Qed.

(** X15.  In the OAuth branch, new credentials are saved before they are
    used: the service is built either from valid credentials loaded from
    the token file, and then nothing is written, or from credentials
    just refreshed or obtained in the browser, which were written to the
    token file first, so that they are kept even when the building of
    the service fails.  No file but the token file ever changes, no
    directory does, the building call is the last one, and a run that
    returns has set [service] to what was built. *)
Theorem new_credentials_saved_before_build self s :
  use_service_account self = false ->
  builds_from_token os google self s (authenticate os google self s).
Proof.
  intros Hsa. unfold builds_from_token, authenticate, renew, run_flow.
  rewrite Hsa. run_script. rewrite exists_step.
  destruct (path_exists (machine s) (token_file self)) eqn:Hfound;
    tidy_session.
  - destruct (from_authorized_user_file google (token_file self) _)
      as [c0|e] eqn:Hload; [|oauth_leaf].
    cbv beta iota. destruct (cr_valid c0) eqn:Hv; cbn [negb].
    { destruct (build google c0) as [d|e] eqn:Hb; oauth_leaf; oauth_close. }
    destruct (cr_expired c0 && truthy_opt (cr_refresh_token c0)) eqn:Hr.
    + destruct (refresh google c0) as [c1|e] eqn:Hrf; [|oauth_leaf].
      write_build_with ltac:(oauth_leaf; try oauth_close).
    + flow_with ltac:(oauth_leaf; try oauth_close).
  - cbv beta iota. flow_with ltac:(oauth_leaf; try oauth_close).
Qed.

Lemma prep_summary_head local_path found :
  exists rest,
    (prep_summary os local_path found).1.2
    = Print (MsgAttemptingToSave local_path) :: rest.
Proof.
  unfold prep_summary. cbv zeta.
  destruct (PyStr.truthy (OsPath.dirname local_path) && negb found);
    repeat match goal with
           | |- context [makedirs_fault os ?p] => destruct (makedirs_fault os p)
           end;
    cbn [fst snd app]; eexists; reflexivity.
Qed.

(** X16.  An object fresh from [__init__] has no service, and
    [download_folder] on it raises at once, before printing or touching
    anything.  Once [authenticate] has returned, the object holds a
    service built by the library, its other attributes are as
    [__init__] set them, and [download_folder] gets past the check. *)
Theorem authenticate_makes_ready credentials_file token_file
    use_service_account s self' :
  (authenticate os google
     (init credentials_file token_file use_service_account) s).1
  = Done self' ->
  (forall folder_identifier local_path w,
     download_folder os
       (this (init credentials_file token_file use_service_account))
       folder_identifier local_path w
     = (Raise NotAuthenticated, w))
  /\ ready_to_download os google
       (init credentials_file token_file use_service_account) self'.
Proof.
  intros Hdone. split; [reflexivity|].
  destruct (authenticate_done os google _ s self' Hdone) as (c & d & Hb & ->).
  unfold ready_to_download. repeat split.
  - exists c, d. auto.
  - intros folder_identifier local_path w.
    set (self1 := this (set_service _ d)).
    assert (Hd : service self1 = Some d) by reflexivity.
    destruct (prep_summary_head local_path
                (path_exists w (OsPath.dirname local_path))) as (rest & Hp).
    fold (prep_of os local_path w) in Hp.
    destruct (download_folder_shape os self1 d folder_identifier local_path w Hd)
      as [Hs|o res rest' Hs Hid Fres Hnf Hq|folder_id res rest' Hs Hres];
      cbn [snd]; rewrite trace_logs; cbn [trace set_files set_stdin prepared set_dirs];
      rewrite Hp; eexists; reflexivity.
Qed.

(** X17.  After an OAuth authentication that returned, the next one
    needs nobody: when credentials that were just
    refreshed or obtained are valid and are what the libraries read
    back from their text, and when the token file is where it was
    written, a second [authenticate] returns the same object without
    refreshing, without the browser flow and without a write. *)
Theorem second_authentication_is_silent self s self1 :
  use_service_account self = false ->
  (authenticate os google self s).1 = Done self1 ->
  write_lost os (token_file self) = false ->
  (forall c c',
     refresh google c = Done c' ->
     cr_valid c' = true
     /\ from_authorized_user_file google (token_file self)
          (Some (cr_to_json c')) = Done c') ->
  (forall flow c',
     run_local_server google flow = Done c' ->
     cr_valid c' = true
     /\ from_authorized_user_file google (token_file self)
          (Some (cr_to_json c')) = Done c') ->
  let run1 := authenticate os google self s in
  let run2 := authenticate os google self run1.2 in
  run2.1 = Done self1 /\ silent_run run1.2 run2.
Proof.
  intros Hsa Hdone Hkept Hrefresh Hflow run1 run2.
  destruct (oauth_done os google self s self1 Hsa Hdone)
    as (c & d & Hb & -> & Hdirs & Hfrom).
  cbv zeta in Hdirs, Hfrom. fold run1 in Hdirs, Hfrom.
  assert (Hready : path_exists (machine run1.2) (token_file self) = true
                   /\ from_authorized_user_file google (token_file self)
                        (files (machine run1.2) !! token_file self) = Done c
                   /\ cr_valid c = true).
  { destruct Hfrom as [(Hv & Hfound & Hload & Hfiles)|(Hfiles & Hgot)].
    - split; [|split; [|exact Hv]].
      + unfold path_exists in *. rewrite Hdirs, Hfiles. exact Hfound.
      + rewrite Hfiles. exact Hload.
    - rewrite Hkept in Hfiles.
      assert (Hgood : cr_valid c = true
                      /\ from_authorized_user_file google (token_file self)
                           (Some (cr_to_json c)) = Done c).
      { destruct Hgot as [(c0 & H)|(flow & H)]; eauto. }
      split; [|split; [|apply Hgood]].
      + unfold path_exists. rewrite Hfiles.
        rewrite (bool_decide_eq_true_2 (is_Some (Some (cr_to_json c))))
          by eauto.
        apply orb_true_r.
      + rewrite Hfiles. apply Hgood. }
  destruct Hready as (Hfound & Hload & Hv).
  unfold run2, silent_run. set (s1 := run1.2) in *. clearbody s1.
  unfold authenticate. rewrite Hsa. run_script.
  rewrite exists_step, Hfound. tidy_session. rewrite Hload.
  cbv beta iota. rewrite Hv. cbn [negb]. rewrite Hb. tidy_session.
  cbn [fst snd]. rewrite new_entries_notes by reflexivity.
  split; [reflexivity|]. repeat split; repeat constructor.
Qed.

End Authenticate.

(** ** The theorems above on concrete sessions *)

Lemma service_account_ignores_token_witness :
  use_service_account Office.robot = true
  /\ service_account_run (Office.google Scene.unlistable) Office.robot
       (Office.desk {["key.json" := [x7b]]} [])
       (authenticate Demo.sound_os (Office.google Scene.unlistable)
          Office.robot (Office.desk {["key.json" := [x7b]]} [])).
Proof.
  split; [reflexivity|].
  apply (service_account_ignores_token Demo.sound_os
           (Office.google Scene.unlistable) Office.robot
           (Office.desk {["key.json" := [x7b]]} [])).
  reflexivity.
Defined.

Lemma valid_token_is_enough_witness :
  use_service_account Office.oauth = false
  /\ path_exists (machine (Office.desk {["token.json" := [x7b; x7d]]} []))
       (token_file Office.oauth) = true
  /\ from_authorized_user_file (Office.google Scene.unlistable)
       (token_file Office.oauth)
       (files (machine (Office.desk {["token.json" := [x7b; x7d]]} []))
          !! token_file Office.oauth) = Done Office.fresh
  /\ cr_valid Office.fresh = true
  /\ authenticate Demo.sound_os (Office.google Scene.unlistable) Office.oauth
       (Office.desk {["token.json" := [x7b; x7d]]} [])
     = (match build (Office.google Scene.unlistable) Office.fresh with
        | Done d => Done (set_service Office.oauth d)
        | Failed e => Failed e
        end,
        notes_down
          ([Machine (CallExists (token_file Office.oauth) true);
            Library (FromAuthorizedUserFile (token_file Office.oauth));
            Library (Build Office.fresh)]
           ++ match build (Office.google Scene.unlistable) Office.fresh with
              | Done _ => [Said MsgAuthenticated]
              | Failed _ => []
              end)
          (set_machine
             (log (CallExists (token_file Office.oauth) true)
                (machine (Office.desk {["token.json" := [x7b; x7d]]} [])))
             (Office.desk {["token.json" := [x7b; x7d]]} []))).
Proof.
  split; [reflexivity|]. split; [reflexivity|]. split; [reflexivity|].
  split; [reflexivity|].
  apply (valid_token_is_enough Demo.sound_os (Office.google Scene.unlistable)
           Office.oauth (Office.desk {["token.json" := [x7b; x7d]]} [])
           Office.fresh); reflexivity.
Defined.

Lemma failed_refresh_is_final_witness :
  use_service_account Office.oauth = false
  /\ path_exists (machine (Office.desk {["token.json" := [x7b]]} []))
       (token_file Office.oauth) = true
  /\ from_authorized_user_file (Office.revoked Scene.unlistable)
       (token_file Office.oauth)
       (files (machine (Office.desk {["token.json" := [x7b]]} []))
          !! token_file Office.oauth) = Done Office.stale
  /\ cr_valid Office.stale = false
  /\ cr_expired Office.stale = true
  /\ truthy_opt (cr_refresh_token Office.stale) = true
  /\ refresh (Office.revoked Scene.unlistable) Office.stale
     = Failed (LibraryError "RefreshError")
  /\ authenticate Demo.sound_os (Office.revoked Scene.unlistable) Office.oauth
       (Office.desk {["token.json" := [x7b]]} [])
     = (Failed (LibraryError "RefreshError"),
        notes_down
          [Machine (CallExists (token_file Office.oauth) true);
           Library (FromAuthorizedUserFile (token_file Office.oauth));
           Library (Refresh Office.stale)]
          (set_machine
             (log (CallExists (token_file Office.oauth) true)
                (machine (Office.desk {["token.json" := [x7b]]} [])))
             (Office.desk {["token.json" := [x7b]]} []))).
Proof.
  repeat (split; [reflexivity|]).
  apply (failed_refresh_is_final Demo.sound_os
           (Office.revoked Scene.unlistable) Office.oauth
           (Office.desk {["token.json" := [x7b]]} []) Office.stale
           (LibraryError "RefreshError")); reflexivity.
Defined.

Lemma missing_client_file_stops_flow_witness :
  use_service_account Office.oauth = false
  /\ load_token (Office.google Scene.unlistable) Office.oauth
       (machine (Office.desk ∅ [])) = Done None
  /\ needs_browser None = true
  /\ path_exists (machine (Office.desk ∅ [])) (credentials_file Office.oauth)
     = false
  /\ stopped_for_client_file Office.oauth (Office.desk ∅ [])
       (authenticate Demo.sound_os (Office.google Scene.unlistable)
          Office.oauth (Office.desk ∅ [])).
Proof.
  split; [reflexivity|]. split; [reflexivity|]. split; [reflexivity|].
  split; [reflexivity|].
  apply (missing_client_file_stops_flow Demo.sound_os
           (Office.google Scene.unlistable) Office.oauth (Office.desk ∅ [])
           None); reflexivity.
Defined.

Lemma new_credentials_saved_before_build_witness :
  use_service_account Office.oauth = false
  /\ builds_from_token Demo.sound_os (Office.google Scene.unlistable)
       Office.oauth (Office.desk {["credentials.json" := [x7b]]} [])
       (authenticate Demo.sound_os (Office.google Scene.unlistable)
          Office.oauth (Office.desk {["credentials.json" := [x7b]]} [])).
Proof.
  split; [reflexivity|].
  apply (new_credentials_saved_before_build Demo.sound_os
           (Office.google Scene.unlistable) Office.oauth
           (Office.desk {["credentials.json" := [x7b]]} [])).
  reflexivity.
Defined.

(** The browser flow on a desk that holds the client file only: the
    new credentials are in the token file when the service is built. *)
Example browser_flow_saves_token :
  journal (authenticate Demo.sound_os (Office.google Scene.unlistable)
             Office.oauth (Office.desk {["credentials.json" := [x7b]]} [])).2
  = [Machine (CallExists "token.json" false);
     Machine (CallExists "credentials.json" true);
     Library (FromClientSecretsFile "credentials.json");
     Library (RunLocalServer (InstalledAppFlow [x7b]));
     Machine (CallOpenWrite "token.json");
     Machine (CallWrite "token.json" [x7b; x7d]);
     Library (Build Office.fresh);
     Said MsgAuthenticated]
  /\ files (machine
              (authenticate Demo.sound_os (Office.google Scene.unlistable)
                 Office.oauth
                 (Office.desk {["credentials.json" := [x7b]]} [])).2)
       !! "token.json" = Some [x7b; x7d].
Proof. split; vm_compute; reflexivity. Qed.

Lemma authenticate_makes_ready_witness :
  (authenticate Demo.sound_os (Office.google Scene.unlistable)
     (init "credentials.json" "token.json" false)
     (Office.desk {["token.json" := [x7b; x7d]]} [])).1
  = Done (set_service (init "credentials.json" "token.json" false)
            Scene.unlistable)
  /\ (forall folder_identifier local_path w,
        download_folder Demo.sound_os
          (this (init "credentials.json" "token.json" false))
          folder_identifier local_path w
        = (Raise NotAuthenticated, w))
  /\ ready_to_download Demo.sound_os (Office.google Scene.unlistable)
       (init "credentials.json" "token.json" false)
       (set_service (init "credentials.json" "token.json" false)
          Scene.unlistable).
Proof.
  split; [reflexivity|].
  apply (authenticate_makes_ready Demo.sound_os
           (Office.google Scene.unlistable) "credentials.json" "token.json"
           false (Office.desk {["token.json" := [x7b; x7d]]} [])
           (set_service (init "credentials.json" "token.json" false)
              Scene.unlistable)).
  reflexivity.
Defined.

Lemma second_authentication_is_silent_witness :
  use_service_account Office.oauth = false
  /\ (authenticate Demo.sound_os (Office.google Scene.unlistable) Office.oauth
        (Office.desk {["credentials.json" := [x7b]]} [])).1
     = Done (set_service Office.oauth Scene.unlistable)
  /\ write_lost Demo.sound_os (token_file Office.oauth) = false
  /\ (forall c c',
        refresh (Office.google Scene.unlistable) c = Done c' ->
        cr_valid c' = true
        /\ from_authorized_user_file (Office.google Scene.unlistable)
             (token_file Office.oauth) (Some (cr_to_json c')) = Done c')
  /\ (forall flow c',
        run_local_server (Office.google Scene.unlistable) flow = Done c' ->
        cr_valid c' = true
        /\ from_authorized_user_file (Office.google Scene.unlistable)
             (token_file Office.oauth) (Some (cr_to_json c')) = Done c')
  /\ (authenticate Demo.sound_os (Office.google Scene.unlistable) Office.oauth
        (authenticate Demo.sound_os (Office.google Scene.unlistable)
           Office.oauth (Office.desk {["credentials.json" := [x7b]]} [])).2).1
     = Done (set_service Office.oauth Scene.unlistable)
  /\ silent_run
       (authenticate Demo.sound_os (Office.google Scene.unlistable)
          Office.oauth (Office.desk {["credentials.json" := [x7b]]} [])).2
       (authenticate Demo.sound_os (Office.google Scene.unlistable)
          Office.oauth
          (authenticate Demo.sound_os (Office.google Scene.unlistable)
             Office.oauth (Office.desk {["credentials.json" := [x7b]]} [])).2).
Proof.
  assert (Hgood : forall c' : Credentials,
            Done Office.fresh = Done c' ->
            cr_valid c' = true
            /\ from_authorized_user_file (Office.google Scene.unlistable)
                 (token_file Office.oauth) (Some (cr_to_json c')) = Done c').
  { intros c' [= <-]. split; reflexivity. }
  split; [reflexivity|]. split; [reflexivity|]. split; [reflexivity|].
  split; [intros c c'; apply Hgood|]. split; [intros flow c'; apply Hgood|].
  apply (second_authentication_is_silent Demo.sound_os
           (Office.google Scene.unlistable) Office.oauth
           (Office.desk {["credentials.json" := [x7b]]} [])
           (set_service Office.oauth Scene.unlistable));
    [reflexivity|reflexivity|reflexivity
    |intros c c'; apply Hgood|intros flow c'; apply Hgood].
Defined.

(** * [main] *)

Ltac journal_leaf :=
  tidy_session; cbn [fst snd];
  rewrite ?new_entries_notes by reflexivity;
  (split; [reflexivity|]);
  eexists; (split; [reflexivity|]);
  (split; [reflexivity|]);
  repeat constructor.

Section AuthenticateJournal.

Variable os : OS.
Variable google : Google.

(** What every run of [authenticate] leaves in the journal: it starts
    with the check of the key file or of the token file, and holds
    nothing but what [authenticate] does; the keyboard is untouched. *)
Lemma authenticate_journal self s :
  let run := authenticate os google self s in
  let path := if use_service_account self then credentials_file self
              else token_file self in
  keyboard run.2 = keyboard s
  /\ exists rest,
       new_entries s run.2
       = Machine (CallExists path (path_exists (machine s) path)) :: rest
       /\ journal run.2 = (journal s ++ new_entries s run.2)%list
       /\ Forall (fun en => is_auth_entry en = true) (new_entries s run.2).
Proof.
  cbv zeta. unfold authenticate, renew, run_flow.
  destruct (use_service_account self) eqn:Hsa; run_script; rewrite exists_step.
  - destruct (path_exists (machine s) (credentials_file self)) eqn:Hfound;
      cbn [negb]; tidy_session; [|journal_leaf].
    destruct (from_service_account_file google (credentials_file self) _)
      as [creds|e] eqn:Hload;
      [destruct (build google creds) as [d|e] eqn:Hbuild|];
      journal_leaf.
  - destruct (path_exists (machine s) (token_file self)) eqn:Hfound;
      tidy_session.
    + destruct (from_authorized_user_file google (token_file self) _)
        as [c0|e] eqn:Hload; [|journal_leaf].
      cbv beta iota. destruct (cr_valid c0) eqn:Hv; cbn [negb].
      { destruct (build google c0) as [d|e] eqn:Hb; journal_leaf. }
      destruct (cr_expired c0 && truthy_opt (cr_refresh_token c0)) eqn:Hr.
      * destruct (refresh google c0) as [c1|e] eqn:Hrf; [|journal_leaf].
        write_build_with journal_leaf.
      * flow_with journal_leaf.
    + cbv beta iota. flow_with journal_leaf.
Qed.

End AuthenticateJournal.
Lemma keyboard_notes ens s : keyboard (notes_down ens s) = keyboard s.
Proof. reflexivity. Qed.

Lemma set_keyboard_notes lines ens s :
  set_keyboard lines (notes_down ens s) = notes_down ens (set_keyboard lines s).
Proof. reflexivity. Qed.

Lemma set_keyboard_set l1 l2 s :
  set_keyboard l2 (set_keyboard l1 s) = set_keyboard l2 s.
Proof. reflexivity. Qed.

Lemma set_machine_keyboard w lines s :
  set_machine w (set_keyboard lines s) = set_keyboard lines (set_machine w s).
Proof. reflexivity. Qed.

Lemma machine_keyboard lines s : machine (set_keyboard lines s) = machine s.
Proof. reflexivity. Qed.

Lemma keyboard_set lines s : keyboard (set_keyboard lines s) = lines.
Proof. reflexivity. Qed.

Lemma keyboard_machine w s : keyboard (set_machine w s) = keyboard s.
Proof. reflexivity. Qed.

(** Bringing a session to the form
    [notes_down ens (set_keyboard lines (set_machine w s))]. *)
Ltac tidy_main :=
  repeat first [ rewrite note_down_notes | rewrite set_machine_notes
               | rewrite set_keyboard_notes | rewrite set_machine_keyboard
               | rewrite set_machine_set | rewrite set_keyboard_set
               | rewrite notes_down_notes
               | rewrite machine_notes | rewrite machine_keyboard
               | rewrite machine_set
               | rewrite keyboard_notes | rewrite keyboard_machine
               | rewrite keyboard_set ].

Lemma input_step p s :
  input p s
  = match keyboard s with
    | [] => (Failed (Exception EOFError), notes_down [Asked p] s)
    | line :: rest => (Done line, notes_down [Asked p] (set_keyboard rest s))
    end.
Proof. unfold input. destruct (keyboard s); reflexivity. Qed.

Section MainRuns.

Variable os : OS.
Variable google : Google.
Variable int_of : string -> input_line.

Lemma choose_downloader_run s :
  choose_downloader s
  = match keyboard s with
    | [] => (Failed (Exception EOFError), notes_down [Asked AskChoice] s)
    | choice :: rest =>
        if String.eqb (PyStrip.strip choice) "2" then
          match rest with
          | [] => (Failed (Exception EOFError),
                   notes_down [Asked AskChoice; Asked AskKeyFile]
                     (set_keyboard [] s))
          | line :: rest' =>
              if PyStr.truthy (PyStrip.strip line) then
                (Done (init (PyStrip.strip line) "token.json" true),
                 notes_down [Asked AskChoice; Asked AskKeyFile]
                   (set_keyboard rest' s))
              else
                (Done (init "service-account-key.json" "token.json" true),
                 notes_down [Asked AskChoice; Asked AskKeyFile;
                             Said (MsgUsingDefault "service-account-key.json")]
                   (set_keyboard rest' s))
          end
        else (Done (init "credentials.json" "token.json" false),
              notes_down [Asked AskChoice] (set_keyboard rest s))
    end.
Proof.
  unfold choose_downloader. run_script. rewrite input_step.
  destruct (keyboard s) as [|choice rest] eqn:Hk; [reflexivity|].
  destruct (String.eqb (PyStrip.strip choice) "2"); [|reflexivity].
  rewrite input_step. rewrite keyboard_notes. cbn [keyboard set_keyboard].
  destruct rest as [|line rest']; [tidy_main; reflexivity|].
  destruct (PyStr.truthy (PyStrip.strip line)); cbn [negb]; tidy_main;
    reflexivity.
Qed.

(** The [try] of [main] returns, whatever its body does. *)
Lemma try_main_run (body : Script unit) s :
  try_interrupt_except body (say MsgCancelled) (fun e => say (MsgError e)) s
  = match body s with
    | (Done a, s') => (Done a, s')
    | (Failed e, s') => (Done tt, notes_down [Said (report e)] s')
    end.
Proof.
  unfold try_interrupt_except.
  destruct (body s) as [[a|e] s']; [reflexivity|].
  destruct e; reflexivity.
Qed.

Lemma main_run s :
  main os google int_of s
  = match choose_downloader (notes_down banner s) with
    | (Done downloader, s1) =>
        try_interrupt_except
          (authenticate_and_download os google int_of downloader)
          (say MsgCancelled) (fun e => say (MsgError e)) s1
    | (Failed e, s1) => (Failed e, s1)
    end.
Proof.
  unfold main, and_then, say at 1 2 3 4 5. cbv beta iota.
  tidy_main. reflexivity.
Qed.

(** The body of the [try], by what [authenticate] returns and by the
    lines typed after it. *)
Lemma body_run downloader s :
  authenticate_and_download os google int_of downloader s
  = match authenticate os google downloader s with
    | (Failed e, s') => (Failed e, s')
    | (Done downloader', s') =>
        match keyboard s' with
        | [] => (Failed (Exception EOFError), notes_down [Asked AskFolder] s')
        | line :: rest =>
            if PyStr.truthy (PyStrip.strip line) then
              match rest with
              | [] => (Failed (Exception EOFError),
                       notes_down [Asked AskFolder; Asked AskPath]
                         (set_keyboard [] s'))
              | line' :: rest' =>
                  if PyStr.truthy (PyStrip.strip line') then
                    call_download_folder os int_of downloader'
                      (PyStrip.strip line) (PyStrip.strip line')
                      (notes_down [Asked AskFolder; Asked AskPath]
                         (set_keyboard rest' s'))
                  else
                    call_download_folder os int_of downloader'
                      (PyStrip.strip line) "./downloads"
                      (notes_down [Asked AskFolder; Asked AskPath;
                                   Said (MsgUsingDefaultPath "./downloads")]
                         (set_keyboard rest' s'))
              end
            else (Done tt,
                  notes_down [Asked AskFolder; Said MsgNoFolderSpecified]
                    (set_keyboard rest s'))
        end
    end.
Proof.
  unfold authenticate_and_download. unfold and_then at 1.
  destruct (authenticate os google downloader s) as [[downloader'|e] s'];
    [|reflexivity].
  unfold and_then at 1. rewrite input_step.
  destruct (keyboard s') as [|line rest] eqn:Hk; [reflexivity|].
  destruct (PyStr.truthy (PyStrip.strip line)); cbn [negb].
  2: { unfold say. tidy_main. reflexivity. }
  unfold and_then at 1. rewrite input_step, keyboard_notes.
  cbn [keyboard set_keyboard].
  destruct rest as [|line' rest']; [tidy_main; reflexivity|].
  destruct (PyStr.truthy (PyStrip.strip line')); cbn [negb].
  - tidy_main. reflexivity.
  - unfold and_then, say. tidy_main. reflexivity.
Qed.

(** What a call of [download_folder] from the command line adds to the
    journal. *)
Lemma call_download_folder_run self folder_name local_path s :
  let w := set_stdin (map int_of (keyboard s)) (machine s) in
  let run := download_folder os (this self) folder_name local_path w in
  call_download_folder os int_of self folder_name local_path s
  = (of_outcome run.1,
     notes_down (map Machine (new_events w run.2))
       (set_keyboard
          (drop (length (keyboard s) - length (stdin run.2)) (keyboard s))
          (set_machine run.2 s))).
Proof. reflexivity. Qed.

End MainRuns.

Lemma new_entries_of s s' ens :
  journal s' = (journal s ++ ens)%list -> new_entries s s' = ens.
Proof. unfold new_entries. intros ->. apply drop_app_length. Qed.

Lemma auth_entry_quiet en :
  is_auth_entry en = true ->
  is_download_entry en = false
  /\ (forall p, en <> Asked p)
  /\ (forall m, en <> Machine (Print m))
  /\ (forall p ok, en <> Machine (CallMakedirs p ok))
  /\ (forall p, en <> Said (MsgUsingDefaultPath p)).
Proof.
  destruct en as [[]| |[]|[]]; simpl; intros H; try discriminate H;
    repeat split; intros; discriminate.
Qed.



Section MainFacts.

Variable os : OS.
Variable google : Google.
Variable int_of : string -> input_line.

(** The choice of the method, for lines that answer it. *)
Lemma choice_made s pre later :
  keyboard s = (pre ++ later)%list ->
  answers_method pre = true ->
  exists downloader ch,
    choose_downloader (notes_down banner s)
    = (Done downloader, notes_down (banner ++ ch) (set_keyboard later s))
    /\ Forall (fun en => is_machine_entry en = false
                         /\ is_download_entry en = false
                         /\ en <> Asked AskFolder /\ en <> Asked AskPath
                         /\ (forall p, en <> Said (MsgUsingDefaultPath p)))
         (banner ++ ch).
Proof.
  intros Hk Hm. rewrite choose_downloader_run, keyboard_notes, Hk.
  destruct pre as [|choice [|line [|? ?]]]; try discriminate Hm;
    simpl in Hm; cbn [app].
  - apply negb_true_iff in Hm. rewrite Hm.
    eexists _, [Asked AskChoice]. split; [tidy_main; reflexivity|].
    repeat constructor; discriminate.
  - rewrite Hm. destruct (PyStr.truthy (PyStrip.strip line)).
    + eexists _, [Asked AskChoice; Asked AskKeyFile].
      split; [tidy_main; reflexivity|]. repeat constructor; discriminate.
    + eexists _, [Asked AskChoice; Asked AskKeyFile;
                  Said (MsgUsingDefault "service-account-key.json")].
      split; [tidy_main; reflexivity|]. repeat constructor; discriminate.
Qed.

End MainFacts.

Lemma filter_entries_none (P : entry -> bool) (l : list entry) :
  Forall (fun en => P en = false) l -> List.filter P l = [].
Proof.
  induction 1 as [|en l H _ IH]; [reflexivity|].
  simpl. rewrite H. exact IH.
Qed.

Lemma not_in_machine_events (en : entry) (evs : list event) :
  (forall ev, en <> Machine ev) -> en ∉ map Machine evs.
Proof.
  intros H Hin. apply list_elem_of_fmap in Hin as (ev & -> & _).
  exact (H ev eq_refl).
Qed.

Lemma last_two {A} (l : list A) x y : last (l ++ [x; y]) = Some y.
Proof.
  change [x; y] with ([x] ++ [y])%list. rewrite app_assoc. apply last_snoc.
Qed.

(** Entries that ask, if at all, for the folder or the path. *)
Ltac asked_ok :=
  repeat (constructor;
          [let q := fresh "q" in
           let H := fresh "H" in
           intros q H; inversion H; subst; auto|]);
  try constructor.

Section Main.

Variable os : OS.
Variable google : Google.
Variable int_of : string -> input_line.

(** X18.  [main] raises in one case only: standard input ends at the
    choice of the method, or at the path of the key file after the
    choice [2]; the error is [EOFError], and nothing but printing and
    asking has been done.  In every other case [main] returns, whatever
    the libraries, the Drive service and the operating system answer:
    the two prompts before the [try] are the only places it can raise
    from.  (An interrupt at a prompt, which the model does not have,
    would escape from the same two places.) *)
Theorem main_raises_only_at_first_prompts s e :
  (main os google int_of s).1 = Failed e ->
  ended_at_first_prompts s e (main os google int_of s).
Proof.
  unfold ended_at_first_prompts. cbv zeta.
  rewrite main_run, choose_downloader_run, keyboard_notes.
  assert (Htry : forall downloader s1,
            (try_interrupt_except
               (authenticate_and_download os google int_of downloader)
               (say MsgCancelled) (fun e => say (MsgError e)) s1).1
            <> Failed e).
  { intros downloader s1. rewrite try_main_run.
    destruct (authenticate_and_download os google int_of downloader s1)
      as [[a|e0] s']; discriminate. }
  destruct (keyboard s) as [|choice rest] eqn:Hk.
  - cbn [fst snd]. intros [= <-]. tidy_main.
    rewrite new_entries_notes by reflexivity.
    repeat split; auto; repeat constructor.
  - destruct (String.eqb_spec (PyStrip.strip choice) "2") as [Htwo|Hnot].
    + destruct rest as [|line rest'].
      * cbn [fst snd]. intros [= <-]. tidy_main.
        rewrite new_entries_notes by reflexivity.
        repeat split; eauto; repeat constructor.
      * destruct (PyStr.truthy (PyStrip.strip line)); intros He;
          destruct (Htry _ _ He).
    + intros He. destruct (Htry _ _ He).
Qed.

(** X19.  A folder name that is blank (empty, or white space only)
    ends [main] before anything is downloaded: [main] returns, the path
    is not asked for, no line of [download_folder] is printed, no
    directory is created and no call of the Drive service is made; and,
    when the name was asked for (the authentication having returned),
    the last line printed says that no folder was specified and the
    lines typed after the name are left unread. *)
Theorem blank_folder_name_downloads_nothing s pre line rest :
  keyboard s = (pre ++ line :: rest)%list ->
  answers_method pre = true ->
  PyStr.truthy (PyStrip.strip line) = false ->
  left_without_folder rest s (main os google int_of s).
Proof.
  intros Hk Hm Hblank. unfold left_without_folder. cbv zeta.
  destruct (choice_made s pre (line :: rest) Hk Hm) as (dl & ch & Hc & Fch).
  rewrite main_run, Hc, try_main_run, body_run.
  set (s1 := notes_down (banner ++ ch) (set_keyboard (line :: rest) s)).
  destruct (authenticate_journal os google dl s1) as (Hkb & arest & _ & Hj & Fa).
  cbv zeta in Hkb, Hj, Fa.
  set (auth := new_entries s1 (authenticate os google dl s1).2) in *.
  clearbody auth.
  assert (Hquiet : forall en, en ∈ ((banner ++ ch) ++ auth)%list ->
            is_download_entry en = false
            /\ en <> Asked AskFolder /\ en <> Asked AskPath).
  { intros en Hin. apply elem_of_app in Hin as [Hin|Hin].
    - pose proof (proj1 (Forall_forall _ _) Fch en Hin) as H.
      cbv beta in H. destruct H as (_ & H1 & H2 & H3 & _). auto.
    - pose proof (proj1 (Forall_forall _ _) Fa en Hin) as H.
      apply auth_entry_quiet in H as (H1 & H2 & _). auto. }
  destruct (authenticate os google dl s1) as [[dl'|e] s2]; cbn [fst snd] in *.
  - assert (Hks : keyboard s1 = line :: rest) by reflexivity.
    rewrite Hkb, Hks, Hblank. cbn [fst snd].
    assert (Hj' : journal
                    (notes_down [Asked AskFolder; Said MsgNoFolderSpecified]
                       (set_keyboard rest s2))
                  = (journal s
                     ++ ((banner ++ ch) ++ auth)
                     ++ [Asked AskFolder; Said MsgNoFolderSpecified])%list).
    { simpl. rewrite Hj. unfold s1. simpl. rewrite <- !app_assoc.
      reflexivity. }
    rewrite (new_entries_of _ _ _ Hj').
    split; [reflexivity|]. split; [|split].
    + apply Forall_app. split; [|repeat constructor].
      apply Forall_forall. intros en Hin. apply Hquiet, Hin.
    + intros Hin. apply elem_of_app in Hin as [Hin|Hin]; [|elem_solve].
      destruct (Hquiet _ Hin) as (_ & _ & H). congruence.
    + intros _. split; [apply last_two|reflexivity].
  - cbn [fst snd].
    assert (Hj' : journal (notes_down [Said (report e)] s2)
                  = (journal s ++ ((banner ++ ch) ++ auth)
                     ++ [Said (report e)])%list).
    { simpl. rewrite Hj. unfold s1. simpl. rewrite <- !app_assoc.
      reflexivity. }
    rewrite (new_entries_of _ _ _ Hj').
    split; [reflexivity|]. split; [|split].
    + apply Forall_app. split; [|repeat constructor].
      apply Forall_forall. intros en Hin. apply Hquiet, Hin.
    + intros Hin. apply elem_of_app in Hin as [Hin|Hin]; [|elem_solve].
      destruct (Hquiet _ Hin) as (_ & _ & H). congruence.
    + intros Hin. apply elem_of_app in Hin as [Hin|Hin]; [|elem_solve].
      destruct (Hquiet _ Hin) as (_ & H & _). congruence.
Qed.


(** X21.  The service account is used only when the first answer,
    stripped of white space, is exactly [2]; then the path of the key
    file is asked for, and the first thing looked at is the key file
    typed, or [service-account-key.json] when the line is blank.  Any
    other answer ([1], nothing, anything else) means OAuth: the key
    file is not asked for, and the first thing looked at is
    [token.json]. *)
Theorem method_is_oauth_unless_two s choice rest :
  keyboard s = choice :: rest ->
  let run := main os google int_of s in
  let new := new_entries s run.2 in
  if String.eqb (PyStrip.strip choice) "2" then
    Asked AskKeyFile ∈ new
    /\ (forall line rest',
          rest = line :: rest' ->
          let key := if PyStr.truthy (PyStrip.strip line)
                     then PyStrip.strip line
                     else "service-account-key.json" in
          first_on_machine s run
          = Some (Machine (CallExists key (path_exists (machine s) key))))
  else
    (Asked AskKeyFile ∉ new)
    /\ first_on_machine s run
       = Some (Machine (CallExists "token.json"
                          (path_exists (machine s) "token.json"))).
Proof.
  intros Hk. cbv zeta.
  assert (Hbody : forall dl ch later,
            Forall (fun en => is_machine_entry en = false) (banner ++ ch) ->
            let s1 := notes_down (banner ++ ch) (set_keyboard later s) in
            let run := try_interrupt_except
                         (authenticate_and_download os google int_of dl)
                         (say MsgCancelled) (fun e => say (MsgError e)) s1 in
            let path := if use_service_account dl then credentials_file dl
                        else token_file dl in
            exists tail,
              new_entries s run.2
              = ((banner ++ ch)
                 ++ Machine (CallExists path (path_exists (machine s) path))
                 :: tail)%list
              /\ Forall (fun en => forall p, en = Asked p ->
                                   p = AskFolder \/ p = AskPath) tail).
  { intros dl ch later Fch s1 run path.
    destruct (authenticate_journal os google dl s1)
      as (Hkb & arest & Hnew & Hj & Fa).
    cbv zeta in Hkb, Hj, Fa, Hnew. fold path in Hnew.
    change (machine s1) with (machine s) in Hnew.
    assert (Fa' : Forall (fun en => forall p, en = Asked p ->
                                    p = AskFolder \/ p = AskPath) arest).
    { rewrite Hnew in Fa. apply Forall_cons in Fa as [_ Fa].
      eapply Forall_impl; [exact Fa|]. intros en H p ->. discriminate H. }
    assert (Hshape : forall tail final,
              Forall (fun en => forall p, en = Asked p ->
                                  p = AskFolder \/ p = AskPath) tail ->
              journal final
              = (journal (authenticate os google dl s1).2 ++ tail)%list ->
              exists tail',
                new_entries s final
                = ((banner ++ ch)
                   ++ Machine (CallExists path (path_exists (machine s) path))
                   :: tail')%list
                /\ Forall (fun en => forall p, en = Asked p ->
                                     p = AskFolder \/ p = AskPath) tail').
    { intros tail final Ft Hf. exists (arest ++ tail)%list. split.
      - apply new_entries_of. rewrite Hf, Hj, Hnew. unfold s1. simpl.
        rewrite <- !app_assoc. reflexivity.
      - apply Forall_app. auto. }
    unfold run. rewrite try_main_run, body_run.
    destruct (authenticate os google dl s1) as [[dl'|e] s2]; cbn [fst snd] in *.
    2: { apply (Hshape [Said (report e)]); [|reflexivity].
         asked_ok. }
    destruct (keyboard s2) as [|line rest1].
    { apply (Hshape [Asked AskFolder; Said (report (Exception EOFError))]);
        [|simpl; rewrite <- app_assoc; reflexivity].
      asked_ok. }
    destruct (PyStr.truthy (PyStrip.strip line)).
    2: { apply (Hshape [Asked AskFolder; Said MsgNoFolderSpecified]);
           [|reflexivity].
         asked_ok. }
    destruct rest1 as [|line' rest2].
    { apply (Hshape [Asked AskFolder; Asked AskPath;
                     Said (report (Exception EOFError))]);
        [|simpl; rewrite <- app_assoc; reflexivity].
      asked_ok. }
    assert (Hcall : forall local_path notes,
              Forall (fun en => forall p, en = Asked p ->
                                  p = AskFolder \/ p = AskPath) notes ->
              exists tail',
                new_entries s
                  (let (r, s') :=
                     call_download_folder os int_of dl' (PyStrip.strip line)
                       local_path
                       (notes_down notes (set_keyboard rest2 s2)) in
                   match r with
                   | Done a => (Done a, s')
                   | Failed e => (Done tt, notes_down [Said (report e)] s')
                   end).2
                = ((banner ++ ch)
                   ++ Machine (CallExists path (path_exists (machine s) path))
                   :: tail')%list
                /\ Forall (fun en => forall p, en = Asked p ->
                                     p = AskFolder \/ p = AskPath) tail').
    { intros local_path notes Fn. rewrite call_download_folder_run. cbv zeta.
      set (evs := new_events _ _).
      assert (Fe : Forall (fun en => forall p, en = Asked p ->
                                     p = AskFolder \/ p = AskPath)
                     (map Machine evs)).
      { apply Forall_forall. intros en Hin p ->.
        apply list_elem_of_fmap in Hin as (ev & [=] & _). }
      destruct (download_folder _ _ _ _ _).1 as [[]|e];
        cbn [of_outcome fst snd].
      - apply (Hshape (notes ++ map Machine evs)%list).
        + apply Forall_app. auto.
        + simpl. rewrite <- app_assoc. reflexivity.
      - apply (Hshape (notes ++ map Machine evs
                       ++ [Said (report (Exception e))])%list).
        + apply Forall_app. split; [exact Fn|]. apply Forall_app.
          split; [exact Fe|]. asked_ok.
        + simpl. rewrite <- !app_assoc. reflexivity. }
    destruct (PyStr.truthy (PyStrip.strip line')); apply Hcall;
      asked_ok. }
  assert (Hfirst : forall ch tail x,
            Forall (fun en => is_machine_entry en = false) (banner ++ ch) ->
            head (List.filter is_machine_entry
                    ((banner ++ ch) ++ Machine x :: tail))
            = Some (Machine x)).
  { intros ch tail x F. rewrite List.filter_app.
    rewrite (filter_entries_none _ _ F). reflexivity. }
  rewrite main_run, choose_downloader_run, keyboard_notes, Hk.
  unfold first_on_machine.
  destruct (String.eqb (PyStrip.strip choice) "2").
  - destruct rest as [|line rest'].
    + cbn [fst snd]. tidy_main. rewrite new_entries_notes by reflexivity.
      split; [elem_solve|]. intros line rest' [=].
    + assert (Hkey : forall key ch,
                In (Asked AskKeyFile) ch ->
                Forall (fun en => is_machine_entry en = false) (banner ++ ch) ->
                let run := try_interrupt_except
                             (authenticate_and_download os google int_of
                                (init key "token.json" true))
                             (say MsgCancelled) (fun e => say (MsgError e))
                             (notes_down (banner ++ ch) (set_keyboard rest' s)) in
                Asked AskKeyFile ∈ new_entries s run.2
                /\ head (List.filter is_machine_entry (new_entries s run.2))
                   = Some (Machine (CallExists key
                                      (path_exists (machine s) key)))).
      { intros key ch Hin F run.
        destruct (Hbody (init key "token.json" true) ch rest' F)
          as (tail & E & _).
        cbv zeta in E. fold run in E. rewrite E. split.
        - apply elem_of_app. left. apply elem_of_app. right.
          apply list_elem_of_In. exact Hin.
        - apply Hfirst. exact F. }
      destruct (PyStr.truthy (PyStrip.strip line)) eqn:Ht; tidy_main.
      * destruct (Hkey (PyStrip.strip line) [Asked AskChoice; Asked AskKeyFile])
          as (H1 & H2); [simpl; auto|repeat constructor|].
        split; [exact H1|]. intros l r [= <- <-]. rewrite Ht. exact H2.
      * destruct (Hkey "service-account-key.json"
                    [Asked AskChoice; Asked AskKeyFile;
                     Said (MsgUsingDefault "service-account-key.json")])
          as (H1 & H2); [simpl; auto|repeat constructor|].
        split; [exact H1|]. intros l r [= <- <-]. rewrite Ht. exact H2.
  - tidy_main.
    destruct (Hbody (init "credentials.json" "token.json" false)
                [Asked AskChoice] rest ltac:(repeat constructor))
      as (tail & E & Ft).
    cbv zeta in E. rewrite E. split.
    + intros Hin. apply elem_of_app in Hin as [Hin|Hin];
        [unfold banner in Hin; elem_solve|].
      apply elem_of_cons in Hin as [Hin|Hin]; [discriminate|].
      pose proof (proj1 (Forall_forall _ _) Ft _ Hin _ eq_refl) as [H|H];
        discriminate H.
    + apply Hfirst. repeat constructor.
Qed.

End Main.

(** ** The theorems above on concrete sessions *)

Lemma main_raises_only_at_first_prompts_witness :
  (main Demo.sound_os (Office.google Scene.unlistable) Office.number
     (Office.desk ∅ [])).1 = Failed (Exception EOFError)
  /\ ended_at_first_prompts (Office.desk ∅ []) (Exception EOFError)
       (main Demo.sound_os (Office.google Scene.unlistable) Office.number
          (Office.desk ∅ [])).
Proof.
  split; [reflexivity|].
  apply (main_raises_only_at_first_prompts Demo.sound_os
           (Office.google Scene.unlistable) Office.number (Office.desk ∅ [])
           (Exception EOFError)).
  reflexivity.
Defined.

Lemma blank_folder_name_downloads_nothing_witness :
  keyboard (Office.desk {["token.json" := [x7b; x7d]]} ["1"; "   "; "x"])
  = (["1"] ++ "   " :: ["x"])%list
  /\ answers_method ["1"] = true
  /\ PyStr.truthy (PyStrip.strip "   ") = false
  /\ left_without_folder ["x"]
       (Office.desk {["token.json" := [x7b; x7d]]} ["1"; "   "; "x"])
       (main Demo.sound_os (Office.google Scene.unlistable) Office.number
          (Office.desk {["token.json" := [x7b; x7d]]} ["1"; "   "; "x"])).
Proof.
  split; [reflexivity|]. split; [reflexivity|]. split; [reflexivity|].
  apply (blank_folder_name_downloads_nothing Demo.sound_os
           (Office.google Scene.unlistable) Office.number
           (Office.desk {["token.json" := [x7b; x7d]]} ["1"; "   "; "x"])
           ["1"] "   " ["x"]); reflexivity.
Defined.


(** The session above, run: the folder [Reports] is looked up by its
    stripped name, and the directories are [.] and [./downloads]. *)
Example default_path_session :
  List.filter is_download_entry
    (journal
       (main Demo.sound_os (Office.google (Demo.drive [] Demo.one_pdf))
          Office.number
          (Office.desk {["token.json" := [x7b; x7d]]}
             ["1"; " Reports "; ""])).2)
  = map Machine
      [Print (MsgAttemptingToSave "./downloads");
       Print (MsgFullAbsolutePath "./downloads");
       Print (MsgParentMissing ".");
       CallMakedirs "." true;
       Print MsgCreatedParents;
       CallMakedirs "./downloads" true;
       Print (MsgTargetReady "./downloads");
       CallFolderQuery "Reports";
       Print (MsgFolderNotFound "Reports")].
Proof. vm_compute. reflexivity. Qed.

Lemma method_is_oauth_unless_two_witness :
  keyboard (Office.desk {["key.json" := [x7b]]} ["2"; "key.json"])
  = "2" :: ["key.json"]
  /\ let s := Office.desk {["key.json" := [x7b]]} ["2"; "key.json"] in
     let run := main Demo.sound_os (Office.google Scene.unlistable)
                  Office.number s in
     let new := new_entries s run.2 in
     if String.eqb (PyStrip.strip "2") "2" then
       Asked AskKeyFile ∈ new
       /\ (forall line rest',
             ["key.json"] = line :: rest' ->
             let key := if PyStr.truthy (PyStrip.strip line)
                        then PyStrip.strip line
                        else "service-account-key.json" in
             first_on_machine s run
             = Some (Machine (CallExists key (path_exists (machine s) key))))
     else
       (Asked AskKeyFile ∉ new)
       /\ first_on_machine s run
          = Some (Machine (CallExists "token.json"
                             (path_exists (machine s) "token.json"))).
Proof.
  split; [reflexivity|].
  apply (method_is_oauth_unless_two Demo.sound_os
           (Office.google Scene.unlistable) Office.number
           (Office.desk {["key.json" := [x7b]]} ["2"; "key.json"])
           "2" ["key.json"]).
  reflexivity.
Defined.
